(* ===== verification/_CoqProject ===== *)
-Q . S2P
Prelude.v
JsValue.v
SortCompare.v
Records.v
Search.v
MemStore.v
Backend.v
Router.v
Session.v
SqlStore.v
Equivalence.v
AdminPage.v
AdminFlow.v
AdminView.v
Lifecycle.v
