(* ===== verification/Prelude.v ===== *)
(** * A verification development of the Virat News mock content API

    The repository is a small Express server, [src/mock-api/index.js],
    with a browser admin page, [src/mock-api/admin/app.js].  The server
    keeps three collections (categories, articles, ads) either in a
    module-level JavaScript object ([inMemory], lines 50-66) or in a
    sqlite file, chosen once at start-up ([useSqlite], lines 9-20).  Each
    HTTP route is one handler: read routes are public, mutating routes
    are guarded by the middleware [requireAuth] (lines 30-33), which
    accepts a request whose cookie [admin] is the string ["1"]; the
    cookie is issued by [POST /admin/login] (lines 308-315) and cleared
    by [POST /admin/logout] (lines 317-320).

    ** Files and what they model

    - [Prelude] (this file): the JavaScript values a JSON request body
      carries ([JsVal]), truthiness and the [||] operator, strict
      equality [===], the notation scope [js_scope], the hint database
      [vnc], the tactics and the list lemmas the components share.
    - [JsValue]: the parts of the JavaScript semantics the handlers rely
      on: [ToNumber] and [ToString] of a value, [String.prototype.
      toLowerCase] (on Latin-1 code units) and [String.prototype.
      includes].
    - [SortCompare]: [Array.prototype.sort] with a comparator, as the
      stable insertion sort [sort_by]; the ECMAScript contract of a
      stable sort ([stable_sorted_of]) and the theorem that it has
      exactly one solution, so that the model agrees with any engine's
      stable sort (V8 uses TimSort).
    - [Records]: the records [Category], [Article], [Ad] as the handlers
      build them from a request body (the destructuring
      [const { name, order } = req.body] and [order || 0]).
    - [MemStore]: the in-memory backend, the [else] branch of every
      handler: the store [MemStore.t] mirrors [inMemory], one
      definition per branch (push, findIndex and assignment, filter,
      in-place sort), and the id-uniqueness invariant.
    - [Search]: the search filter of [GET /api/search] (line 246) and
      the query normalisation of line 238.
    - [Backend]: the capability set of spec section 4.1 as the typeclass
      [Backend] (the operation a handler calls after the code common to
      both branches) and the law class [BackendLaws] (what the handlers
      rely on); [MemStore] is the first instance of both.
    - [Router]: requests and responses, the configuration of lines 9-28,
      Express route matching (the route table in registration order,
      case-insensitive literal segments, [:id] parameters, an optional
      trailing slash, [app.get] answering [HEAD], the [cors] preflight,
      the static mounts), [requireAuth], one handler per route over any
      [Backend], and [dispatch], one request through the application.
    - [Session]: the admin page's browser ([fetchJson] of app.js lines
      3-7 sends the page's cookies) and the server as one system: the
      state [Session.Sys] pairs the store with the browser's cookie jar,
      [exchange] is one request and its [Set-Cookie], [run] a trace, and
      the inductive [reaches] the reachable states.
    - [SqlStore]: the sqlite backend, the [if (useSqlite)] branch of every
      handler, as the second [Backend] instance [sql_backend]: the three
      tables of lines 73-75 as lists of rows in rowid order, values as
      node-sqlite3 binds them and the columns' affinity stores them,
      [PRIMARY KEY] conflicts as the driver's error, [UPDATE] and
      [DELETE] that match no row succeeding, [ORDER BY order_num] as a
      stable sort by SQLite's value order, [lower()] and [LIKE] with its
      wildcards and NULL propagation, the seeding of lines 77-97, and
      the cascade [DELETE] of line 154, issued without waiting, as a
      queue of [pending] statements that [flush] runs.
    - [AdminPage]: the admin page (app.js) as the client that builds
      request bodies: [parseInt] ([parse_int]), the value a number input
      reports ([number_input_value]), the quoted [value='${...}']
      attributes, the [textarea] and the category [select] of the edit
      forms as the HTML parser reads them, and the bodies of the
      add-category form and of the category and article edit forms; a
      text input's [.value] drops line breaks ([input_value]).
    - [AdminFlow]: the click handlers of the admin page as exchanges of
      the browser with the server ([Session.exchange]): the Add buttons
      of the article and ad forms (the optional upload to
      [/api/upload], [fetchJson] throwing on a response that is not ok,
      the body sent), the Edit/Save buttons ([data-id], the lookup of
      the record, the prefilled form, the [PUT]), the Delete buttons
      ([fetch] on the [data-id], its answer ignored), the login and logout buttons, the requests of
      [loadArticles] that build the article list, and the ad edit
      form's body.
    - [AdminView]: the admin page as the browser runs it.  Each
      [async] function or click handler of app.js is a [View.Task]: its
      synchronous statements ([container.innerHTML = ...],
      [appendChild], [onclick = ...], [alert], [style.display = ...], a
      call without [await])
      up to each [await fetch], whose continuation takes the response.
      The page [View.Page] is the browser-server system of [Session],
      the container ([View.Screen]: the nodes each [loadX] renders as
      their HTML text, the handlers installed on the buttons, and what
      the page does outside it: the alerts and the display of the login
      and logout buttons) and the fetches in flight; a step ([View.page_event]) is
      a click on a button that has a handler, with what the user typed,
      or the response of any fetch in flight, so every interleaving of
      the un-awaited [loadX] calls is a schedule ([View.run_events]).
      [View.boot] is the start-up call of line 245.
    - [Equivalence]: the two backends compared.  The relation [Sim.sim]
      relates an in-memory store and a sqlite store holding the same
      records (categories up to order, articles and ads in order) with
      no statement pending; [sim_result] relates two answers of one
      operation.  [good_route] and [good_request] are the conditions,
      read on the in-memory store, under which a request cannot reach a
      divergence; [serve] runs a trace of requests through [dispatch],
      with a [settle] step between requests ([flush] for sqlite).
    - [Lifecycle]: the process around the app (lines 322-338): the port
      [process.env.PORT || 4000], the start-up line of the [listen]
      callback, and the server [error], [uncaughtException] and
      [unhandledRejection] handlers that log and call
      [process.exit(1)], as the state machine [Lifecycle.proc_step]
      over [Starting], [Listening] and [Exited] that answers requests
      through [dispatch] only while listening; and the one case of the
      test suite (test/api.test.js) as the predicate
      [Lifecycle.categories_test] on a response.

    ** What the theorems show

    - Auth gate ([Router]): a guarded route without the cookie is a 401
      that touches nothing ([guarded_routes_reject]); over any lawful
      backend an unauthenticated request changes the store only by the
      in-place sort of a listing ([unauthenticated_store_effect]);
      login answers 403 on a wrong password and sets the cookie on the
      right one.
    - Listing ([SortCompare], [MemStore]): [GET /api/categories] answers
      the stable sort by order and stores it ([get_categories_sorted]);
      a new category lands after every order at most its own
      ([create_then_list]); the in-place sort is invisible across
      creations ([list_create_list]).  That the insertion sort of the
      model is the sort of every conforming engine is the adequacy lemma
      [get_categories_engine_independent] (from the uniqueness of stable
      sorts, [stable_sorted_unique]).
    - Store invariant ([MemStore]): every operation keeps ids unique when
      creations draw fresh ids ([exec_preserves_ids_unique]), and on any
      store a creation that draws an id in use breaks it
      ([create_colliding_id_breaks_unique]).
    - Functional behaviour: the cascade of a category delete, update as a
      map under unique ids, 404 on a missing id, create/update/delete
      followed by a read (in [MemStore], and at the HTTP level over any
      lawful backend in [Router]).
    - Search ([Search]): case-insensitive substring match on title,
      description and content; longer queries narrow the results; the
      empty query returns everything; an article without a title is
      found by every query occurring in the word "undefined"
      ([search_untitled_matches_undefined]); an array query is a 500.
    - Session ([Session]): by rule induction on [reaches], an honest
      browser holds the admin cookie only after a successful login with
      no logout after it ([cookie_only_after_login]), and one that never
      logs in never sends it ([no_login_no_cookie]); the login scenario
      of spec section 8 runs as specified ([login_scenario]).  The admin
      is never locked out: from every reachable state, the login button's
      request with the configured password sets the cookie that
      [requireAuth] accepts, and any guarded request after it passes the
      guard and ends with that route's handler applied to the store ([admin_can_always_act], liveness stated as
      reachability, since the system has no fairness to assume).
    - Sqlite ([SqlStore]): the primary keys hold for every event with no
      freshness assumption, and only a seeding that meets a present id
      ends the process instead ([exec_preserves_rows_unique]); after
      every category has been deleted, a restart seeds again and the
      seed ad still stored makes it end the process, so the server
      cannot start ([restart_after_emptying_categories_crashes]); an
      update of an absent id answers 200 with the request's record
      ([update_article_absent]), so the backend satisfies no
      [BackendLaws]; the cascade of a category delete becomes visible
      only once it has run ([delete_category_cascade_deferred]); with
      integer orders the listing is the in-memory
      listing ([get_categories_matches_memory]); a created article reads
      back when its fields are strings or null ([create_article_get]);
      for seven-bit text and a query without wildcards, [LIKE] search is
      the in-memory search ([search_matches_memory], from [like_includes]);
      outside those conditions it differs: an article created without a
      description is never found by sqlite, while memory finds it by its
      title ([null_description_never_found]).  The seeded database reads
      as the in-memory seed.  A number sent as an article's title reads
      back from [GET /api/articles/:id] as its digits inside the signed
      32-bit range and with a trailing [.0] outside it
      ([text_column_number_bounds]), where memory keeps the number.
    - Admin page ([AdminPage]): whatever is typed in the order field, a
      created category has a numeric order, so the page keeps the
      precondition of the listing theorems
      ([admin_create_keeps_numeric_orders]); saving a category's edit
      form unchanged is the identity on the store for a plain name and an
      integer order ([edit_category_unchanged], from [parse_int_number]:
      [parseInt] reads back the decimal rendering of every integer, as
      [ToNumber] does by [Js.string_to_number_of_number]); saving an article's edit form
      erases its [publishedAt] and moves an article whose category is
      not listed to the first category ([admin_edit_erases_published],
      [edit_article_select]); an unchanged save cuts a name at its first
      single quote and stores ["undefined"] for a missing description
      ([admin_edit_corruptions]).
    - Admin flows ([AdminFlow]): logged in, Add Article uploads the file
      and stores an article with its URL, the category chosen in the
      [select] and no [publishedAt]
      ([admin_add_article], [admin_add_article_stored]); logged out,
      neither Add button changes the store ([admin_add_logged_out]); a
      Delete click deletes when logged in and silently does nothing
      otherwise ([admin_delete_clicks]); the login button sets the
      cookie exactly on the configured password ([admin_login_click]);
      saving a category's edit form untouched through the page is the
      identity on the store ([admin_edit_category_unchanged]), and so is
      saving an ad's edit form for plain fields ([edit_ad_unchanged]); the article list, built with one
      request per listed category, shows exactly the articles filed
      under a stored category ([load_articles_mem],
      [admin_list_hides_orphans]).
    - The page ([AdminView]): clicked with nothing in flight, the
      categories tab shows exactly the backend's listing and the add
      form ([categories_tab_shows_listing]); the Delete button rendered
      for a category sends the request of [Flow.delete_click] and the
      reload it starts shows the listing after the delete
      ([delete_button_refreshes]); two loads in flight at once show the
      list twice ([categories_double_load_duplicates]); and on every
      page reached from a browser without the cookie, whatever the order
      of the answers, the Logout button is shown and the Login button
      hidden exactly when the browser holds the cookie
      ([login_buttons_follow_cookie], by the invariant [View.page_disp]:
      only the login and logout answers change the cookie, and their
      continuations set both buttons).  A page loaded with the cookie
      shows the Login button ([reload_logged_in_shows_login]).
    - Process ([Lifecycle]): after a server error, an uncaught
      exception or an unhandled rejection the process has exited with
      code 1, keeps its store and answers no later request
      ([fatal_event_stops_serving]); the assertion of the test suite
      holds of the app on both backends, whatever they store
      ([api_test_categories]), so the test fails only because index.js
      does not export the app.
    - Refinement ([Equivalence]): one simulation lemma per [Backend]
      operation ([sim_create_category] ... [sim_delete_ad]), lifted to
      the handlers ([sim_run_route]) and to [dispatch]
      ([sim_dispatch]); the seeds are related ([sim_seed]); so the two
      servers, started on their seeds with one password, answer every
      good trace alike ([servers_agree]) when the un-awaited cascade has
      run before the next request.  The conditions are the ones the
      divergences of [SqlStore] and [MemStore] show to be needed.

    ** Not yet modelled

    - The HTML the page renders is kept as text: the browser's parsing
      of it into elements is not modelled, so the buttons a user can
      click are the ones the code installs handlers on; markup injected
      through a stored name (a finding) is therefore not reflected in
      the clickable buttons.  The initial display of the login and
      logout buttons is set by index.html, which is not in the
      repository; the model starts with neither displayed.  Percent-decoding of URL paths is
      not modelled (ids are taken from [nanoid]'s alphabet where it
      matters).
    - HTML character references in attribute values and [textarea]
      text are not decoded: the round-trip theorems assume text without
      [&].
    - Errors of the sqlite driver other than a [PRIMARY KEY] conflict
      (a missing file, a locked database): the model's statements
      always run.  A conflict in a handler's [INSERT] is the 500 of its
      callback; in a seeding [stmt.run], which has no callback, it ends
      the process ([Sql.insert_run]), and the rows inserted before it
      are not modelled, since the server is then down.

    ** Modelling choices

    - JSON numbers are modelled as integers ([JNum : Z -> JsVal]); the
      handlers never do arithmetic on them except the sort comparator.
      JSON arrays and objects inside a body are not modelled.
    - Strings are [String.string]: sequences of 8-bit code units, read
      as the Latin-1 range U+0000..U+00FF of JavaScript's UTF-16 code
      units.  [toLowerCase] is exact on that range.
    - Identifiers drawn by [nanoid(6)] and file names chosen by
      [multer] are oracles: the handlers receive them as arguments; the
      invariant theorems assume the drawn id is unused, which [nanoid]
      makes likely and the code does not check.
    - Array sorting is modelled by a stable insertion sort; the theorems
      that depend on the order hold for every engine because the
      stable-sort contract has one solution when all orders are numbers
      (strings that are not decimal integers read as [NaN]).
    - Sqlite: a TEXT bound into [order_num] becomes an INTEGER when it
      is an integer literal between the blanks SQLite skips (TAB, LF,
      VT, FF, CR, SPACE; [Sql.sql_space]), not JavaScript's wider set.
      node-sqlite3 binds a number as INTEGER when it is a
      signed 32-bit integer and as REAL otherwise ([Sql.bind]); a REAL
      is an [SReal z] carrying its integral value, and its text in a
      TEXT column is SQLite's [%!.15g] rendering ([Sql.real_text]: the
      digits and [.0] below [10^15], a 15-digit mantissa and exponent
      from there on).  [JSON.parse] rounds an integer past [2^53] to the
      nearest double; the model keeps the exact integer, so what it says
      of such numbers holds for the integers a double represents.
      Strings are compared byte-wise, which is
      SQLite's BINARY collation on the Latin-1 range; [ORDER BY] ties
      keep rowid order, the order of SQLite's scan (the SQL standard
      leaves it open); the issued cascade runs when the model calls
      [flush], so any interleaving of reads before it is expressible.
      Texts stored in the INTEGER column [order_num] that are real
      literals would become REAL in SQLite; the model keeps them as
      text, and the comparison with memory assumes integer orders.
    - A request path is its list of segments; percent-decoding of
      parameters is not modelled.  Every recursion is structural but
      one: the synchronous run of a page task ([View.run_sync]) follows
      calls made without [await] into the called function, bounded by
      [View.call_depth] = 1; one level is enough because the handlers
      call a [loadX] whose synchronous part calls nothing, and the
      adequacy lemma [View.page_never_stuck] (by the invariant
      [View.task_ok] on every handler and continuation) proves that the
      bound is never reached on any page a session reaches, so no
      behaviour of app.js is cut off by it.
    - Static file serving ([express.static]) and multipart storage
      ([multer]) are not modelled: they are libraries the code only
      configures; the dispatcher hands their requests over, and the
      upload handler receives multer's file name.  Binding the socket is
      an event of [Lifecycle] ([PListening]), not a computation. *)

From stdpp Require Export base list strings gmap sorting.
From Stdlib Require Export ZArith Ascii String DecimalString.

Declare Scope js_scope.
Delimit Scope js_scope with js.

Create HintDb vnc.
Create Rewrite HintDb vnc_rw.

(** ** JavaScript values carried by a JSON request body *)

(** [undefined] stands for a field absent from [req.body]. *)
Inductive JsVal : Type :=
| JUndefined
| JNull
| JBool (b : bool)
| JNum (z : Z)
| JStr (s : string).

#[export] Instance JsVal_eq_dec : EqDecision JsVal.
Proof. solve_decision. Defined.

(** ToBoolean (ECMA-262 7.1.2) on the values above; [NaN] is not one. *)
Definition truthy (v : JsVal) : bool :=
  match v with
  | JUndefined | JNull => false
  | JBool b => b
  | JNum z => negb (Z.eqb z 0)
  | JStr s => negb (String.eqb s ""%string)
  end.

(** [a || b]: the left operand when it is truthy, else the right one. *)
Definition js_or (a b : JsVal) : JsVal := if truthy a then a else b.

(** Strict equality [===] (ECMA-262 7.2.16): same type and same value. *)
Definition js_strict_eq (a b : JsVal) : bool := bool_decide (a = b).

Notation "a || b" := (js_or a b) : js_scope.
Notation "a === b" := (js_strict_eq a b) (at level 70, no associativity) : js_scope.
Notation "a !== b" := (negb (js_strict_eq a b)) (at level 70, no associativity) : js_scope.

(** ** Outcomes of a storage operation

    What a backend branch reports to the handler: a value, the
    [404 'Not found'] of a missing id, or the [err] of a database
    callback, whose message the handler returns with status 500. *)
Inductive outcome (A : Type) : Type :=
| Ok (x : A)
| NotFound
| Failure (msg : string).
Arguments Ok {A} x.
Arguments NotFound {A}.
Arguments Failure {A} msg.

(** ** Tactics *)

(** Decide a closed decidable proposition by evaluation. *)
Ltac eval_decide := apply (bool_decide_unpack _); vm_compute; exact I.

(** ** Generic lemmas *)

Lemma js_or_truthy a b : truthy a = true -> js_or a b = a.
Proof. unfold js_or. by intros ->. Qed.

Lemma js_or_falsy a b : truthy a = false -> js_or a b = b.
Proof. unfold js_or. by intros ->. Qed.

Lemma js_strict_eq_true a b : js_strict_eq a b = true <-> a = b.
Proof. unfold js_strict_eq. apply bool_decide_eq_true. Qed.

(** stdpp makes [String.append] opaque to [simpl]; these unfold it. *)
Lemma string_app_nil_l (b : string) : ("" ++ b)%string = b.
Proof. reflexivity. Qed.

Lemma string_app_cons c (a b : string) : (String c a ++ b)%string = String c (a ++ b)%string.
Proof. reflexivity. Qed.

Lemma string_app_assoc (a b c : string) : (a ++ (b ++ c) = (a ++ b) ++ c)%string.
Proof. induction a as [|x a IH]; [done|]. by rewrite !string_app_cons, IH. Qed.

Lemma string_app_nil_r (a : string) : (a ++ "")%string = a.
Proof. induction a as [|x a IH]; [done|]. by rewrite string_app_cons, IH. Qed.

(** An option known to be [Some] by evaluating [bool_decide (is_Some o)]
    (which reads back only a boolean, not the value) is [Some] of its
    default. *)
Lemma option_default_Some {A} (d : A) (o : option A) :
  bool_decide (is_Some o) = true -> o = Some (default d o).
Proof. by destruct o. Qed.

(** A fold in the option monad that has failed stays failed. *)
Lemma foldl_bind_None {A B} (f : B -> A -> option A) (xs : list B) :
  foldl (fun acc x => acc ≫= f x) None xs = None.
Proof. by induction xs. Qed.

Section FilterLemmas.
Context {A : Type} (P : A -> Prop) `{!forall x, Decision (P x)}.

Lemma filter_all (l : list A) : Forall P l -> filter P l = l.
Proof.
  induction 1 as [|x l Hx _ IH]; [done|].
  by rewrite filter_cons_True, IH.
Qed.

Lemma filter_none (l : list A) : Forall (fun x => ~ P x) l -> filter P l = [].
Proof.
  induction 1 as [|x l Hx _ IH]; [done|].
  by rewrite filter_cons_False, IH.
Qed.

Lemma filter_idem (l : list A) : filter P (filter P l) = filter P l.
Proof. apply list_filter_filter_r. done. Qed.
Lemma filter_ext_Forall (Q : A -> Prop) `{!forall x, Decision (Q x)} (l : list A) :
  Forall (fun x => P x <-> Q x) l -> filter P l = filter Q l.
Proof.
  induction 1 as [|x l Hx _ IH]; [done|].
  rewrite !filter_cons. by repeat case_decide; rewrite ?IH; try tauto.
Qed.

Lemma Forall_filter_keep (Q : A -> Prop) (l : list A) : Forall Q l -> Forall Q (filter P l).
Proof. rewrite !Forall_forall. intros HQ x [_ Hx]%list_elem_of_filter. by apply HQ. Qed.

Lemma filter_filter_neg (l : list A) : filter P (filter (fun x => ~ P x) l) = [].
Proof.
  apply filter_none, Forall_forall. intros x Hx%list_elem_of_filter. tauto.
Qed.

Lemma list_filter_fmap {B} (f : B -> A) (l : list B) :
  filter P (f <$> l) = f <$> filter (fun x => P (f x)) l.
Proof.
  induction l as [|x l IH]; [done|].
  rewrite fmap_cons, !filter_cons. case_decide; by rewrite ?fmap_cons, IH.
Qed.
End FilterLemmas.

Lemma Forall_sublist_of {A} (P : A -> Prop) (l1 l2 : list A) :
  l1 `sublist_of` l2 -> Forall P l2 -> Forall P l1.
Proof. intros Hs H. induction Hs; inversion_clear H; auto. Qed.

(** Lists of records keyed by a projection [f] (the [id] field): the
    key list stays duplicate-free under [filter], [push] of a fresh key,
    and the in-place replacement of the record [findIndex] found. *)
Section KeyedLists.
Context {A K : Type} `{!EqDecision K} (f : A -> K).

Lemma NoDup_fmap_filter (P : A -> Prop) `{!forall x, Decision (P x)} l :
  NoDup (f <$> l) -> NoDup (f <$> filter P l).
Proof.
  intros Hl. eapply sublist_NoDup; [exact Hl|].
  apply fmap_sublist, sublist_filter.
Qed.

Lemma NoDup_fmap_snoc l x :
  NoDup (f <$> l) -> f x ∉ f <$> l -> NoDup (f <$> l ++ [x]).
Proof.
  intros Hl Hx. rewrite fmap_app, NoDup_app. simpl.
  split; [done|]. split; [|apply NoDup_singleton].
  intros y Hy ->%list_elem_of_singleton. done.
Qed.

Lemma fmap_insert_found k l i old new :
  list_find (fun x => f x = k) l = Some (i, old) -> f new = f old ->
  f <$> <[i := new]> l = f <$> l.
Proof.
  intros [Hl _]%list_find_Some Hn. rewrite list_fmap_insert, Hn.
  apply list_insert_id. by rewrite list_lookup_fmap, Hl.
Qed.

Lemma fmap_keep_others k (g : A -> A) l :
  Forall (fun x => f x <> k) l ->
  (fun x => if decide (f x = k) then g x else x) <$> l = l.
Proof.
  induction 1 as [|x l Hx _ IH]; [done|].
  rewrite fmap_cons, IH. by case_decide.
Qed.

(** With unique keys, replacing the record [findIndex] found is the
    same as mapping the replacement over the key it has. *)
(** Under unique keys, the element [list_find] finds for the key of a
    member [c] is [c], and writing [c] back leaves the list. *)
Lemma list_find_key_member l c :
  NoDup (f <$> l) -> c ∈ l ->
  exists i, list_find (fun x => f x = f c) l = Some (i, c) /\ <[i := c]> l = l.
Proof.
  intros Hnd Hc.
  destruct (list_find_elem_of (fun x => f x = f c) l c Hc eq_refl) as [[i old] Hf].
  pose proof Hf as (Hi & Hk & _)%list_find_Some.
  apply list_elem_of_lookup in Hc as [j Hj].
  assert (i = j) as ->.
  { eapply NoDup_lookup; [exact Hnd|by rewrite list_lookup_fmap, Hi|].
    by rewrite list_lookup_fmap, Hj, Hk. }
  rewrite Hj in Hi. injection Hi as ->. exists j. split; [done|].
  by apply list_insert_id.
Qed.

Lemma insert_found_map k (g : A -> A) l i old :
  NoDup (f <$> l) -> list_find (fun x => f x = k) l = Some (i, old) ->
  <[i := g old]> l = (fun x => if decide (f x = k) then g x else x) <$> l.
Proof.
  revert i. induction l as [|y l IH]; intros i Hnd Hf; [done|].
  simpl in Hnd, Hf. apply NoDup_cons in Hnd as [Hy Hnd].
  case_decide as Hk.
  - injection Hf as <- <-. simpl. rewrite decide_True by done.
    f_equal. symmetry. apply fmap_keep_others.
    apply Forall_forall. intros x Hx Hfx. apply Hy.
    rewrite Hk, <- Hfx. by apply list_elem_of_fmap_2.
  - destruct (list_find _ l) as [[j z]|] eqn:E; [|done].
    injection Hf as <- <-. simpl. rewrite decide_False by done.
    f_equal. by apply IH.
Qed.
(** After the replacement, [findIndex] finds the new record at the
    same index. *)
Lemma list_find_insert_found k l i old new :
  list_find (fun x => f x = k) l = Some (i, old) -> f new = k ->
  list_find (fun x => f x = k) (<[i := new]> l) = Some (i, new).
Proof.
  intros [Hl [Hk Hbefore]]%list_find_Some Hn. apply list_find_Some.
  split_and!; [|done|].
  - apply list_lookup_insert_eq. eapply lookup_lt_Some, Hl.
  - intros j y Hj Hji. rewrite list_lookup_insert_ne in Hj by lia.
    eapply Hbefore; eauto.
Qed.

Lemma list_find_absent k l :
  k ∉ f <$> l -> list_find (fun x => f x = k) l = None.
Proof.
  intros Hk. apply list_find_None, Forall_forall. intros x Hx Hfx.
  apply Hk. rewrite <- Hfx. by apply list_elem_of_fmap_2.
Qed.
Lemma not_elem_of_fmap_Forall k l :
  k ∉ f <$> l -> Forall (fun x => f x <> k) l.
Proof.
  intros Hk. apply Forall_forall. intros x Hx Hfx.
  apply Hk. rewrite <- Hfx. by apply list_elem_of_fmap_2.
Qed.

(** An update that keeps the key of the records it rewrites keeps the
    key list. *)
Lemma fmap_update_keys k (g : A -> A) (l : list A) :
  (forall x, f x = k -> f (g x) = k) ->
  f <$> ((fun x => if decide (f x = k) then g x else x) <$> l) = f <$> l.
Proof.
  intros Hg. induction l as [|x l IH]; [done|].
  rewrite !fmap_cons, IH. case_decide; [|done]. f_equal. by rewrite Hg.
Qed.
End KeyedLists.

#[export] Hint Resolve js_or_truthy js_or_falsy : vnc.
#[export] Hint Rewrite @filter_app @filter_nil string_app_nil_l string_app_cons : vnc_rw.
