(* ===== verification/JsValue.v ===== *)
(** The JavaScript operations the handlers apply to request values:
    [ToNumber] (used by the sort comparator [a.order - b.order]),
    [ToString] (used by the [+] concatenations of the search filter),
    [String.prototype.toLowerCase] and [String.prototype.includes],
    with the lemmas the components share, among them that [ToNumber]
    reads back the decimal rendering of every integer.  Strings are
    sequences of Latin-1 code units (see the root header). *)

From S2P Require Import Prelude.
From Stdlib Require DecimalPos.

Local Open Scope string_scope.

Module Js.

(** ** ToNumber (ECMA-262 7.1.4) *)

(** The white space and line terminators [StringToNumber] trims, in the
    Latin-1 range: TAB, LF, VT, FF, CR, SPACE and NO-BREAK SPACE. *)
Definition is_space (c : Ascii.ascii) : bool :=
  let n := Ascii.N_of_ascii c in
  (N.eqb n 9 || N.eqb n 10 || N.eqb n 11 || N.eqb n 12 || N.eqb n 13
   || N.eqb n 32 || N.eqb n 160)%bool.

Fixpoint trim_start (s : string) : string :=
  match s with
  | EmptyString => EmptyString
  | String c s' => if is_space c then trim_start s' else s
  end.

Fixpoint trim_end (s : string) : string :=
  match s with
  | EmptyString => EmptyString
  | String c s' =>
      let r := trim_end s' in
      if (is_space c && String.eqb r "")%bool then EmptyString else String c r
  end.

Definition trim (s : string) : string := trim_end (trim_start s).

Definition digit_value (c : Ascii.ascii) : option Z :=
  let n := Ascii.N_of_ascii c in
  if (N.leb 48 n && N.leb n 57)%bool then Some (Z.of_N n - 48)%Z else None.

(** A non-empty run of decimal digits, read with accumulator [acc]. *)
Fixpoint digits_from (acc : Z) (s : string) : option Z :=
  match s with
  | EmptyString => Some acc
  | String c s' =>
      match digit_value c with
      | Some d => digits_from (10 * acc + d)%Z s'
      | None => None
      end
  end.

Definition parse_digits (s : string) : option Z :=
  match s with
  | EmptyString => None
  | _ => digits_from 0 s
  end.

(** A string of decimal digits only. *)
Fixpoint all_digits (s : string) : bool :=
  match s with
  | EmptyString => true
  | String c s' => match digit_value c with Some _ => all_digits s' | None => false end
  end.

(** [StringToNumber] on the decimal integer literals: an empty (or
    all-blank) string is [0]; an optional sign followed by digits is
    that integer; everything else is [NaN], written [None].  Numeric
    literals with a fraction, an exponent, a [0x]/[0o]/[0b] prefix or
    [Infinity] denote values outside the integers of this model and are
    also read as [None]: no theorem of the development assumes them. *)
Definition string_to_number (s : string) : option Z :=
  match trim s with
  | EmptyString => Some 0%Z
  | String c r =>
      if Ascii.eqb c "-" then option_map Z.opp (parse_digits r)
      else if Ascii.eqb c "+" then parse_digits r
      else parse_digits (String c r)
  end.

Definition to_number (v : JsVal) : option Z :=
  match v with
  | JUndefined => None
  | JNull => Some 0%Z
  | JBool b => Some (if b then 1 else 0)%Z
  | JNum z => Some z
  | JStr s => string_to_number s
  end.

(** ** ToString (ECMA-262 7.1.17) *)

Definition number_to_string (z : Z) : string :=
  NilEmpty.string_of_int (Z.to_int z).

Definition to_string (v : JsVal) : string :=
  match v with
  | JUndefined => "undefined"
  | JNull => "null"
  | JBool true => "true"
  | JBool false => "false"
  | JNum z => number_to_string z
  | JStr s => s
  end.

(** ** String.prototype.toLowerCase on Latin-1 code units *)

(** The upper-case letters of U+0000..U+00FF are A..Z and
    U+00C0..U+00DE without U+00D7 (the multiplication sign); each maps
    to the code unit 32 above it. *)
Definition is_upper (c : Ascii.ascii) : bool :=
  let n := Ascii.N_of_ascii c in
  ((N.leb 65 n && N.leb n 90)
   || (N.leb 192 n && N.leb n 222 && negb (N.eqb n 215)))%bool.

Definition lower_char (c : Ascii.ascii) : Ascii.ascii :=
  if is_upper c then Ascii.ascii_of_N (Ascii.N_of_ascii c + 32) else c.

Fixpoint to_lower (s : string) : string :=
  match s with
  | EmptyString => EmptyString
  | String c s' => String (lower_char c) (to_lower s')
  end.

(** ** String.prototype.includes *)

(** [includes s q]: [q] occurs in [s] at some position. *)
Fixpoint includes (s q : string) : bool :=
  (String.prefix q s ||
   match s with
   | EmptyString => false
   | String _ s' => includes s' q
   end)%bool.

(** ** Lemmas *)

Lemma lower_char_idem c : lower_char (lower_char c) = lower_char c.
Proof. destruct c as [[] [] [] [] [] [] [] []]; reflexivity. Qed.

Lemma to_lower_app a b : to_lower (a ++ b) = to_lower a ++ to_lower b.
Proof. induction a as [|c a IH]; [done|]. rewrite string_app_cons. simpl. by rewrite IH. Qed.

Lemma to_lower_idem s : to_lower (to_lower s) = to_lower s.
Proof. induction s as [|c s IH]; simpl; [done|by rewrite lower_char_idem, IH]. Qed.

Lemma prefix_spec q s : String.prefix q s = true <-> exists r, s = q ++ r.
Proof.
  revert s. induction q as [|c q IH]; intros [|d s]; simpl.
  - split; [by exists ""|done].
  - split; [by exists (String d s)|done].
  - split; [done|by intros [r ?]].
  - setoid_rewrite string_app_cons.
    destruct (Ascii.ascii_dec c d) as [->|Hne]; rewrite ?IH.
    + split; intros [r Hr]; exists r; congruence.
    + split; [done|]. intros [r Hr]. congruence.
Qed.

Lemma includes_spec s q : includes s q = true <-> exists a b, s = a ++ q ++ b.
Proof.
  induction s as [|c s IH]; cbn [includes]; rewrite orb_true_iff, prefix_spec.
  - split.
    + intros [[r Hr]|Hf]; [|discriminate]. exists "", r. exact Hr.
    + intros [[|? a] [b Hb]]; [left; by exists b|discriminate].
  - rewrite IH. split.
    + intros [[r Hr]|[a [b Hb]]].
      * exists "", r. exact Hr.
      * exists (String c a), b. rewrite string_app_cons. congruence.
    + intros [[|d a] [b Hb]]; rewrite ?string_app_cons in Hb.
      * left. by exists b.
      * right. exists a, b. congruence.
Qed.

Lemma includes_empty s : includes s "" = true.
Proof. apply includes_spec. by exists "", s. Qed.

(** Occurrence is transitive: a substring of a substring is one. *)
Lemma includes_trans s q r :
  includes s q = true -> includes q r = true -> includes s r = true.
Proof.
  rewrite !includes_spec. intros [a [b ->]] [c [d ->]].
  exists (a ++ c), (d ++ b). by rewrite !string_app_assoc.
Qed.

(** Lower-casing the text and the pattern keeps an occurrence. *)
Lemma includes_to_lower s q :
  includes s q = true -> includes (to_lower s) (to_lower q) = true.
Proof.
  rewrite !includes_spec. intros [a [b ->]].
  exists (to_lower a), (to_lower b). by rewrite !to_lower_app.
Qed.

(** An occurrence in a part is an occurrence in the whole. *)
Lemma includes_middle a b c q :
  includes b q = true -> includes (a ++ b ++ c) q = true.
Proof.
  rewrite !includes_spec. intros [u [w ->]].
  exists (a ++ u), (w ++ c). by rewrite !string_app_assoc.
Qed.

(** ** The decimal rendering of an integer read back *)

(** Evaluate [digit_value] on the literal digit of the goal. *)
Ltac eval_digit :=
  match goal with
  | |- context [digit_value ?c] =>
      let v := eval vm_compute in (digit_value c) in change (digit_value c) with v
  end; cbv iota beta.

Lemma digits_from_uint_acc d (acc : positive) :
  digits_from (Zpos acc) (NilEmpty.string_of_uint d) = Some (Zpos (Pos.of_uint_acc d acc)).
Proof.
  revert acc. induction d; intros acc; [done|..];
    cbn [NilEmpty.string_of_uint digits_from Pos.of_uint_acc]; eval_digit;
    rewrite <- IHd; f_equal; lia.
Qed.

Lemma digits_from_uint d :
  digits_from 0 (NilEmpty.string_of_uint d) = Some (Z.of_N (Pos.of_uint d)).
Proof.
  induction d; [done|..]; cbn [NilEmpty.string_of_uint Pos.of_uint];
    [cbn [digits_from]; eval_digit; exact IHd|..];
    cbn [digits_from Z.of_N]; eval_digit; rewrite <- digits_from_uint_acc; reflexivity.
Qed.

Lemma all_digits_uint d : all_digits (NilEmpty.string_of_uint d) = true.
Proof. induction d; done. Qed.

(** A digit string has no blank at either end to trim. *)
Lemma trim_end_digits s : all_digits s = true -> trim_end s = s.
Proof.
  induction s as [|c s IH]; [done|]. cbn [all_digits trim_end].
  destruct (digit_value c) eqn:Hc; [|done]. intros Hs. rewrite IH by done.
  unfold digit_value in Hc. unfold is_space.
  destruct (N.leb 48 _ && N.leb _ 57)%bool eqn:E; [|done].
  apply andb_true_iff in E as [E1 E2]. apply N.leb_le in E1, E2.
  repeat (rewrite (proj2 (N.eqb_neq _ _)) by lia). done.
Qed.

Lemma uint_nonempty_cases d :
  d <> Decimal.Nil ->
  exists c r, NilEmpty.string_of_uint d = String c r /\
    c <> "-"%char /\ c <> "+"%char /\ is_space c = false.
Proof. destruct d; try done; intros _; do 2 eexists; split_and!; done. Qed.

(** The rendering of a positive number: a non-empty digit string
    read back as the number. *)
Lemma positive_string p :
  exists c r, NilEmpty.string_of_uint (Pos.to_uint p) = String c r /\
    c <> "-"%char /\ c <> "+"%char /\ is_space c = false /\
    all_digits (String c r) = true /\ digits_from 0 (String c r) = Some (Zpos p).
Proof.
  destruct (uint_nonempty_cases (Pos.to_uint p)) as (c & r & Hs & H1 & H2 & H3);
    [apply DecimalPos.Unsigned.to_uint_nonnil|].
  exists c, r. rewrite <- Hs. split_and!; try done.
  - apply all_digits_uint.
  - by rewrite digits_from_uint, DecimalPos.Unsigned.of_to.
Qed.

Lemma trim_end_nonblank c s : is_space c = false -> trim_end (String c s) = String c (trim_end s).
Proof. intros Hc. cbn [trim_end]. by rewrite Hc. Qed.

Lemma trim_digits c r :
  is_space c = false -> all_digits (String c r) = true -> trim (String c r) = String c r.
Proof. intros Hc Hd. unfold trim. cbn [trim_start]. rewrite Hc. by apply trim_end_digits. Qed.


(** [ToNumber(ToString(n))] is [n] for every integer: what a client
    reads back from a rendered order is the order. *)
Lemma string_to_number_of_number z : string_to_number (number_to_string z) = Some z.
Proof.
  unfold string_to_number, number_to_string.
  destruct z as [|p|p]; [reflexivity|..]; cbn [Z.to_int NilEmpty.string_of_int];
    destruct (positive_string p) as (c & r & Hs & H1 & H2 & H3 & Hd & Hv); rewrite Hs.
  - rewrite trim_digits by done.
    rewrite (proj2 (Ascii.eqb_neq _ _) H1), (proj2 (Ascii.eqb_neq _ _) H2). exact Hv.
  - unfold trim. cbn [trim_start].
    replace (is_space "-") with false by reflexivity. cbn iota.
    rewrite trim_end_nonblank by reflexivity. rewrite (trim_end_digits _ Hd).
    cbn iota. rewrite Ascii.eqb_refl. unfold parse_digits. by rewrite Hv.
Qed.

End Js.

#[export] Hint Resolve Js.includes_empty Js.includes_to_lower : vnc.
#[export] Hint Rewrite Js.to_lower_app Js.to_lower_idem : vnc_rw.
