(* ===== verification/SortCompare.v ===== *)
(** [Array.prototype.sort(comparefn)] (ECMA-262 23.1.3.30).  The
    standard fixes the result only when the comparator is consistent,
    and since ES2019 requires the sort to be stable.  The model
    [sort_by] is a stable insertion sort; [stable_sorted_of] is the
    standard's contract for a comparator of the form [key a - key b],
    and [stable_sorted_unique] shows the contract has one solution, so
    [sort_by] computes what any conforming engine returns. *)

From S2P Require Import Prelude.

(** [SortCompare] turns a [NaN] comparator result into [+0]. *)
Definition sort_compare (r : option Z) : Z := default 0%Z r.

Section SortBy.
Context {A : Type} (cmp : A -> A -> Z).

(** [x] goes before the first [y] with [SortCompare(x, y) <= 0]. *)
Fixpoint insert_by (x : A) (l : list A) : list A :=
  match l with
  | [] => [x]
  | y :: r => if Z.ltb 0 (cmp x y) then y :: insert_by x r else x :: y :: r
  end.

Definition sort_by (l : list A) : list A := fold_right insert_by [] l.

End SortBy.

Section KeyDefs.
Context {A : Type} (key : A -> Z).

Definition key_le (a b : A) : Prop := (key a <= key b)%Z.

(** The elements of [l] with sort key [k], in their order in [l]. *)
Definition with_key (k : Z) (l : list A) : list A :=
  filter (fun a => key a = k) l.

(** The contract of a stable sort: [r] is ordered by [key], and for
    every key, the elements with that key appear in [r] in the order
    they have in [l]. *)
Definition stable_sorted_of (l r : list A) : Prop :=
  StronglySorted key_le r /\ forall k, with_key k r = with_key k l.

(** The comparator computes [key a - key b] on the elements of [l]. *)
Definition cmp_agrees (cmp : A -> A -> Z) (l : list A) : Prop :=
  forall a b, a ∈ l -> b ∈ l -> cmp a b = (key a - key b)%Z.
End KeyDefs.

#[export] Instance key_le_dec {A} (key : A -> Z) : RelDecision (key_le key).
Proof. intros a b. unfold key_le. apply _. Defined.

Section SortByPerm.
Context {A : Type} (cmp : A -> A -> Z).
Local Abbreviation insert_by := (insert_by cmp).
Local Abbreviation sort_by := (sort_by cmp).

Lemma insert_by_perm x l : insert_by x l ≡ₚ x :: l.
Proof.
  induction l as [|y l IH]; simpl; [done|].
  destruct (Z.ltb 0 (cmp x y)); [|done].
  rewrite IH. constructor.
Qed.

Lemma sort_by_perm l : sort_by l ≡ₚ l.
Proof.
  induction l as [|x l IH]; simpl; [done|].
  by rewrite insert_by_perm, IH.
Qed.
End SortByPerm.

(** [insert_by] looks only at the sign of the comparator, so two
    comparators with the same signs sort alike, and sorting commutes
    with a map that the comparator sees through. *)
Section SortByExt.
Context {A B : Type}.

Lemma insert_by_sign_ext (c1 c2 : A -> A -> Z) x l :
  (forall y, y ∈ l -> (0 < c1 x y <-> 0 < c2 x y)%Z) ->
  insert_by c1 x l = insert_by c2 x l.
Proof.
  induction l as [|y l IH]; intros Hs; simpl; [done|].
  specialize (Hs y ltac:(by left)) as Hy.
  destruct (Z.ltb_spec 0 (c1 x y)), (Z.ltb_spec 0 (c2 x y)); try (exfalso; destruct Hy; lia).
  - f_equal. apply IH. intros z Hz. apply Hs. by right.
  - done.
Qed.

Lemma sort_by_sign_ext (c1 c2 : A -> A -> Z) l :
  (forall a b, a ∈ l -> b ∈ l -> (0 < c1 a b <-> 0 < c2 a b)%Z) ->
  sort_by c1 l = sort_by c2 l.
Proof.
  induction l as [|x l IH]; intros Hs; simpl; [done|].
  rewrite IH by (intros a b ??; apply Hs; by right).
  apply insert_by_sign_ext. intros y Hy. apply Hs; [by left|].
  right. by rewrite <- (sort_by_perm c2 l).
Qed.

Lemma sort_by_fmap (cmp : A -> A -> Z) (f : B -> A) l :
  sort_by cmp (f <$> l) = f <$> sort_by (fun a b => cmp (f a) (f b)) l.
Proof.
  unfold sort_by. induction l as [|x l IH]; [done|].
  rewrite fmap_cons. cbn [fold_right]. rewrite IH.
  generalize (fold_right (insert_by (fun a b => cmp (f a) (f b))) [] l) as r.
  induction r as [|y r IHr]; [done|].
  rewrite fmap_cons. cbn [insert_by].
  destruct (Z.ltb 0 (cmp (f x) (f y))); [|done]. by rewrite IHr, fmap_cons.
Qed.
End SortByExt.

Section KeySort.
Context {A : Type} (key : A -> Z).
Local Abbreviation key_le := (key_le key).
Local Abbreviation with_key := (with_key key).
Local Abbreviation stable_sorted_of := (stable_sorted_of key).
Local Abbreviation cmp_agrees := (cmp_agrees key).

#[local] Instance key_le_trans : Transitive key_le.
Proof. unfold key_le. intros ???; lia. Qed.

Lemma with_key_cons k x l :
  with_key k (x :: l) = (if decide (key x = k) then [x] else []) ++ with_key k l.
Proof. unfold with_key. rewrite filter_cons. by case_decide. Qed.

Lemma with_key_app k l1 l2 : with_key k (l1 ++ l2) = with_key k l1 ++ with_key k l2.
Proof. apply filter_app. Qed.

Lemma elem_of_with_key k x l : x ∈ with_key k l <-> key x = k /\ x ∈ l.
Proof. unfold with_key. by rewrite list_elem_of_filter. Qed.

Lemma cmp_agrees_cons cmp x l : cmp_agrees cmp (x :: l) -> cmp_agrees cmp l.
Proof. intros H a b Ha Hb. apply H; set_solver. Qed.

Lemma cmp_agrees_perm cmp l l' : l ≡ₚ l' -> cmp_agrees cmp l -> cmp_agrees cmp l'.
Proof. intros Hp H a b Ha Hb. apply H; by rewrite Hp. Qed.

Section WithCmp.
Context (cmp : A -> A -> Z).

Lemma insert_by_with_key k x l :
  (forall y, y ∈ l -> cmp x y = (key x - key y)%Z) ->
  with_key k (insert_by cmp x l) = with_key k (x :: l).
Proof.
  induction l as [|y l IH]; intros Hc; simpl; [done|].
  destruct (Z.ltb_spec 0 (cmp x y)) as [Hlt|]; [|done].
  rewrite Hc in Hlt by set_solver.
  rewrite with_key_cons, IH by set_solver.
  rewrite !with_key_cons.
  repeat case_decide; simpl; try done; lia.
Qed.

Lemma insert_by_sorted x l :
  (forall y, y ∈ l -> cmp x y = (key x - key y)%Z) ->
  StronglySorted key_le l -> StronglySorted key_le (insert_by cmp x l).
Proof.
  induction l as [|y l IH]; intros Hc Hs; simpl; [by repeat constructor|].
  apply StronglySorted_inv in Hs as [Hs Hy].
  destruct (Z.ltb_spec 0 (cmp x y)) as [Hlt|Hge];
    rewrite Hc in * by set_solver.
  - constructor; [apply IH; [set_solver|done]|].
    rewrite insert_by_perm. constructor; [unfold key_le; lia|done].
  - constructor; [by constructor|].
    constructor; [unfold key_le; lia|].
    eapply Forall_impl; [exact Hy|]. unfold key_le. intros ??; lia.
Qed.

(** [sort_by] meets the contract of a stable sort. *)
Lemma sort_by_stable l : cmp_agrees cmp l -> stable_sorted_of l (sort_by cmp l).
Proof.
  induction l as [|x l IH]; intros Hc; [split; [constructor|done]|].
  destruct (IH (cmp_agrees_cons _ _ _ Hc)) as [Hs Hk].
  assert (Hx : forall y, y ∈ sort_by cmp l -> cmp x y = (key x - key y)%Z).
  { intros y Hy. rewrite sort_by_perm in Hy. apply Hc; set_solver. }
  split; simpl.
  - by apply insert_by_sorted.
  - intros k. rewrite insert_by_with_key by done.
    by rewrite !with_key_cons, Hk.
Qed.
End WithCmp.

(** Two lists ordered by key, with the same elements of each key in the
    same order, are equal. *)
Lemma sorted_with_key_unique r1 r2 :
  StronglySorted key_le r1 -> StronglySorted key_le r2 ->
  (forall k, with_key k r1 = with_key k r2) -> r1 = r2.
Proof.
  revert r2. induction r1 as [|x r1 IH]; intros [|y r2] H1 H2 Hk; [done| | |].
  - specialize (Hk (key y)). rewrite with_key_cons in Hk. by case_decide.
  - specialize (Hk (key x)). rewrite with_key_cons in Hk. by case_decide.
  - apply StronglySorted_inv in H1 as [H1 Hx], H2 as [H2 Hy].
    assert (Hxy : key x = key y).
    { pose proof (Hk (key x)) as Ex. pose proof (Hk (key y)) as Ey.
      assert (x ∈ with_key (key x) (y :: r2)) as Hx'
        by (rewrite <- Ex; apply elem_of_with_key; set_solver).
      assert (y ∈ with_key (key y) (x :: r1)) as Hy'
        by (rewrite Ey; apply elem_of_with_key; set_solver).
      apply elem_of_with_key in Hx' as [_ Hx'], Hy' as [_ Hy'].
      apply elem_of_cons in Hx' as [->|Hx']; [done|].
      apply elem_of_cons in Hy' as [<-|Hy']; [done|].
      eapply Forall_forall in Hx'; [|exact Hy].
      eapply Forall_forall in Hy'; [|exact Hx].
      unfold key_le in *; lia. }
    pose proof (Hk (key x)) as Ex. rewrite !with_key_cons in Ex.
    rewrite !decide_True in Ex by done. simpl in Ex. injection Ex as <- Ex.
    f_equal. apply IH; [done|done|]. intros k.
    specialize (Hk k). rewrite !with_key_cons in Hk.
    case_decide; [|done]. simpl in Hk. congruence.
Qed.

(** The contract of a stable sort has exactly one solution. *)
Lemma stable_sorted_unique l r1 r2 :
  stable_sorted_of l r1 -> stable_sorted_of l r2 -> r1 = r2.
Proof.
  intros [H1 K1] [H2 K2]. apply sorted_with_key_unique; [done|done|].
  intros k. by rewrite K1, K2.
Qed.
Lemma stable_sorted_of_filters l l' r :
  (forall k, with_key k l = with_key k l') ->
  stable_sorted_of l r -> stable_sorted_of l' r.
Proof. intros Hl [Hs Hk]. split; [done|]. intros k. by rewrite Hk, Hl. Qed.

Lemma sorted_stable_self r : StronglySorted key_le r -> stable_sorted_of r r.
Proof. by split. Qed.

Lemma StronglySorted_filter (P : A -> Prop) `{!forall x, Decision (P x)} l :
  StronglySorted key_le l -> StronglySorted key_le (filter P l).
Proof.
  induction l as [|x l IH]; intros Hs; [done|].
  apply StronglySorted_inv in Hs as [Hs Hx].
  rewrite filter_cons. case_decide; [|by apply IH].
  constructor; [by apply IH|]. rewrite Forall_forall in Hx |- *.
  intros y [_ Hy]%list_elem_of_filter. by apply Hx.
Qed.

(** With pairwise distinct keys, a permutation has the same elements
    of each key in the same order (at most one). *)
Lemma with_key_length k (l : list A) : NoDup (key <$> l) -> List.length (with_key k l) <= 1.
Proof.
  intros Hnd. destruct (with_key k l) as [|x [|y r]] eqn:E; cbn; [lia|lia|exfalso].
  assert (Hx : x ∈ with_key k l) by (rewrite E; set_solver).
  assert (Hy : y ∈ with_key k l) by (rewrite E; set_solver).
  apply elem_of_with_key in Hx as [Hx _], Hy as [Hy _].
  assert (Hs : NoDup (key <$> with_key k l)).
  { eapply sublist_NoDup; [exact Hnd|]. apply fmap_sublist, sublist_filter. }
  rewrite E, !fmap_cons, Hx, Hy in Hs. apply NoDup_cons in Hs as [Hs _]. set_solver.
Qed.

Lemma with_key_perm_distinct k (l1 l2 : list A) :
  l1 ≡ₚ l2 -> NoDup (key <$> l1) -> with_key k l1 = with_key k l2.
Proof.
  intros Hp Hnd. assert (Hp' : with_key k l1 ≡ₚ with_key k l2) by (unfold with_key; by rewrite Hp).
  pose proof (with_key_length k l1 Hnd) as Hl.
  destruct (with_key k l1) as [|x [|y r]]; cbn in Hl; [|..|lia].
  - by apply Permutation_nil_l.
  - by apply Permutation_singleton_l.
Qed.

Section Corollaries.
Context (cmp : A -> A -> Z).

Lemma cmp_agrees_sort l : cmp_agrees cmp l -> cmp_agrees cmp (sort_by cmp l).
Proof. apply cmp_agrees_perm. by rewrite sort_by_perm. Qed.

(** With pairwise distinct keys, the result does not depend on the
    order of the input. *)
Lemma sort_by_perm_distinct (l1 l2 : list A) :
  cmp_agrees cmp l1 -> l1 ≡ₚ l2 -> NoDup (key <$> l1) -> sort_by cmp l1 = sort_by cmp l2.
Proof.
  intros Hc Hp Hnd.
  assert (Hc2 : cmp_agrees cmp l2) by (by eapply cmp_agrees_perm).
  eapply stable_sorted_unique; [apply sort_by_stable, Hc|].
  destruct (sort_by_stable cmp l2 Hc2) as [Hs Hk]. split; [done|].
  intros k. rewrite Hk. symmetry. by apply with_key_perm_distinct.
Qed.

(** Sorting a sorted array again changes nothing. *)
Lemma sort_by_idem l :
  cmp_agrees cmp l -> sort_by cmp (sort_by cmp l) = sort_by cmp l.
Proof.
  intros Hc. eapply stable_sorted_unique.
  - apply sort_by_stable, cmp_agrees_sort, Hc.
  - apply sorted_stable_self, (sort_by_stable cmp l Hc).
Qed.

(** Sorting [l] in place and then appending [m] is invisible to the
    next sort. *)
Lemma sort_by_app_sorted l m :
  cmp_agrees cmp (l ++ m) ->
  sort_by cmp (sort_by cmp l ++ m) = sort_by cmp (l ++ m).
Proof.
  intros Hc.
  assert (Hl : cmp_agrees cmp l) by (intros a b ??; apply Hc; set_solver).
  assert (Hc' : cmp_agrees cmp (sort_by cmp l ++ m))
    by (eapply cmp_agrees_perm; [|exact Hc]; by rewrite sort_by_perm).
  eapply stable_sorted_unique; [|apply sort_by_stable, Hc].
  eapply stable_sorted_of_filters; [|apply sort_by_stable, Hc'].
  intros k. rewrite !with_key_app. f_equal.
  apply (sort_by_stable cmp l Hl).
Qed.

(** An element appended to [l] lands after every element whose key is
    at most its own and before every element with a larger key. *)
Lemma sort_by_snoc l x :
  cmp_agrees cmp (l ++ [x]) ->
  sort_by cmp (l ++ [x]) =
    filter (fun a => key a <= key x)%Z (sort_by cmp l)
    ++ x :: filter (fun a => key x < key a)%Z (sort_by cmp l).
Proof.
  intros Hc.
  assert (Hl : cmp_agrees cmp l) by (intros a b ??; apply Hc; set_solver).
  destruct (sort_by_stable cmp l Hl) as [Hs Hk].
  eapply stable_sorted_unique; [apply sort_by_stable, Hc|]. split.
  - apply StronglySorted_app_2.
    + intros a b Ha Hb. apply list_elem_of_filter in Ha as [Ha _].
      apply elem_of_cons in Hb as [->|Hb%list_elem_of_filter];
        unfold key_le; lia.
    + by apply StronglySorted_filter.
    + constructor; [by apply StronglySorted_filter|].
      apply Forall_forall. intros b Hb%list_elem_of_filter.
      unfold key_le; lia.
  - intros k. rewrite with_key_app, with_key_cons, with_key_app, <- Hk.
    unfold with_key. rewrite !list_filter_filter, filter_cons, filter_nil.
    destruct (Z.le_gt_cases k (key x)).
    + rewrite (list_filter_iff _ (fun a => key a = k) (sort_by cmp l))
        by (intros; lia).
      rewrite (filter_none (fun a => key a = k /\ key x < key a)%Z);
        [|apply Forall_forall; intros; lia].
      by case_decide; rewrite ?app_nil_r.
    + rewrite (filter_none (fun a => key a = k /\ key a <= key x)%Z);
        [|apply Forall_forall; intros; lia].
      rewrite (list_filter_iff _ (fun a => key a = k) (sort_by cmp l))
        by (intros; lia).
      case_decide; [lia|]. by rewrite app_nil_r.
Qed.
End Corollaries.
End KeySort.


#[export] Hint Resolve sort_by_perm insert_by_perm : vnc.
