(* ===== verification/Records.v ===== *)
(** The three record kinds of [src/mock-api/index.js] and how a handler
    builds one from a JSON request body: the destructuring
    [const { name, order } = req.body] yields [undefined] for a missing
    field, and categories store [order || 0]. *)

From S2P Require Import Prelude.

Local Open Scope string_scope.

(** A parsed JSON body ([bodyParser.json()]), a JavaScript object read
    by key; a request without a JSON body has the empty object. *)
Abbreviation Body := (gmap string JsVal).

Definition body_get (b : Body) (k : string) : JsVal := default JUndefined (b !! k).

(** [{ id, name, order }] (index.js lines 50-55, 127) *)
Record Category : Type := mkCategory {
  cat_id : string;
  cat_name : JsVal;
  cat_order : JsVal
}.

(** [{ id, title, description, content, imageUrl, author, publishedAt,
    categoryId, sourceUrl }] (lines 56-60, 201) *)
Record Article : Type := mkArticle {
  art_id : string;
  art_title : JsVal;
  art_description : JsVal;
  art_content : JsVal;
  art_imageUrl : JsVal;
  art_author : JsVal;
  art_publishedAt : JsVal;
  art_categoryId : JsVal;
  art_sourceUrl : JsVal
}.

(** [{ id, type, placement, imageUrl, clickUrl }] (lines 61-65, 272) *)
Record Ad : Type := mkAd {
  ad_id : string;
  ad_type : JsVal;
  ad_placement : JsVal;
  ad_imageUrl : JsVal;
  ad_clickUrl : JsVal
}.

#[export] Instance Category_eq_dec : EqDecision Category.
Proof. solve_decision. Defined.
#[export] Instance Article_eq_dec : EqDecision Article.
Proof. solve_decision. Defined.
#[export] Instance Ad_eq_dec : EqDecision Ad.
Proof. solve_decision. Defined.

(** [const { name, order } = req.body; ... { id, name, order: order || 0 }]
    (lines 119-120, 124/127): the record both backends return. *)
Definition category_of_body (id : string) (b : Body) : Category :=
  {| cat_id := id;
     cat_name := body_get b "name";
     cat_order := (body_get b "order" || JNum 0)%js |}.

(** [const { title, ..., sourceUrl } = req.body; { id, title, ..., sourceUrl }]
    (lines 193-194, 198/201). *)
Definition article_of_body (id : string) (b : Body) : Article :=
  {| art_id := id;
     art_title := body_get b "title";
     art_description := body_get b "description";
     art_content := body_get b "content";
     art_imageUrl := body_get b "imageUrl";
     art_author := body_get b "author";
     art_publishedAt := body_get b "publishedAt";
     art_categoryId := body_get b "categoryId";
     art_sourceUrl := body_get b "sourceUrl" |}.

(** [const { type, placement, imageUrl, clickUrl } = req.body] (lines 264-265, 269/272). *)
Definition ad_of_body (id : string) (b : Body) : Ad :=
  {| ad_id := id;
     ad_type := body_get b "type";
     ad_placement := body_get b "placement";
     ad_imageUrl := body_get b "imageUrl";
     ad_clickUrl := body_get b "clickUrl" |}.

(** [{ ...old, title, ..., sourceUrl }] (line 218): every field but the
    id comes from the body. *)
Definition article_spread (old new : Article) : Article :=
  {| art_id := art_id old;
     art_title := art_title new;
     art_description := art_description new;
     art_content := art_content new;
     art_imageUrl := art_imageUrl new;
     art_author := art_author new;
     art_publishedAt := art_publishedAt new;
     art_categoryId := art_categoryId new;
     art_sourceUrl := art_sourceUrl new |}.

(** [{ ...old, type, placement, imageUrl, clickUrl }] (line 289). *)
Definition ad_spread (old new : Ad) : Ad :=
  {| ad_id := ad_id old;
     ad_type := ad_type new;
     ad_placement := ad_placement new;
     ad_imageUrl := ad_imageUrl new;
     ad_clickUrl := ad_clickUrl new |}.

Lemma article_spread_same_id old new :
  art_id old = art_id new -> article_spread old new = new.
Proof. destruct old, new; simpl; intros ->; reflexivity. Qed.

Lemma ad_spread_same_id old new : ad_id old = ad_id new -> ad_spread old new = new.
Proof. destruct old, new; simpl; intros ->; reflexivity. Qed.
