(* ===== verification/Search.v ===== *)
(** The search filter of [GET /api/search] (index.js lines 237-249, the
    in-memory branch): the query [q] is [(req.query.q || '').toLowerCase()]
    and an article matches when the lower-cased concatenation
    [title + ' ' + (description||'') + ' ' + (content||'')] includes it. *)

From S2P Require Import Prelude JsValue Records.

Local Open Scope string_scope.

Module Search.

(** [req.query.q] as the [qs] query parser delivers it: absent, one
    string, or an array/object (a repeated or bracketed key). *)
Inductive QueryVal : Type :=
| QAbsent
| QStr (s : string)
| QMany (vs : list string).

(** [(req.query.q || '').toLowerCase()] (line 238): [None] when the
    call throws, as [Array.prototype] has no [toLowerCase]. *)
Definition query_of (v : QueryVal) : option string :=
  match v with
  | QAbsent => Some (Js.to_lower "")
  | QStr s => Some (Js.to_lower (if String.eqb s "" then "" else s))
  | QMany _ => None
  end.

(** [a.title + ' ' + (a.description||'') + ' ' + (a.content||'')] *)
Definition haystack (a : Article) : string :=
  Js.to_string (art_title a) ++ " "
  ++ Js.to_string (art_description a || JStr "")%js ++ " "
  ++ Js.to_string (art_content a || JStr "")%js.

(** [(...).toLowerCase().includes(q)] *)
Definition matches (q : string) (a : Article) : bool :=
  Js.includes (Js.to_lower (haystack a)) q.

(** [inMemory.articles.filter(a => matches)] (line 246) *)
Definition search (q : string) (arts : list Article) : list Article :=
  filter (fun a => matches q a = true) arts.

(** Two articles used by the witnesses below. *)
Definition sample_virat : Article :=
  mkArticle "a1" (JStr "Virat hits winning six") (JStr "A thrilling finish.")
    (JStr "Full content of the sports article...") JNull JNull JNull (JStr "sports") JNull.

Definition sample_election : Article :=
  mkArticle "a2" (JStr "Election update") (JStr "Key results in...")
    (JStr "Full content of the politics article...") JNull JNull JNull (JStr "politics") JNull.

Lemma query_of_str s : query_of (QStr s) = Some (Js.to_lower s).
Proof. simpl. destruct (String.eqb_spec s "") as [->|]; done. Qed.

Lemma matches_part a pre part post q :
  haystack a = pre ++ part ++ post ->
  Js.includes (Js.to_lower part) q = true -> matches q a = true.
Proof.
  unfold matches. intros -> H. rewrite !Js.to_lower_app.
  by apply Js.includes_middle.
Qed.

(** The search is a case-insensitive substring match on the title, the
    description and the content: a query whose lower-case form occurs
    in the lower-cased title, or in a present description or content,
    finds the article (spec section 4.5). *)
Theorem search_finds_field s a arts :
  a ∈ arts ->
  (Js.includes (Js.to_lower (Js.to_string (art_title a))) (Js.to_lower s) = true
   \/ (truthy (art_description a) = true /\
       Js.includes (Js.to_lower (Js.to_string (art_description a))) (Js.to_lower s) = true)
   \/ (truthy (art_content a) = true /\
       Js.includes (Js.to_lower (Js.to_string (art_content a))) (Js.to_lower s) = true)) ->
  a ∈ search (Js.to_lower s) arts.
Proof.
  intros Ha Hq. apply list_elem_of_filter. split; [|done].
  destruct Hq as [Hq|[[Ht Hq]|[Ht Hq]]].
  - eapply (matches_part a ""); [|exact Hq]. reflexivity.
  - eapply (matches_part a (Js.to_string (art_title a) ++ " ")); [|exact Hq].
    unfold haystack. rewrite js_or_truthy by done. by rewrite <- !string_app_assoc.
  - eapply (matches_part a (Js.to_string (art_title a) ++ " "
        ++ Js.to_string (art_description a || JStr "")%js ++ " ") _ ""); [|exact Hq].
    unfold haystack. rewrite (js_or_truthy (art_content a)) by done.
    rewrite <- !string_app_assoc. by rewrite string_app_nil_r.
Qed.

Lemma search_finds_field_witness :
  sample_virat ∈ [sample_virat; sample_election] /\
  Js.includes (Js.to_lower (Js.to_string (art_title sample_virat))) (Js.to_lower "VIRAT") = true /\
  sample_virat ∈ search (Js.to_lower "VIRAT") [sample_virat; sample_election].
Proof.
  assert (H1 : sample_virat ∈ [sample_virat; sample_election]) by eval_decide.
  assert (H2 : Js.includes (Js.to_lower (Js.to_string (art_title sample_virat)))
                 (Js.to_lower "VIRAT") = true) by reflexivity.
  split_and!; [exact H1|exact H2|exact (search_finds_field _ _ _ H1 (or_introl H2))].
Defined.

(** A longer query narrows the results: when [q1] occurs in [q2],
    every article found by [q2] is found by [q1], in the same order. *)
Theorem search_narrows q1 q2 arts :
  Js.includes q2 q1 = true -> search q2 arts `sublist_of` search q1 arts.
Proof.
  intros H12. induction arts as [|a arts IH]; [done|]. unfold search.
  rewrite !filter_cons. unfold matches.
  destruct (decide (Js.includes (Js.to_lower (haystack a)) q2 = true)) as [H2|H2].
  - rewrite decide_True by (eapply Js.includes_trans; eauto).
    by apply sublist_skip.
  - case_decide; [by apply sublist_cons|done].
Qed.

Lemma search_narrows_witness :
  Js.includes "election update" "election" = true /\
  search "election update" [sample_virat; sample_election]
    `sublist_of` search "election" [sample_virat; sample_election].
Proof.
  assert (H : Js.includes "election update" "election" = true) by reflexivity.
  split; [exact H|exact (search_narrows _ _ _ H)].
Defined.

(** An absent or empty query returns every article. *)
Theorem search_empty_query arts : search (Js.to_lower "") arts = arts.
Proof. apply filter_all, Forall_forall. intros a _. apply Js.includes_empty. Qed.

(** C18: [a.title + ' '] turns a missing title into the text
    ["undefined"]: every article without a title is found by every
    query that occurs in the word ["undefined"], whatever its other
    fields hold. *)
Theorem search_untitled_matches_undefined q a arts :
  a ∈ arts -> art_title a = JUndefined -> Js.includes "undefined" q = true ->
  a ∈ search q arts.
Proof.
  intros Ha Ht Hq. apply list_elem_of_filter. split; [|done].
  apply (matches_part a "" "undefined"
           (" " ++ Js.to_string (art_description a || JStr "")%js ++ " "
            ++ Js.to_string (art_content a || JStr "")%js)); [|exact Hq].
  unfold haystack. by rewrite Ht.
Qed.

(** An article without a title and a query that is no word of it. *)
Lemma search_untitled_matches_undefined_witness :
  let a := mkArticle "x" JUndefined (JStr "Match report") JUndefined JUndefined
             JUndefined JUndefined (JStr "sports") JUndefined in
  a ∈ [sample_virat; a] /\ art_title a = JUndefined /\ Js.includes "undefined" "fine" = true /\
  a ∈ search "fine" [sample_virat; a].
Proof.
  cbv zeta.
  assert (Ha : mkArticle "x" JUndefined (JStr "Match report") JUndefined JUndefined
                 JUndefined JUndefined (JStr "sports") JUndefined
               ∈ [sample_virat; mkArticle "x" JUndefined (JStr "Match report") JUndefined JUndefined
                    JUndefined JUndefined (JStr "sports") JUndefined]) by (right; left).
  assert (Hq : Js.includes "undefined" "fine" = true) by reflexivity.
  split_and!; [exact Ha|reflexivity|exact Hq|].
  exact (search_untitled_matches_undefined "fine" _ _ Ha eq_refl Hq).
Defined.

End Search.
