(* ===== verification/MemStore.v ===== *)
(** The in-memory backend: the object [inMemory] of index.js (lines
    50-66) and the [else] branch of every route handler.  The store is
    the record [MemStore.t]; each operation returns the new store and
    the outcome the handler turns into a response.  JavaScript arrays
    are lists: [push] appends, [findIndex] is [list_find], the
    assignment [arr[idx] = v] with an index [findIndex] returned is
    stdpp's list insert, [filter] is [filter], and
    [arr.sort(cmp)] sorts the stored array in place. *)

From S2P Require Import Prelude JsValue SortCompare Records Search.

Local Open Scope string_scope.
Local Open Scope list_scope.

Module MemStore.

Record t : Type := mk {
  categories : list Category;
  articles : list Article;
  ads : list Ad
}.

Definition set_categories (cs : list Category) (s : t) : t := mk cs (articles s) (ads s).
Definition set_articles (as_ : list Article) (s : t) : t := mk (categories s) as_ (ads s).
Definition set_ads (ds : list Ad) (s : t) : t := mk (categories s) (articles s) ds.

(** The initial contents (lines 50-66). *)
Definition seed : t := {|
  categories := [
    mkCategory "sports" (JStr "Sports") (JNum 1);
    mkCategory "politics" (JStr "Politics") (JNum 2);
    mkCategory "entertainment" (JStr "Entertainment") (JNum 3)];
  articles := [
    mkArticle "a1" (JStr "Virat hits winning six") (JStr "A thrilling finish.")
      (JStr "Full content of the sports article...")
      (JStr "https://picsum.photos/600/300?random=1") (JStr "Reporter A")
      (JStr "2025-09-01") (JStr "sports") (JStr "https://example.com/article/a1");
    mkArticle "a2" (JStr "Election update") (JStr "Key results in...")
      (JStr "Full content of the politics article...")
      (JStr "https://picsum.photos/600/300?random=2") (JStr "Reporter B")
      (JStr "2025-09-02") (JStr "politics") (JStr "https://example.com/article/a2");
    mkArticle "a3" (JStr "Movie review") (JStr "New hit movie...")
      (JStr "Full content of the entertainment article...")
      (JStr "https://picsum.photos/600/300?random=3") (JStr "Reporter C")
      (JStr "2025-09-03") (JStr "entertainment") (JStr "https://example.com/article/a3")];
  ads := [
    mkAd "ad1" (JStr "banner") (JStr "top")
      (JStr "https://picsum.photos/800/150?random=10") (JStr "https://example.com/ad1");
    mkAd "ad2" (JStr "banner") (JStr "bottom")
      (JStr "https://picsum.photos/800/150?random=11") (JStr "https://example.com/ad2");
    mkAd "ad3" (JStr "interstitial") (JStr "interstitial")
      (JStr "https://picsum.photos/800/1200?random=12") (JStr "https://example.com/ad3")]
|}.

(** ** Categories *)

(** The numeric sort key of a category whose order converts to a number. *)
Definition order_key (c : Category) : Z := default 0%Z (Js.to_number (cat_order c)).

(** Every stored order converts to a number, so the comparator is
    consistent and the sort result is fixed by the standard. *)
Definition numeric_orders (cs : list Category) : Prop :=
  Forall (fun c => is_Some (Js.to_number (cat_order c))) cs.

(** The comparator [(a,b) => a.order - b.order]: [NaN] ([None]) when
    either order does not convert to a number. *)
Definition cat_compare (a b : Category) : option Z :=
  match Js.to_number (cat_order a), Js.to_number (cat_order b) with
  | Some x, Some y => Some (x - y)%Z
  | _, _ => None
  end.

Definition sort_categories (cs : list Category) : list Category :=
  sort_by (fun a b => sort_compare (cat_compare a b)) cs.

(** [res.json(inMemory.categories.sort(...))] (line 114): [sort] works
    in place, so the stored array is left sorted. *)
Definition get_categories (s : t) : t * outcome (list Category) :=
  let cs := sort_categories (categories s) in
  (set_categories cs s, Ok cs).

(** [inMemory.categories.push(cat); res.json(cat)] (lines 127-129). *)
Definition create_category (c : Category) (s : t) : t * outcome Category :=
  (set_categories (categories s ++ [c]) s, Ok c).

(** Lines 142-145: [findIndex] by id, 404 when absent, else the record
    [{ ...old, name, order: order || 0 }] replaces the old one. *)
Definition update_category (id : string) (name order : JsVal) (s : t)
    : t * outcome Category :=
  match list_find (fun c => cat_id c = id) (categories s) with
  | None => (s, NotFound)
  | Some (idx, old) =>
      let c := {| cat_id := cat_id old; cat_name := name;
                  cat_order := (order || JNum 0)%js |} in
      (set_categories (<[idx := c]> (categories s)) s, Ok c)
  end.

(** Lines 158-160: drop the category and, in cascade, every article
    whose [categoryId] is strictly equal to the id. *)
Definition delete_category (id : string) (s : t) : t * outcome unit :=
  (mk (filter (fun c => cat_id c <> id) (categories s))
      (filter (fun a => (art_categoryId a !== JStr id)%js = true) (articles s))
      (ads s), Ok tt).

(** ** Articles *)

(** [inMemory.articles.filter(a => a.categoryId === catId)] (line 173). *)
Definition articles_by_category (catId : string) (s : t) : t * outcome (list Article) :=
  (s, Ok (filter (fun a => (art_categoryId a === JStr catId)%js = true) (articles s))).

(** [inMemory.articles.find(x => x.id === id)], 404 when absent (186-188). *)
Definition get_article (id : string) (s : t) : t * outcome Article :=
  match list_find (fun a => art_id a = id) (articles s) with
  | None => (s, NotFound)
  | Some (_, a) => (s, Ok a)
  end.

(** Lines 201-203. *)
Definition create_article (a : Article) (s : t) : t * outcome Article :=
  (set_articles (articles s ++ [a]) s, Ok a).

(** Lines 216-219. *)
Definition update_article (id : string) (a : Article) (s : t) : t * outcome Article :=
  match list_find (fun x => art_id x = id) (articles s) with
  | None => (s, NotFound)
  | Some (idx, old) =>
      let a' := article_spread old a in
      (set_articles (<[idx := a']> (articles s)) s, Ok a')
  end.

(** [inMemory.articles = inMemory.articles.filter(a => a.id !== id)] (231). *)
Definition delete_article (id : string) (s : t) : t * outcome unit :=
  (set_articles (filter (fun a => art_id a <> id) (articles s)) s, Ok tt).

(** Line 246, with the query already lower-cased by line 238. *)
Definition search_articles (q : string) (s : t) : t * outcome (list Article) :=
  (s, Ok (Search.search q (articles s))).

(** ** Ads *)

(** [res.json(inMemory.ads)] (line 259). *)
Definition get_ads (s : t) : t * outcome (list Ad) := (s, Ok (ads s)).

(** Lines 272-274. *)
Definition create_ad (d : Ad) (s : t) : t * outcome Ad :=
  (set_ads (ads s ++ [d]) s, Ok d).

(** Lines 287-290. *)
Definition update_ad (id : string) (d : Ad) (s : t) : t * outcome Ad :=
  match list_find (fun x => ad_id x = id) (ads s) with
  | None => (s, NotFound)
  | Some (idx, old) =>
      let d' := ad_spread old d in
      (set_ads (<[idx := d']> (ads s)) s, Ok d')
  end.

(** Line 302. *)
Definition delete_ad (id : string) (s : t) : t * outcome unit :=
  (set_ads (filter (fun d => ad_id d <> id) (ads s)) s, Ok tt).

(** ** Operations that change the store, and the id invariant *)

(** The state-changing calls a handler can make. *)
Inductive op : Type :=
| OpListCategories
| OpCreateCategory (c : Category)
| OpUpdateCategory (id : string) (name order : JsVal)
| OpDeleteCategory (id : string)
| OpCreateArticle (a : Article)
| OpUpdateArticle (id : string) (a : Article)
| OpDeleteArticle (id : string)
| OpCreateAd (d : Ad)
| OpUpdateAd (id : string) (d : Ad)
| OpDeleteAd (id : string).

Definition exec (o : op) (s : t) : t :=
  match o with
  | OpListCategories => fst (get_categories s)
  | OpCreateCategory c => fst (create_category c s)
  | OpUpdateCategory id name order => fst (update_category id name order s)
  | OpDeleteCategory id => fst (delete_category id s)
  | OpCreateArticle a => fst (create_article a s)
  | OpUpdateArticle id a => fst (update_article id a s)
  | OpDeleteArticle id => fst (delete_article id s)
  | OpCreateAd d => fst (create_ad d s)
  | OpUpdateAd id d => fst (update_ad id d s)
  | OpDeleteAd id => fst (delete_ad id s)
  end.

(** Spec section 3: every id is unique within its collection. *)
Definition ids_unique (s : t) : Prop :=
  NoDup (cat_id <$> categories s) /\ NoDup (art_id <$> articles s)
  /\ NoDup (ad_id <$> ads s).

(** The id [nanoid(6)] drew for a creation is not already in use. *)
Definition fresh_for (o : op) (s : t) : Prop :=
  match o with
  | OpCreateCategory c => cat_id c ∉ cat_id <$> categories s
  | OpCreateArticle a => art_id a ∉ art_id <$> articles s
  | OpCreateAd d => ad_id d ∉ ad_id <$> ads s
  | _ => True
  end.

(** ** Listing categories *)

Lemma cat_compare_agrees cs :
  numeric_orders cs ->
  cmp_agrees order_key (fun a b => sort_compare (cat_compare a b)) cs.
Proof.
  intros Hn a b Ha Hb. unfold numeric_orders in Hn. rewrite Forall_forall in Hn.
  destruct (Hn a Ha) as [x Hx], (Hn b Hb) as [y Hy].
  unfold cat_compare, order_key, sort_compare. by rewrite Hx, Hy.
Qed.

Lemma numeric_orders_app cs ds :
  numeric_orders (cs ++ ds) <-> numeric_orders cs /\ numeric_orders ds.
Proof. apply Forall_app. Qed.

#[local] Hint Resolve cat_compare_agrees : vnc.

(** C4: [get_categories] answers the stable sort of the stored
    array by order and leaves that sorted array in the store. *)
Theorem get_categories_sorted s :
  numeric_orders (categories s) ->
  exists cs, get_categories s = (set_categories cs s, Ok cs)
          /\ stable_sorted_of order_key (categories s) cs.
Proof.
  intros Hn. eexists. split; [reflexivity|].
  apply sort_by_stable. auto with vnc.
Qed.

Lemma get_categories_sorted_witness :
  numeric_orders (categories seed) /\
  exists cs, get_categories seed = (set_categories cs seed, Ok cs)
          /\ stable_sorted_of order_key (categories seed) cs.
Proof.
  assert (Hn : numeric_orders (categories seed)) by eval_decide.
  split; [exact Hn|exact (get_categories_sorted seed Hn)].
Defined.

(** C8: A category created with order [k] is listed after every category
    whose order is at most [k] and before every one with a larger order
    (spec section 8, scenario 1). *)
Theorem create_then_list s c :
  numeric_orders (categories s ++ [c]) ->
  snd (get_categories (fst (create_category c s))) =
    Ok (filter (fun a => order_key a <= order_key c)%Z (sort_categories (categories s))
        ++ c :: filter (fun a => order_key c < order_key a)%Z (sort_categories (categories s)))%list.
Proof. intros Hn. simpl. f_equal. apply sort_by_snoc. auto with vnc. Qed.

Lemma create_then_list_witness :
  let c := mkCategory "Xy12_-" (JStr "Tech") (JNum 2) in
  numeric_orders (categories seed ++ [c]) /\
  snd (get_categories (fst (create_category c seed))) =
    Ok (filter (fun a => order_key a <= order_key c)%Z (sort_categories (categories seed))
        ++ c :: filter (fun a => order_key c < order_key a)%Z (sort_categories (categories seed))).
Proof.
  assert (Hn : numeric_orders (categories seed ++ [mkCategory "Xy12_-" (JStr "Tech") (JNum 2)]))
    by eval_decide.
  split; [exact Hn|exact (create_then_list _ _ Hn)].
Defined.

(** Adequacy of modelling [Array.prototype.sort] by an insertion sort:
    whatever stable sort an engine uses, [GET /api/categories] answers
    the model's list: any list meeting the ECMAScript contract for the
    comparator [a.order - b.order] is [sort_categories]. *)
Lemma get_categories_engine_independent s r :
  numeric_orders (categories s) ->
  stable_sorted_of order_key (categories s) r ->
  snd (get_categories s) = Ok r.
Proof.
  intros Hn Hr. simpl. f_equal. eapply stable_sorted_unique; [|exact Hr].
  apply sort_by_stable. auto with vnc.
Qed.

(** The in-place sort done by a listing is invisible to a later listing
    when only creations happen in between. *)
Theorem list_create_list s c :
  numeric_orders (categories s ++ [c]) ->
  snd (get_categories (fst (create_category c (fst (get_categories s))))) =
    snd (get_categories (fst (create_category c s))).
Proof. intros Hn. simpl. f_equal. apply (sort_by_app_sorted order_key). auto with vnc. Qed.

Lemma list_create_list_witness :
  let c := mkCategory "Xy12_-" (JStr "Tech") (JNum 2) in
  numeric_orders (categories seed ++ [c]) /\
  snd (get_categories (fst (create_category c (fst (get_categories seed))))) =
    snd (get_categories (fst (create_category c seed))).
Proof.
  assert (Hn : numeric_orders (categories seed ++ [mkCategory "Xy12_-" (JStr "Tech") (JNum 2)]))
    by eval_decide.
  split; [exact Hn|exact (list_create_list _ _ Hn)].
Defined.

(** ** The id invariant *)

Lemma NoDup_sort_categories (cs : list Category) :
  NoDup (cat_id <$> cs) -> NoDup (cat_id <$> sort_categories cs).
Proof. unfold sort_categories. by rewrite sort_by_perm. Qed.

#[local] Hint Resolve NoDup_fmap_filter NoDup_fmap_snoc NoDup_sort_categories : vnc.

(** Replacing the record [findIndex] found by one with the same id keeps
    the id list. *)
Ltac keyed_update :=
  match goal with
  | E : list_find _ _ = Some _ |- NoDup _ =>
      erewrite fmap_insert_found; [|exact E|reflexivity]; assumption
  end.

(** C3: Every operation preserves id uniqueness, provided creations draw a
    fresh id. *)
Theorem exec_preserves_ids_unique o s :
  ids_unique s -> fresh_for o s -> ids_unique (exec o s).
Proof.
  intros (Hc & Ha & Hd) Hf.
  destruct o; cbn [exec fresh_for] in *;
    unfold get_categories, create_category, update_category, delete_category,
      create_article, update_article, delete_article, create_ad, update_ad,
      delete_ad;
    repeat match goal with
    | |- context [list_find ?P ?l] => destruct (list_find P l) as [[? ?]|] eqn:?
    end;
    unfold ids_unique; simpl; repeat split; auto with vnc; keyed_update.
Qed.

Lemma exec_preserves_ids_unique_witness :
  let o := OpCreateCategory (mkCategory "Xy12_-" (JStr "Tech") (JNum 5)) in
  ids_unique seed /\ fresh_for o seed /\ ids_unique (exec o seed).
Proof.
  assert (H1 : ids_unique seed) by (split_and!; eval_decide).
  assert (H2 : fresh_for (OpCreateCategory (mkCategory "Xy12_-" (JStr "Tech") (JNum 5))) seed)
    by eval_decide.
  split_and!; [exact H1|exact H2|exact (exec_preserves_ids_unique _ _ H1 H2)].
Defined.

(** The seeded store satisfies the invariant. *)
Lemma seed_ids_unique : ids_unique seed.
Proof. split_and!; eval_decide. Qed.

(** C21: Without a fresh id the invariant fails: [POST /api/categories]
    pushes the record whatever its id, so when [nanoid(6)] draws an id
    already in use (["sports"] is six letters of its alphabet) the
    store holds two categories with that id. *)
Theorem create_colliding_id_breaks_unique s c :
  cat_id c ∈ cat_id <$> categories s -> ~ ids_unique (exec (OpCreateCategory c) s).
Proof.
  intros Hin [Hc _]. cbn [exec create_category fst categories set_categories] in Hc.
  rewrite fmap_app in Hc. apply NoDup_app in Hc as (_ & Hdis & _).
  apply (Hdis (cat_id c) Hin). by left.
Qed.

(** The seed and a creation that draws ["sports"]. *)
Lemma create_colliding_id_breaks_unique_witness :
  let c := mkCategory "sports" (JStr "Dup") (JNum 0) in
  cat_id c ∈ cat_id <$> categories seed /\ ~ ids_unique (exec (OpCreateCategory c) seed).
Proof.
  cbv zeta. assert (H : "sports" ∈ cat_id <$> categories seed) by eval_decide.
  split; [exact H|exact (create_colliding_id_breaks_unique seed (mkCategory "sports" (JStr "Dup") (JNum 0)) H)].
Defined.

(** ** Cascading delete *)

Lemma filter_strict_neq_same (catId id : string) (l : list Article) :
  catId <> id ->
  filter (fun a => (art_categoryId a === JStr catId)%js = true)
    (filter (fun a => (art_categoryId a !== JStr id)%js = true) l) =
  filter (fun a => (art_categoryId a === JStr catId)%js = true) l.
Proof.
  intros Hne. apply list_filter_filter_l. intros a.
  rewrite !js_strict_eq_true, negb_true_iff.
  intros ->. unfold js_strict_eq. rewrite bool_decide_false; [done|congruence].
Qed.

(** After deleting a category, its article listing is empty. *)
Lemma deleted_category_lists_nothing s id :
  snd (articles_by_category id (fst (delete_category id s))) = Ok [].
Proof.
  simpl. f_equal. apply filter_none, Forall_forall.
  intros a [Ha _]%list_elem_of_filter. rewrite negb_true_iff in Ha. congruence.
Qed.

(** C5: Deleting a category removes it and every article listed under it;
    the listings of the other categories and the ads are unchanged
    (spec sections 4.1 and 8, scenario 3). *)
Theorem delete_category_cascade s id :
  let s' := fst (delete_category id s) in
  Forall (fun c => cat_id c <> id) (categories s')
  /\ snd (articles_by_category id s') = Ok []
  /\ (forall k, k <> id -> snd (articles_by_category k s') = snd (articles_by_category k s))
  /\ ads s' = ads s.
Proof.
  split_and!.
  - apply Forall_forall. intros c [Hc _]%list_elem_of_filter. done.
  - apply deleted_category_lists_nothing.
  - intros k Hk. simpl. f_equal. by apply filter_strict_neq_same.
  - done.
Qed.

(** ** Articles: creation, lookup, update, deletion *)

(** An article created under [categoryId: k] is listed last under [k]
    (spec section 8, scenario 2). *)
Theorem create_article_listed s a k l :
  art_categoryId a = JStr k ->
  snd (articles_by_category k s) = Ok l ->
  snd (articles_by_category k (fst (create_article a s))) = Ok (l ++ [a]).
Proof.
  intros Ha Hl. simpl in *. injection Hl as <-. f_equal.
  rewrite filter_app, filter_cons_True; [done|]. rewrite Ha. by apply js_strict_eq_true.
Qed.

Lemma create_article_listed_witness :
  let a := mkArticle "Xy12_-" (JStr "Kohli century") JUndefined JUndefined JUndefined
             JUndefined JUndefined (JStr "sports") JUndefined in
  art_categoryId a = JStr "sports" /\
  snd (articles_by_category "sports" seed) = Ok (take 1 (articles seed)) /\
  snd (articles_by_category "sports" (fst (create_article a seed))) =
    Ok (take 1 (articles seed) ++ [a]).
Proof.
  cbv zeta. split_and!; [reflexivity|reflexivity|].
  apply (create_article_listed seed (mkArticle "Xy12_-" (JStr "Kohli century") JUndefined
    JUndefined JUndefined JUndefined JUndefined (JStr "sports") JUndefined) "sports");
    reflexivity.
Defined.

(** [get_article] finds an article created with a fresh id. *)
Theorem get_created_article s a :
  art_id a ∉ art_id <$> articles s ->
  snd (get_article (art_id a) (fst (create_article a s))) = Ok a.
Proof.
  intros Hf. unfold get_article. simpl.
  rewrite list_find_app_r.
  - simpl. case_decide; [done|congruence].
  - by apply list_find_absent.
Qed.

(** [PUT /api/articles/:id] then [GET /api/articles/:id] returns the
    updated record. *)
Theorem get_updated_article s id a s' a' :
  update_article id a s = (s', Ok a') -> get_article id s' = (s', Ok a').
Proof.
  unfold update_article, get_article.
  destruct (list_find _ (articles s)) as [[i old]|] eqn:E; [|done].
  intros [= <- <-]. simpl.
  rewrite (list_find_insert_found art_id id _ i old); [done|done|].
  apply list_find_Some in E as (_ & Hid & _). done.
Qed.

Lemma get_updated_article_witness :
  let a := mkArticle "a2" (JStr "Election results") JUndefined JUndefined JUndefined
             JUndefined JUndefined (JStr "politics") JUndefined in
  let s' := set_articles (<[1 := a]> (articles seed)) seed in
  update_article "a2" a seed = (s', Ok a) /\ get_article "a2" s' = (s', Ok a).
Proof.
  cbv zeta. split; [reflexivity|]. apply (get_updated_article seed "a2" (mkArticle "a2"
    (JStr "Election results") JUndefined JUndefined JUndefined JUndefined JUndefined
    (JStr "politics") JUndefined)). reflexivity.
Defined.

(** [DELETE /api/articles/:id] then [GET /api/articles/:id] is a 404. *)
Theorem get_deleted_article s id :
  snd (get_article id (fst (delete_article id s))) = NotFound.
Proof.
  unfold get_article. simpl. rewrite list_find_absent; [done|].
  intros (x & Hx & [Hne _]%list_elem_of_filter)%list_elem_of_fmap. done.
Qed.

(** Reading an article leaves the store alone. *)
Lemma get_article_pure id s : fst (get_article id s) = s.
Proof. unfold get_article. by destruct (list_find _ _) as [[]|]. Qed.

(** An update of an absent article is a 404 that changes nothing. *)
Lemma update_article_missing id a s :
  id ∉ art_id <$> articles s -> update_article id a s = (s, NotFound).
Proof. intros Hid. unfold update_article. by rewrite list_find_absent. Qed.

(** ** Updating categories *)

(** In-memory [PUT /api/categories/:id] on an absent id is a 404 and
    changes nothing (the sqlite branch reports success instead). *)
Theorem update_category_missing s id name order :
  id ∉ cat_id <$> categories s -> update_category id name order s = (s, NotFound).
Proof. intros Hid. unfold update_category. by rewrite list_find_absent. Qed.

Lemma update_category_missing_witness :
  ("nope" ∉ cat_id <$> categories seed) /\
  update_category "nope" (JStr "N") (JNum 4) seed = (seed, NotFound).
Proof.
  assert (H : "nope" ∉ cat_id <$> categories seed) by eval_decide.
  split; [exact H|exact (update_category_missing _ _ _ _ H)].
Defined.

(** With unique ids, the [findIndex]/assignment of an update is the map
    that gives the category with that id its new name and [order || 0]
    and leaves every other category where it was. *)
Theorem update_category_as_map s id name order :
  NoDup (cat_id <$> categories s) -> id ∈ cat_id <$> categories s ->
  fst (update_category id name order s) =
    set_categories
      ((fun c => if decide (cat_id c = id)
                 then {| cat_id := cat_id c; cat_name := name;
                         cat_order := (order || JNum 0)%js |}
                 else c) <$> categories s) s.
Proof.
  intros Hnd Hid. unfold update_category.
  destruct (list_find _ (categories s)) as [[i old]|] eqn:E.
  - simpl. f_equal. by apply (insert_found_map cat_id id
      (fun c => {| cat_id := cat_id c; cat_name := name;
                   cat_order := (order || JNum 0)%js |})).
  - apply list_find_None in E. rewrite Forall_forall in E.
    apply list_elem_of_fmap in Hid as (c & -> & Hc). by destruct (E c Hc).
Qed.

Lemma update_category_as_map_witness :
  NoDup (cat_id <$> categories seed) /\ "politics" ∈ cat_id <$> categories seed /\
  fst (update_category "politics" (JStr "Politics & Law") JUndefined seed) =
    set_categories
      ((fun c => if decide (cat_id c = "politics")
                 then {| cat_id := cat_id c; cat_name := JStr "Politics & Law";
                         cat_order := (JUndefined || JNum 0)%js |}
                 else c) <$> categories seed) seed.
Proof.
  assert (H1 : NoDup (cat_id <$> categories seed)) by eval_decide.
  assert (H2 : "politics" ∈ cat_id <$> categories seed) by eval_decide.
  split_and!; [exact H1|exact H2|exact (update_category_as_map _ _ _ _ H1 H2)].
Defined.

(** Spec section 8, scenario 4: [GET /api/search?q=VIRAT] on the
    seeded store finds the article titled "Virat hits winning six". *)
Example search_virat_seed :
  option_map (fun q => snd (search_articles q seed)) (Search.query_of (Search.QStr "VIRAT"))
  = Some (Ok (filter (fun a => art_id a = "a1") (articles seed))).
Proof. reflexivity. Qed.

End MemStore.
