(* ===== verification/Backend.v ===== *)
(** The storage capability set of spec section 4.1, as the interface
    between the route handlers and the two branches of index.js.  A
    handler computes everything that precedes [if (useSqlite)] (the
    fresh id, the destructured body, the lower-cased query) and calls
    one operation of [Backend]; the [if]/[else] branches are the
    instances.  [BackendLaws] states what a handler may rely on; the
    in-memory instance discharges it from the [MemStore] theorems. *)

From S2P Require Import Prelude Records MemStore.

Class Backend (S : Type) := {
  be_get_categories : S -> S * outcome (list Category);
  be_create_category : Category -> S -> S * outcome Category;
  be_update_category : string -> JsVal -> JsVal -> S -> S * outcome Category;
  be_delete_category : string -> S -> S * outcome unit;
  be_articles_by_category : string -> S -> S * outcome (list Article);
  be_get_article : string -> S -> S * outcome Article;
  be_create_article : Article -> S -> S * outcome Article;
  be_update_article : string -> Article -> S -> S * outcome Article;
  be_delete_article : string -> S -> S * outcome unit;
  be_search : string -> S -> S * outcome (list Article);
  be_get_ads : S -> S * outcome (list Ad);
  be_create_ad : Ad -> S -> S * outcome Ad;
  be_update_ad : string -> Ad -> S -> S * outcome Ad;
  be_delete_ad : string -> S -> S * outcome unit
}.

(** What the handlers rely on: reads other than the category listing
    leave the store alone, a created article can be read back under a
    fresh id, a deleted one cannot, a deleted category lists no
    article, and an update of an absent article is a 404. *)
Class BackendLaws (S : Type) `{!Backend S} := {
  be_article_ids : S -> list string;
  law_articles_by_category_pure k s : fst (be_articles_by_category k s) = s;
  law_get_article_pure id s : fst (be_get_article id s) = s;
  law_search_pure q s : fst (be_search q s) = s;
  law_get_ads_pure s : fst (be_get_ads s) = s;
  law_create_get_article a s :
    art_id a ∉ be_article_ids s ->
    snd (be_get_article (art_id a) (fst (be_create_article a s))) = Ok a;
  law_delete_get_article id s :
    snd (be_get_article id (fst (be_delete_article id s))) = NotFound;
  law_delete_cascade id s :
    snd (be_articles_by_category id (fst (be_delete_category id s))) = Ok [];
  law_update_article_missing id a s :
    id ∉ be_article_ids s -> be_update_article id a s = (s, NotFound)
}.

#[export] Instance mem_backend : Backend MemStore.t := {
  be_get_categories := MemStore.get_categories;
  be_create_category := MemStore.create_category;
  be_update_category := MemStore.update_category;
  be_delete_category := MemStore.delete_category;
  be_articles_by_category := MemStore.articles_by_category;
  be_get_article := MemStore.get_article;
  be_create_article := MemStore.create_article;
  be_update_article := MemStore.update_article;
  be_delete_article := MemStore.delete_article;
  be_search := MemStore.search_articles;
  be_get_ads := MemStore.get_ads;
  be_create_ad := MemStore.create_ad;
  be_update_ad := MemStore.update_ad;
  be_delete_ad := MemStore.delete_ad
}.

#[export] Instance mem_backend_laws : BackendLaws MemStore.t := {
  be_article_ids s := art_id <$> MemStore.articles s;
  law_articles_by_category_pure k s := eq_refl;
  law_get_article_pure := MemStore.get_article_pure;
  law_search_pure q s := eq_refl;
  law_get_ads_pure s := eq_refl;
  law_create_get_article a s := MemStore.get_created_article s a;
  law_delete_get_article id s := MemStore.get_deleted_article s id;
  law_delete_cascade id s := MemStore.deleted_category_lists_nothing s id;
  law_update_article_missing := MemStore.update_article_missing
}.
