(* ===== verification/Router.v ===== *)
(** The Express application of index.js: the middleware stack
    ([cors()], [bodyParser.json()], [cookieParser()], the static mounts
    of lines 36-38), the guard [requireAuth] (lines 30-33), the route
    table in registration order (lines 42-320), and one handler per
    route over any [Backend].  A request is handled in one step: the
    handler receives the id [nanoid(6)] would draw and returns the new
    store with the response. *)

From S2P Require Import Prelude JsValue Records Search MemStore Backend.

Local Open Scope string_scope.

Module Router.

Inductive Method : Type := GET | HEAD | POST | PUT | DELETE | PATCH | OPTIONS.

#[export] Instance Method_eq_dec : EqDecision Method.
Proof. solve_decision. Defined.

(** [req_path] lists the segments of the URL path after its leading
    slash (a trailing slash gives a last empty segment).  [req_file] is
    the name [multer] stored an uploaded [image] under, if any. *)
Record Request : Type := mkRequest {
  req_method : Method;
  req_path : list string;
  req_cookies : gmap string string;
  req_body : Body;
  req_query_q : Search.QueryVal;
  req_file : option string
}.

(** [res.cookie('admin', '1', { httpOnly: true })] and [res.clearCookie('admin')]. *)
Inductive CookieOp : Type := KeepCookie | SetAdminCookie | ClearAdminCookie.

Inductive RBody : Type :=
| BCategory (c : Category)
| BCategories (cs : list Category)
| BArticle (a : Article)
| BArticles (l : list Article)
| BAd (d : Ad)
| BAds (ds : list Ad)
| BError (msg : string)       (* res.json({ error: msg }) *)
| BText (t : string)          (* res.send(t) *)
| BEmpty                      (* an empty body: 204 *)
| BOk                         (* res.json({ ok: true }) *)
| BUrl (url : string)         (* res.json({ url }) *)
| BNoRoute                    (* finalhandler: "Cannot <METHOD> <path>" *)
| BUncaught.                  (* the default error handler's page *)

Record Response : Type := mkResponse {
  status : Z;
  body : RBody;
  cookie : CookieOp
}.

(** ** Configuration (lines 9-20 and 28) *)

Record Config : Type := mkConfig {
  use_sqlite : bool;
  admin_password : string
}.

(** [!FORCE_IN_MEMORY], turned off when [require('sqlite3')] throws. *)
Definition use_sqlite_of (force_in_memory_env : option string) (sqlite_loads : bool) : bool :=
  let force := match force_in_memory_env with
               | Some v => negb (String.eqb v "")
               | None => false
               end in
  negb force && sqlite_loads.

(** [process.env.ADMIN_PASSWORD || 'virat123'] *)
Definition admin_password_of (env : option string) : string :=
  match env with
  | Some p => if String.eqb p "" then "virat123" else p
  | None => "virat123"
  end.

(** ** Route matching *)

Inductive Seg : Type := Lit (s : string) | Param.

(** A literal segment matches case-insensitively (Express's default);
    a parameter matches one non-empty segment; a trailing slash is
    allowed.  The result is the list of parameters. *)
Fixpoint match_path (pat : list Seg) (p : list string) : option (list string) :=
  match pat, p with
  | [], [] => Some []
  | [], [""] => Some []
  | Lit l :: pat', s :: p' =>
      if String.eqb (Js.to_lower s) l then match_path pat' p' else None
  | Param :: pat', s :: p' =>
      if String.eqb s "" then None else option_map (cons s) (match_path pat' p')
  | _, _ => None
  end.

Inductive Route : Type :=
| RUpload | RRoot
| RListCategories | RCreateCategory | RUpdateCategory | RDeleteCategory
| RCategoryArticles | RGetArticle | RCreateArticle | RUpdateArticle | RDeleteArticle
| RSearch | RListAds | RCreateAd | RUpdateAd | RDeleteAd
| RLogin | RLogout.

#[export] Instance Route_eq_dec : EqDecision Route.
Proof. solve_decision. Defined.

(** The routes in the order index.js registers them. *)
Definition routes : list (Method * list Seg * Route) := [
  (POST, [Lit "api"; Lit "upload"], RUpload);
  (GET, [], RRoot);
  (GET, [Lit "api"; Lit "categories"], RListCategories);
  (POST, [Lit "api"; Lit "categories"], RCreateCategory);
  (PUT, [Lit "api"; Lit "categories"; Param], RUpdateCategory);
  (DELETE, [Lit "api"; Lit "categories"; Param], RDeleteCategory);
  (GET, [Lit "api"; Lit "categories"; Param; Lit "articles"], RCategoryArticles);
  (GET, [Lit "api"; Lit "articles"; Param], RGetArticle);
  (POST, [Lit "api"; Lit "articles"], RCreateArticle);
  (PUT, [Lit "api"; Lit "articles"; Param], RUpdateArticle);
  (DELETE, [Lit "api"; Lit "articles"; Param], RDeleteArticle);
  (GET, [Lit "api"; Lit "search"], RSearch);
  (GET, [Lit "api"; Lit "ads"], RListAds);
  (POST, [Lit "api"; Lit "ads"], RCreateAd);
  (PUT, [Lit "api"; Lit "ads"; Param], RUpdateAd);
  (DELETE, [Lit "api"; Lit "ads"; Param], RDeleteAd);
  (POST, [Lit "admin"; Lit "login"], RLogin);
  (POST, [Lit "admin"; Lit "logout"], RLogout)].

(** [app.get] also answers [HEAD]. *)
Definition method_matches (route_m m : Method) : bool :=
  bool_decide (route_m = m) || bool_decide (route_m = GET /\ m = HEAD).

(** The first registered route whose method and path match. *)
Fixpoint find_route (tbl : list (Method * list Seg * Route)) (m : Method) (p : list string)
    : option (Route * list string) :=
  match tbl with
  | [] => None
  | (rm, pat, r) :: tbl' =>
      match (if method_matches rm m then match_path pat p else None) with
      | Some ps => Some (r, ps)
      | None => find_route tbl' m p
      end
  end.

(** [app.use('/admin', express.static(...))] and [/uploads]: a [GET] or
    [HEAD] under these mounts goes to the static middleware. *)
Definition static_mount (m : Method) (p : list string) : bool :=
  match p with
  | s :: _ =>
      bool_decide (m = GET \/ m = HEAD)
      && (String.eqb (Js.to_lower s) "admin" || String.eqb (Js.to_lower s) "uploads")
  | [] => false
  end.

(** ** The guard and the responses *)

(** [requireAuth]: [req.cookies && req.cookies.admin === '1']. *)
Definition authorized (req : Request) : bool :=
  match req_cookies req !! "admin" with
  | Some v => String.eqb v "1"
  | None => false
  end.

Definition resp (st : Z) (b : RBody) : Response := mkResponse st b KeepCookie.

(** [res.status(401).json({ error: 'Unauthorized' })] *)
Definition unauthorized : Response := resp 401 (BError "Unauthorized").

(** [res.json(x)] on success, [res.status(404).send('Not found')],
    [res.status(500).json({ error: err.message })]. *)
Definition respond {A} (wrap : A -> RBody) (o : outcome A) : Response :=
  match o with
  | Ok x => resp 200 (wrap x)
  | NotFound => resp 404 (BText "Not found")
  | Failure m => resp 500 (BError m)
  end.

(** A delete answers [res.status(204).send()]. *)
Definition respond_deleted (o : outcome unit) : Response :=
  match o with
  | Ok _ => resp 204 BEmpty
  | NotFound => resp 404 (BText "Not found")
  | Failure m => resp 500 (BError m)
  end.

Section Handlers.
Context {S : Type} `{!Backend S}.

(** The route's middleware [requireAuth] runs before the handler. *)
Definition require_auth (req : Request) (s : S) (k : S -> S * Response) : S * Response :=
  if authorized req then k s else (s, unauthorized).

Definition call {A} (wrap : A -> RBody) (r : S * outcome A) : S * Response :=
  (fst r, respond wrap (snd r)).

Definition call_deleted (r : S * outcome unit) : S * Response :=
  (fst r, respond_deleted (snd r)).

(** Lines 42-47. *)
Definition handle_upload (req : Request) (s : S) : S * Response :=
  require_auth req s (fun s =>
    match req_file req with
    | None => (s, resp 400 (BError "No file uploaded"))
    | Some fn => (s, resp 200 (BUrl ("/uploads/" ++ fn)))
    end).

(** Lines 102-104. *)
Definition handle_root (cfg : Config) (s : S) : S * Response :=
  (s, resp 200 (BText ("Virat News Mock API running ("
                       ++ (if use_sqlite cfg then "sqlite" else "in-memory")
                       ++ "). Use /api/... or /admin for UI"))).

(** Lines 107-116. *)
Definition handle_list_categories (s : S) : S * Response :=
  call BCategories (be_get_categories s).

(** Lines 118-131. *)
Definition handle_create_category (fresh : string) (req : Request) (s : S) : S * Response :=
  require_auth req s (fun s =>
    call BCategory (be_create_category (category_of_body fresh (req_body req)) s)).

(** Lines 133-147. *)
Definition handle_update_category (id : string) (req : Request) (s : S) : S * Response :=
  require_auth req s (fun s =>
    call BCategory (be_update_category id (body_get (req_body req) "name")
                      (body_get (req_body req) "order") s)).

(** Lines 149-162. *)
Definition handle_delete_category (id : string) (req : Request) (s : S) : S * Response :=
  require_auth req s (fun s => call_deleted (be_delete_category id s)).

(** Lines 165-175. *)
Definition handle_category_articles (catId : string) (s : S) : S * Response :=
  call BArticles (be_articles_by_category catId s).

(** Lines 177-190. *)
Definition handle_get_article (id : string) (s : S) : S * Response :=
  call BArticle (be_get_article id s).

(** Lines 192-205. *)
Definition handle_create_article (fresh : string) (req : Request) (s : S) : S * Response :=
  require_auth req s (fun s =>
    call BArticle (be_create_article (article_of_body fresh (req_body req)) s)).

(** Lines 207-221. *)
Definition handle_update_article (id : string) (req : Request) (s : S) : S * Response :=
  require_auth req s (fun s =>
    call BArticle (be_update_article id (article_of_body id (req_body req)) s)).

(** Lines 223-234. *)
Definition handle_delete_article (id : string) (req : Request) (s : S) : S * Response :=
  require_auth req s (fun s => call_deleted (be_delete_article id s)).

(** Lines 237-249: computing [q] throws for an array or object query,
    which Express answers with its 500 error page. *)
Definition handle_search (req : Request) (s : S) : S * Response :=
  match Search.query_of (req_query_q req) with
  | None => (s, resp 500 BUncaught)
  | Some q => call BArticles (be_search q s)
  end.

(** Lines 252-261. *)
Definition handle_list_ads (s : S) : S * Response := call BAds (be_get_ads s).

(** Lines 263-276. *)
Definition handle_create_ad (fresh : string) (req : Request) (s : S) : S * Response :=
  require_auth req s (fun s => call BAd (be_create_ad (ad_of_body fresh (req_body req)) s)).

(** Lines 278-292. *)
Definition handle_update_ad (id : string) (req : Request) (s : S) : S * Response :=
  require_auth req s (fun s => call BAd (be_update_ad id (ad_of_body id (req_body req)) s)).

(** Lines 294-305. *)
Definition handle_delete_ad (id : string) (req : Request) (s : S) : S * Response :=
  require_auth req s (fun s => call_deleted (be_delete_ad id s)).

(** Lines 308-315: strict equality with the configured password. *)
Definition handle_login (cfg : Config) (req : Request) (s : S) : S * Response :=
  if (body_get (req_body req) "password" === JStr (admin_password cfg))%js
  then (s, mkResponse 200 BOk SetAdminCookie)
  else (s, resp 403 (BError "Wrong password")).

(** Lines 317-320. *)
Definition handle_logout (s : S) : S * Response := (s, mkResponse 200 BOk ClearAdminCookie).

Definition param (ps : list string) : string := default "" (head ps).

(** The handler of a matched route, with the route's parameters. *)
Definition run_route (cfg : Config) (fresh : string) (req : Request) (r : Route)
    (ps : list string) (s : S) : S * Response :=
  match r with
  | RUpload => handle_upload req s
  | RRoot => handle_root cfg s
  | RListCategories => handle_list_categories s
  | RCreateCategory => handle_create_category fresh req s
  | RUpdateCategory => handle_update_category (param ps) req s
  | RDeleteCategory => handle_delete_category (param ps) req s
  | RCategoryArticles => handle_category_articles (param ps) s
  | RGetArticle => handle_get_article (param ps) s
  | RCreateArticle => handle_create_article fresh req s
  | RUpdateArticle => handle_update_article (param ps) req s
  | RDeleteArticle => handle_delete_article (param ps) req s
  | RSearch => handle_search req s
  | RListAds => handle_list_ads s
  | RCreateAd => handle_create_ad fresh req s
  | RUpdateAd => handle_update_ad (param ps) req s
  | RDeleteAd => handle_delete_ad (param ps) req s
  | RLogin => handle_login cfg req s
  | RLogout => handle_logout s
  end.

(** One request through the application: the [cors] preflight, the
    static mounts, then the first matching route or the final 404.
    [None]: a [GET]/[HEAD] under [/admin] or [/uploads], answered by
    [express.static] (a file, or a 404 when there is none), which is
    not modelled. *)
Definition dispatch (cfg : Config) (fresh : string) (req : Request) (s : S)
    : option (S * Response) :=
  let m := req_method req in
  if bool_decide (m = OPTIONS) then Some (s, resp 204 BEmpty)
  else if static_mount m (req_path req) then None
  else Some
    match find_route routes m (req_path req) with
    | None => (s, resp 404 BNoRoute)
    | Some (r, ps) => run_route cfg fresh req r ps s
    end.
End Handlers.

(** The routes guarded by [requireAuth]. *)
Definition mutating (r : Route) : bool :=
  match r with
  | RUpload | RCreateCategory | RUpdateCategory | RDeleteCategory
  | RCreateArticle | RUpdateArticle | RDeleteArticle
  | RCreateAd | RUpdateAd | RDeleteAd => true
  | _ => false
  end.

(** Requests used by the witnesses: the default configuration and a
    JSON request without query or file. *)
Definition demo_cfg : Config := mkConfig false "virat123".

Definition admin_cookie : gmap string string := {["admin" := "1"]}.

Definition json_request (m : Method) (p : list string) (c : gmap string string) (b : Body)
    : Request := mkRequest m p c b Search.QAbsent None.

(** ** Route table lemmas *)

Lemma find_route_in tbl m p r ps :
  find_route tbl m p = Some (r, ps) ->
  exists rm pat, (rm, pat, r) ∈ tbl /\ method_matches rm m = true.
Proof.
  induction tbl as [|[[rm pat] r'] tbl IH]; simpl; [done|].
  destruct (method_matches rm m) eqn:Hm; [destruct (match_path pat p)|].
  - intros [= <- <-]. exists rm, pat. split; [left|done].
  - intros H. destruct (IH H) as (rm' & pat' & Hin & Hm'). exists rm', pat'. split; [by right|done].
  - intros H. destruct (IH H) as (rm' & pat' & Hin & Hm'). exists rm', pat'. split; [by right|done].
Qed.

Lemma routes_mutating_methods :
  Forall (fun '(rm, _, r) => mutating r = true -> rm <> GET /\ rm <> HEAD /\ rm <> OPTIONS) routes.
Proof. repeat constructor; discriminate. Qed.

(** A request that reaches a guarded route is neither a preflight nor a
    static-file request. *)
Lemma mutating_route_method m p r ps :
  find_route routes m p = Some (r, ps) -> mutating r = true ->
  m <> OPTIONS /\ m <> GET /\ m <> HEAD.
Proof.
  intros (rm & pat & Hin & Hm)%find_route_in Hr.
  pose proof (proj1 (Forall_forall _ _) routes_mutating_methods _ Hin Hr) as (Hg & Hh & Ho).
  unfold method_matches in Hm.
  apply orb_true_iff in Hm as [Hm%bool_decide_eq_true|[-> ->]%bool_decide_eq_true];
    [subst; naive_solver|done].
Qed.

Lemma static_mount_non_get m p : m <> GET -> m <> HEAD -> static_mount m p = false.
Proof.
  intros Hg Hh. destruct p; [done|]. simpl.
  rewrite bool_decide_false; [done|]. intros [?|?]; contradiction.
Qed.

Lemma static_mount_api m p : static_mount m ("api" :: p) = false.
Proof. simpl. by rewrite andb_false_r. Qed.

Lemma dispatch_route {S} `{!Backend S} (cfg : Config) fresh req (s : S) r ps :
  req_method req <> OPTIONS -> static_mount (req_method req) (req_path req) = false ->
  find_route routes (req_method req) (req_path req) = Some (r, ps) ->
  dispatch cfg fresh req s = Some (run_route cfg fresh req r ps s).
Proof.
  intros Ho Hs Hf. unfold dispatch. rewrite bool_decide_false by done.
  by rewrite Hs, Hf.
Qed.

(** Where the route table sends the requests the theorems below use. *)
Lemma route_login : find_route routes POST ["admin"; "login"] = Some (RLogin, []).
Proof. reflexivity. Qed.

Lemma route_search : find_route routes GET ["api"; "search"] = Some (RSearch, []).
Proof. reflexivity. Qed.

Lemma route_create_article :
  find_route routes POST ["api"; "articles"] = Some (RCreateArticle, []).
Proof. reflexivity. Qed.

Lemma route_get_article k :
  k <> "" -> find_route routes GET ["api"; "articles"; k] = Some (RGetArticle, [k]).
Proof. destruct k; [done|]. intros _. vm_compute. reflexivity. Qed.

Lemma route_delete_category k :
  k <> "" -> find_route routes DELETE ["api"; "categories"; k] = Some (RDeleteCategory, [k]).
Proof. destruct k; [done|]. intros _. vm_compute. reflexivity. Qed.

Lemma route_category_articles k :
  k <> "" ->
  find_route routes GET ["api"; "categories"; k; "articles"] = Some (RCategoryArticles, [k]).
Proof. destruct k; [done|]. intros _. vm_compute. reflexivity. Qed.

Section Theorems.
Context {S : Type} `{!Backend S}.

(** C1: Spec section 4.4: a request to a guarded route without the cookie
    [admin=1] is answered 401 before any storage operation. *)
Theorem guarded_routes_reject (cfg : Config) fresh req (s : S) r ps :
  find_route routes (req_method req) (req_path req) = Some (r, ps) ->
  mutating r = true -> authorized req = false ->
  dispatch cfg fresh req s = Some (s, unauthorized).
Proof.
  intros Hf Hm Ha.
  destruct (mutating_route_method _ _ _ _ Hf Hm) as (Ho & Hg & Hh).
  rewrite (dispatch_route _ _ _ _ r ps); [|done|by apply static_mount_non_get|done].
  f_equal. destruct r; try discriminate; simpl;
    unfold handle_upload, handle_create_category, handle_update_category,
      handle_delete_category, handle_create_article, handle_update_article,
      handle_delete_article, handle_create_ad, handle_update_ad, handle_delete_ad,
      require_auth; by rewrite Ha.
Qed.

(** C20: [POST /admin/login] with any password other than the configured
    string answers 403 and sets no cookie (spec section 8 expects
    Unauthorized, 401). *)
Theorem login_wrong_password (cfg : Config) fresh req (s : S) :
  req_method req = POST -> req_path req = ["admin"; "login"] ->
  body_get (req_body req) "password" <> JStr (admin_password cfg) ->
  dispatch cfg fresh req s = Some (s, resp 403 (BError "Wrong password")).
Proof.
  intros Hm Hp Hpw.
  rewrite (dispatch_route _ _ _ _ RLogin []);
    [|by rewrite Hm|by rewrite Hm; apply static_mount_non_get|by rewrite Hm, Hp].
  simpl. unfold handle_login, js_strict_eq. by rewrite bool_decide_false.
Qed.

(** The right password sets the cookie [admin=1]. *)
Theorem login_right_password (cfg : Config) fresh req (s : S) :
  req_method req = POST -> req_path req = ["admin"; "login"] ->
  body_get (req_body req) "password" = JStr (admin_password cfg) ->
  dispatch cfg fresh req s = Some (s, mkResponse 200 BOk SetAdminCookie).
Proof.
  intros Hm Hp Hpw.
  rewrite (dispatch_route _ _ _ _ RLogin []);
    [|by rewrite Hm|by rewrite Hm; apply static_mount_non_get|by rewrite Hm, Hp].
  simpl. unfold handle_login, js_strict_eq. by rewrite bool_decide_true.
Qed.

(** C19: [?q=a&q=b] makes [q] an array; [.toLowerCase()] throws and the
    request fails with 500 (spec section 4.5 calls the filter total). *)
Theorem search_array_query_fails (cfg : Config) fresh req (s : S) vs :
  req_method req = GET -> req_path req = ["api"; "search"] ->
  req_query_q req = Search.QMany vs ->
  dispatch cfg fresh req s = Some (s, resp 500 BUncaught).
Proof.
  intros Hm Hp Hq.
  rewrite (dispatch_route _ _ _ _ RSearch []);
    [|by rewrite Hm|by rewrite Hp; apply static_mount_api|by rewrite Hm, Hp].
  simpl. unfold handle_search. by rewrite Hq.
Qed.

Context `{!BackendLaws S}.

(** C2: Spec section 8: without the cookie no request changes the store,
    except that [GET /api/categories] leaves the category array
    sorted in place. *)
Theorem unauthenticated_store_effect (cfg : Config) fresh req (s s' : S) r :
  authorized req = false -> dispatch cfg fresh req s = Some (s', r) ->
  s' = s \/ s' = fst (be_get_categories s).
Proof.
  intros Ha. unfold dispatch.
  case_bool_decide; [intros [= <- _]; by left|].
  destruct (static_mount _ _); [done|].
  destruct (find_route routes (req_method req) (req_path req)) as [[r' ps]|];
    [destruct r'|]; intros Hd; apply (f_equal (option_map fst)) in Hd;
    cbn [option_map fst] in Hd; injection Hd as Hd; subst s';
    unfold run_route, handle_upload, handle_create_category, handle_update_category,
      handle_delete_category, handle_create_article, handle_update_article,
      handle_delete_article, handle_create_ad, handle_update_ad, handle_delete_ad,
      handle_search, handle_login, require_auth; rewrite ?Ha; simpl;
    try (by left); try (by right).
  - left. apply law_articles_by_category_pure.
  - left. apply law_get_article_pure.
  - destruct (Search.query_of _); simpl; [|by left]. left. apply law_search_pure.
  - left. apply law_get_ads_pure.
  - left. by destruct (_ === _)%js.
Qed.

(** C7: Spec section 8, scenario 2 at the HTTP level, over any lawful
    backend: after an authorised [POST /api/articles] that drew a fresh
    id, [GET /api/articles/<id>] returns the record built from the
    body. *)
Theorem post_then_get_article (cfg : Config) fresh fresh' req req' (s s1 : S) r1 :
  authorized req = true -> req_method req = POST -> req_path req = ["api"; "articles"] ->
  fresh <> "" -> fresh ∉ be_article_ids s ->
  dispatch cfg fresh req s = Some (s1, r1) ->
  req_method req' = GET -> req_path req' = ["api"; "articles"; fresh] ->
  option_map snd (dispatch cfg fresh' req' s1)
    = Some (resp 200 (BArticle (article_of_body fresh (req_body req)))).
Proof.
  intros Ha Hm Hp Hne Hfresh Hd Hm' Hp'.
  rewrite (dispatch_route _ _ _ _ RCreateArticle []) in Hd;
    [|by rewrite Hm|by rewrite Hp; apply static_mount_api
     |by rewrite Hm, Hp; apply route_create_article].
  rewrite (dispatch_route _ _ _ _ RGetArticle [fresh]);
    [|by rewrite Hm'|by rewrite Hp'; apply static_mount_api
     |by rewrite Hm', Hp'; apply route_get_article].
  simpl in Hd. unfold handle_create_article, require_auth in Hd. rewrite Ha in Hd.
  injection Hd as <- _. simpl. unfold handle_get_article, call. simpl.
  by rewrite (law_create_get_article (article_of_body fresh (req_body req))).
Qed.

(** C6: Spec section 8, scenario 3 at the HTTP level: after an authorised
    [DELETE /api/categories/<k>], [GET /api/categories/<k>/articles]
    answers an empty list. *)
Theorem delete_then_category_articles (cfg : Config) fresh fresh' k req req' (s s1 : S) r1 :
  authorized req = true -> req_method req = DELETE ->
  req_path req = ["api"; "categories"; k] -> k <> "" ->
  dispatch cfg fresh req s = Some (s1, r1) ->
  req_method req' = GET -> req_path req' = ["api"; "categories"; k; "articles"] ->
  option_map snd (dispatch cfg fresh' req' s1) = Some (resp 200 (BArticles [])).
Proof.
  intros Ha Hm Hp Hne Hd Hm' Hp'.
  rewrite (dispatch_route _ _ _ _ RDeleteCategory [k]) in Hd;
    [|by rewrite Hm|by rewrite Hp; apply static_mount_api
     |by rewrite Hm, Hp; apply route_delete_category].
  rewrite (dispatch_route _ _ _ _ RCategoryArticles [k]);
    [|by rewrite Hm'|by rewrite Hp'; apply static_mount_api
     |by rewrite Hm', Hp'; apply route_category_articles].
  simpl in Hd. unfold handle_delete_category, require_auth, call_deleted in Hd.
  rewrite Ha in Hd. injection Hd as <- _. simpl.
  unfold handle_category_articles, call. simpl. by rewrite law_delete_cascade.
Qed.
End Theorems.

(** ** Witnesses on the in-memory backend *)

Lemma guarded_routes_reject_witness :
  let req := json_request POST ["api"; "categories"] ∅ {["name" := JStr "Tech"]} in
  find_route routes (req_method req) (req_path req) = Some (RCreateCategory, [])
  /\ authorized req = false
  /\ dispatch demo_cfg "Xy12_-" req MemStore.seed = Some (MemStore.seed, unauthorized).
Proof.
  cbv zeta. split_and!; [reflexivity|reflexivity|].
  apply (guarded_routes_reject _ _ _ _ RCreateCategory []); reflexivity.
Defined.

Lemma unauthenticated_store_effect_witness :
  let req := json_request GET ["api"; "categories"] ∅ ∅ in
  authorized req = false
  /\ (fst (MemStore.get_categories MemStore.seed) = MemStore.seed
      \/ fst (MemStore.get_categories MemStore.seed) = fst (be_get_categories MemStore.seed)).
Proof.
  cbv zeta. split; [reflexivity|].
  apply (unauthenticated_store_effect demo_cfg "Xy12_-" (json_request GET ["api"; "categories"] ∅ ∅)
           MemStore.seed _
           (resp 200 (BCategories (MemStore.sort_categories (MemStore.categories MemStore.seed)))));
    reflexivity.
Defined.

Lemma post_then_get_article_witness :
  let b : Body := {["title" := JStr "Kohli century"]} in
  let req := json_request POST ["api"; "articles"] admin_cookie b in
  let req' := json_request GET ["api"; "articles"; "Xy12_-"] ∅ ∅ in
  let s1 := fst (MemStore.create_article (article_of_body "Xy12_-" b) MemStore.seed) in
  authorized req = true
  /\ dispatch demo_cfg "Xy12_-" req MemStore.seed
       = Some (s1, resp 200 (BArticle (article_of_body "Xy12_-" b)))
  /\ option_map snd (dispatch demo_cfg "q" req' s1)
       = Some (resp 200 (BArticle (article_of_body "Xy12_-" b))).
Proof.
  cbv zeta. split_and!; [reflexivity|reflexivity|].
  exact (post_then_get_article demo_cfg "Xy12_-" "q"
           (json_request POST ["api"; "articles"] admin_cookie {["title" := JStr "Kohli century"]})
           (json_request GET ["api"; "articles"; "Xy12_-"] ∅ ∅) MemStore.seed
           (fst (MemStore.create_article
                   (article_of_body "Xy12_-" {["title" := JStr "Kohli century"]}) MemStore.seed))
           (resp 200 (BArticle (article_of_body "Xy12_-" {["title" := JStr "Kohli century"]})))
           eq_refl eq_refl eq_refl ltac:(discriminate) ltac:(eval_decide) eq_refl
           eq_refl eq_refl).
Defined.

Lemma delete_then_category_articles_witness :
  let req := json_request DELETE ["api"; "categories"; "sports"] admin_cookie ∅ in
  let req' := json_request GET ["api"; "categories"; "sports"; "articles"] ∅ ∅ in
  let s1 := fst (MemStore.delete_category "sports" MemStore.seed) in
  authorized req = true
  /\ dispatch demo_cfg "Xy12_-" req MemStore.seed = Some (s1, resp 204 BEmpty)
  /\ option_map snd (dispatch demo_cfg "q" req' s1) = Some (resp 200 (BArticles [])).
Proof.
  cbv zeta. split_and!; [reflexivity|reflexivity|].
  apply (delete_then_category_articles demo_cfg "Xy12_-" "q" "sports"
           (json_request DELETE ["api"; "categories"; "sports"] admin_cookie ∅)
           _ MemStore.seed _ (resp 204 BEmpty));
    first [reflexivity | discriminate].
Defined.

Lemma search_array_query_fails_witness :
  let req := mkRequest GET ["api"; "search"] ∅ ∅ (Search.QMany ["virat"; "six"]) None in
  dispatch demo_cfg "Xy12_-" req MemStore.seed = Some (MemStore.seed, resp 500 BUncaught).
Proof.
  cbv zeta. apply (search_array_query_fails _ _ _ _ ["virat"; "six"]); reflexivity.
Defined.

Lemma login_wrong_password_witness :
  let req := json_request POST ["admin"; "login"] ∅ {["password" := JStr "virat12"]} in
  body_get (req_body req) "password" <> JStr (admin_password demo_cfg)
  /\ dispatch demo_cfg "Xy12_-" req MemStore.seed
       = Some (MemStore.seed, resp 403 (BError "Wrong password")).
Proof.
  cbv zeta.
  assert (H : body_get {["password" := JStr "virat12"]} "password"
              <> JStr (admin_password demo_cfg)) by eval_decide.
  split; [exact H|]. apply login_wrong_password; [reflexivity|reflexivity|exact H].
Defined.

Lemma login_right_password_witness :
  let req := json_request POST ["admin"; "login"] ∅ {["password" := JStr "virat123"]} in
  body_get (req_body req) "password" = JStr (admin_password demo_cfg)
  /\ dispatch demo_cfg "Xy12_-" req MemStore.seed
       = Some (MemStore.seed, mkResponse 200 BOk SetAdminCookie).
Proof.
  cbv zeta. split; [reflexivity|]. apply login_right_password; reflexivity.
Defined.

End Router.
