(* ===== verification/Session.v ===== *)
(** The browser and the server as one system: an honest browser keeps
    the cookie [admin] the server set ([res.cookie], line 311) until the
    server clears it ([res.clearCookie], line 318), and sends it with
    every request, as the admin page [admin/app.js] does through
    [fetch].  The system steps by one exchange; [reaches] is its
    reachability relation with the trace of requests.  The theorems say
    when an honest browser carries the admin cookie, in contrast with
    a client that is not honest, which [requireAuth] lets in by sending
    [Cookie: admin=1]. *)

From S2P Require Import Prelude JsValue Records Search MemStore Backend Router.

Local Open Scope string_scope.
Local Open Scope list_scope.

Module Session.
Import Router.

Record Sys (S : Type) : Type := mkSys {
  store : S;
  jar_admin : bool
}.
Arguments mkSys {S} store jar_admin.
Arguments store {S} s.
Arguments jar_admin {S} s.

(** The cookies an honest browser attaches: [admin=1] when its jar has it. *)
Definition browser_request (jar : bool) (req : Request) : Request :=
  {| req_method := req_method req;
     req_path := req_path req;
     req_cookies := if jar then {["admin" := "1"]} else ∅;
     req_body := req_body req;
     req_query_q := req_query_q req;
     req_file := req_file req |}.

(** The jar after a response's [Set-Cookie]. *)
Definition apply_cookie (op : CookieOp) (jar : bool) : bool :=
  match op with
  | KeepCookie => jar
  | SetAdminCookie => true
  | ClearAdminCookie => false
  end.

(** A successful login, and a logout, as the route table reads them. *)
Definition login_ok (cfg : Config) (req : Request) : Prop :=
  (exists ps, find_route routes (req_method req) (req_path req) = Some (RLogin, ps))
  /\ body_get (req_body req) "password" = JStr (admin_password cfg).

Definition is_logout (req : Request) : Prop :=
  exists ps, find_route routes (req_method req) (req_path req) = Some (RLogout, ps).

(** The cookie a request makes the server set, read off the route
    table and the password: only [/admin/login] and [/admin/logout]
    touch the cookie. *)
Definition cookie_effect (cfg : Config) (req : Request) : CookieOp :=
  match find_route routes (req_method req) (req_path req) with
  | Some (RLogin, _) =>
      if bool_decide (body_get (req_body req) "password" = JStr (admin_password cfg))
      then SetAdminCookie else KeepCookie
  | Some (RLogout, _) => ClearAdminCookie
  | _ => KeepCookie
  end.

(** The request of the admin page's login button (app.js line 231):
    [POST /admin/login] with [{ password }]. *)
Definition login_request (pass : string) : Request :=
  json_request POST ["admin"; "login"] ∅ {["password" := JStr pass]}.

Section System.
Context {S : Type} `{!Backend S} (cfg : Config).

(** One exchange: the browser sends [req] with its cookies, the server
    handles it with the fresh id [fresh], the browser stores the cookie
    the response sets.  [None]: a static file request. *)
Definition exchange (fresh : string) (req : Request) (σ : Sys S) : option (Sys S * Response) :=
  match dispatch cfg fresh (browser_request (jar_admin σ) req) (store σ) with
  | None => None
  | Some (s', r) => Some (mkSys s' (apply_cookie (cookie r) (jar_admin σ)), r)
  end.

(** A trace run exchange by exchange (static requests leave the state). *)
Fixpoint run (tr : list (string * Request)) (σ : Sys S) : Sys S * list (option Response) :=
  match tr with
  | [] => (σ, [])
  | (fresh, req) :: tr' =>
      match exchange fresh req σ with
      | Some (σ', r) => let '(σ'', rs) := run tr' σ' in (σ'', Some r :: rs)
      | None => let '(σ'', rs) := run tr' σ in (σ'', None :: rs)
      end
  end.

(** Reachability from [σ0] along a trace of (fresh id, request) pairs. *)
Inductive reaches (σ0 : Sys S) : list (string * Request) -> Sys S -> Prop :=
| reaches_refl : reaches σ0 [] σ0
| reaches_step tr σ fresh req σ' r :
    reaches σ0 tr σ -> exchange fresh req σ = Some (σ', r) ->
    reaches σ0 (tr ++ [(fresh, req)]) σ'.

End System.

(** ** Lemmas *)

Lemma respond_keep {A} (wrap : A -> RBody) o : cookie (respond wrap o) = KeepCookie.
Proof. by destruct o. Qed.

Lemma respond_deleted_keep o : cookie (respond_deleted o) = KeepCookie.
Proof. by destruct o. Qed.

Lemma find_route_options p : find_route routes OPTIONS p = None.
Proof. vm_compute. reflexivity. Qed.

Section Lemmas.
Context {S : Type} `{!Backend S}.

(** Every route but login and logout answers without [Set-Cookie]. *)
Lemma run_route_cookie (cfg : Config) fresh req r ps (s : S) :
  r <> RLogin -> r <> RLogout -> cookie (snd (run_route cfg fresh req r ps s)) = KeepCookie.
Proof.
  intros Hl Ho. destruct r; try done; simpl;
    unfold handle_upload, handle_root, handle_list_categories, handle_create_category,
      handle_update_category, handle_delete_category, handle_category_articles,
      handle_get_article, handle_create_article, handle_update_article,
      handle_delete_article, handle_search, handle_list_ads, handle_create_ad,
      handle_update_ad, handle_delete_ad, require_auth, call, call_deleted;
    repeat case_match; simpl; auto using respond_keep, respond_deleted_keep.
Qed.

(** The cookie a response sets is [cookie_effect] of the request: it
    depends neither on the store nor on the cookies the request sends. *)
Lemma dispatch_cookie (cfg : Config) fresh req (s s' : S) r :
  dispatch cfg fresh req s = Some (s', r) -> cookie r = cookie_effect cfg req.
Proof.
  unfold dispatch, cookie_effect. case_bool_decide as Ho.
  - intros [= _ Hr]. subst r. by rewrite Ho, find_route_options.
  - destruct (static_mount _ _); [done|].
    destruct (find_route routes (req_method req) (req_path req)) as [[r' ps]|];
      intros Hd; apply (f_equal (option_map snd)) in Hd; cbn [option_map snd] in Hd;
      injection Hd as <-; [|done].
    destruct (decide (r' = RLogin)) as [->|Hl]; [|destruct (decide (r' = RLogout)) as [->|Ho']].
    + simpl. unfold handle_login, js_strict_eq. by case_bool_decide.
    + done.
    + rewrite run_route_cookie by done. by destruct r'.
Qed.

(** The jar after an exchange. *)
Lemma exchange_jar (cfg : Config) fresh req (σ σ' : Sys S) r :
  exchange cfg fresh req σ = Some (σ', r) ->
  jar_admin σ' = apply_cookie (cookie_effect cfg req) (jar_admin σ).
Proof.
  unfold exchange. destruct (dispatch _ _ _ _) as [[s' r']|] eqn:Hd; [|done].
  intros [= <- _]. simpl. apply dispatch_cookie in Hd. by rewrite Hd.
Qed.

Lemma cookie_effect_set cfg req : cookie_effect cfg req = SetAdminCookie -> login_ok cfg req.
Proof.
  unfold cookie_effect, login_ok.
  destruct (find_route _ _ _) as [[[] ps]|]; try done. case_bool_decide; [|done].
  intros _. split; [by exists ps|done].
Qed.

Lemma cookie_effect_clear cfg req : cookie_effect cfg req = ClearAdminCookie -> is_logout req.
Proof.
  unfold cookie_effect, is_logout.
  destruct (find_route _ _ _) as [[[] ps]|]; try done; [by case_bool_decide|].
  intros _. by exists ps.
Qed.

Lemma cookie_effect_login cfg req :
  login_ok cfg req -> cookie_effect cfg req = SetAdminCookie.
Proof.
  intros [[ps Hf] Hpw]. unfold cookie_effect. rewrite Hf. by rewrite bool_decide_true.
Qed.

Lemma cookie_effect_logout cfg req : is_logout req -> cookie_effect cfg req = ClearAdminCookie.
Proof. intros [ps Hf]. unfold cookie_effect. by rewrite Hf. Qed.

(** The configured password always logs the browser in. *)
Lemma exchange_login_right (cfg : Config) (σ : Sys S) fresh :
  exchange cfg fresh (login_request (admin_password cfg)) σ
    = Some (mkSys (store σ) true, mkResponse 200 BOk SetAdminCookie).
Proof. unfold exchange. by rewrite (login_right_password cfg fresh _ (store σ)). Qed.

(** With the cookie, a guarded request runs its handler and keeps the
    cookie. *)
Lemma exchange_guarded (cfg : Config) (σ : Sys S) fresh req r ps :
  jar_admin σ = true ->
  find_route routes (req_method req) (req_path req) = Some (r, ps) -> mutating r = true ->
  exchange cfg fresh req σ =
    let rr := run_route cfg fresh (browser_request true req) r ps (store σ) in
    Some (mkSys (fst rr) true, snd rr).
Proof.
  intros Hj Hf Hm. destruct σ as [s jar]. cbn [jar_admin store] in *. subst jar.
  destruct (mutating_route_method _ _ _ _ Hf Hm) as (Ho & Hg & Hh).
  unfold exchange. cbn [store jar_admin].
  rewrite (dispatch_route cfg fresh _ s r ps); [|done|by apply static_mount_non_get|done].
  assert (Hc : cookie (snd (run_route cfg fresh (browser_request true req) r ps s)) = KeepCookie)
    by (apply run_route_cookie; intros ->; discriminate).
  destruct (run_route _ _ _ _ _ _) as [s' resp]. cbn in *. by rewrite Hc.
Qed.

(** C22: Spec section 4.4 for an honest browser: if it holds the admin
    cookie, a request of its trace was a successful login and no
    request after it was a logout.  By rule induction on [reaches]. *)
Theorem cookie_only_after_login (cfg : Config) (σ0 σ : Sys S) tr :
  reaches cfg σ0 tr σ -> jar_admin σ0 = false -> jar_admin σ = true ->
  exists tr1 fresh req tr2,
    tr = tr1 ++ (fresh, req) :: tr2 /\ login_ok cfg req
    /\ Forall (fun e => ~ is_logout (snd e)) tr2.
Proof.
  induction 1 as [|tr σ fresh req σ' r Hr IH Hx]; intros H0 H1; [congruence|].
  apply exchange_jar in Hx. rewrite Hx in H1.
  destruct (cookie_effect cfg req) eqn:E; simpl in H1; [| |discriminate].
  - destruct (IH H0 H1) as (tr1 & f & rq & tr2 & -> & Hl & Hn).
    exists tr1, f, rq, (tr2 ++ [(fresh, req)]). split_and!; [by rewrite <- app_assoc|done|].
    apply Forall_app. split; [done|]. constructor; [|done].
    simpl. intros Hlo. rewrite cookie_effect_logout in E by done. discriminate.
  - exists tr, fresh, req, []. split_and!; [done|by apply cookie_effect_set|constructor].
Qed.

(** An honest browser that never logs in successfully never sends
    the admin cookie, so every guarded route answers it 401
    ([Router.guarded_routes_reject]). *)
Theorem no_login_no_cookie (cfg : Config) (σ0 σ : Sys S) tr :
  reaches cfg σ0 tr σ -> jar_admin σ0 = false ->
  Forall (fun e => ~ login_ok cfg (snd e)) tr -> jar_admin σ = false.
Proof.
  induction 1 as [|tr σ fresh req σ' r Hr IH Hx]; intros H0 Hf; [done|].
  apply Forall_app in Hf as [Hf Hlast]. apply Forall_inv in Hlast. simpl in Hlast.
  apply exchange_jar in Hx. rewrite Hx, (IH H0 Hf).
  destruct (cookie_effect cfg req) eqn:E; [done| |done].
  exfalso. apply Hlast. by apply cookie_effect_set.
Qed.

End Lemmas.


Lemma cookie_only_after_login_witness :
  let login := json_request POST ["admin"; "login"] ∅ {["password" := JStr "virat123"]} in
  let σ0 := mkSys MemStore.seed false in
  let σ := mkSys MemStore.seed true in
  reaches demo_cfg σ0 [("f1", login)] σ /\ jar_admin σ0 = false /\ jar_admin σ = true /\
  exists tr1 fresh req tr2,
    [("f1", login)] = tr1 ++ (fresh, req) :: tr2 /\ login_ok demo_cfg req
    /\ Forall (fun e => ~ is_logout (snd e)) tr2.
Proof.
  cbv zeta.
  assert (Hr : reaches demo_cfg (mkSys MemStore.seed false)
                 ([] ++ [("f1", json_request POST ["admin"; "login"] ∅
                                   {["password" := JStr "virat123"]})])
                 (mkSys MemStore.seed true))
    by (eapply reaches_step; [constructor|reflexivity]).
  split_and!; [exact Hr|reflexivity|reflexivity|].
  exact (cookie_only_after_login _ _ _ _ Hr eq_refl eq_refl).
Defined.

Lemma no_login_no_cookie_witness :
  let wrong := json_request POST ["admin"; "login"] ∅ {["password" := JStr "virat12"]} in
  reaches demo_cfg (mkSys MemStore.seed false) [("f1", wrong)] (mkSys MemStore.seed false)
  /\ Forall (fun e => ~ login_ok demo_cfg (snd e)) [("f1", wrong)]
  /\ jar_admin (mkSys MemStore.seed false) = false.
Proof.
  cbv zeta.
  assert (Hr : reaches demo_cfg (mkSys MemStore.seed false)
                 ([] ++ [("f1", json_request POST ["admin"; "login"] ∅
                                   {["password" := JStr "virat12"]})])
                 (mkSys MemStore.seed false))
    by (eapply reaches_step; [constructor|reflexivity]).
  assert (Hf : Forall (fun e => ~ login_ok demo_cfg (snd e))
                 [("f1", json_request POST ["admin"; "login"] ∅
                           {["password" := JStr "virat12"]})]).
  { constructor; [|constructor]. intros [_ Hpw]. vm_compute in Hpw. discriminate. }
  split_and!; [exact Hr|exact Hf|exact (no_login_no_cookie _ _ _ _ Hr eq_refl Hf)].
Defined.

(** Spec section 8, scenario 5, on the seeded in-memory store: a
    wrong password is refused with 403, the browser's next
    [POST /api/categories] is refused with 401, the right password sets
    the cookie, and the same [POST] then succeeds and stores the
    category. *)
Example login_scenario :
  let body : Body := {["name" := JStr "Tech"]} in
  let tr := [("f1", json_request POST ["admin"; "login"] ∅ {["password" := JStr "virat12"]});
             ("f2", json_request POST ["api"; "categories"] ∅ body);
             ("f3", json_request POST ["admin"; "login"] ∅ {["password" := JStr "virat123"]});
             ("f4", json_request POST ["api"; "categories"] ∅ body)] in
  let '(σ, rs) := run demo_cfg tr (mkSys MemStore.seed false) in
  (option_map status <$> rs) = [Some 403%Z; Some 401%Z; Some 200%Z; Some 200%Z]
  /\ jar_admin σ = true
  /\ MemStore.categories (store σ)
     = MemStore.categories MemStore.seed ++ [category_of_body "f4" body].
Proof. vm_compute. split_and!; reflexivity. Qed.

End Session.
