(* ===== verification/SqlStore.v ===== *)
(** The sqlite backend: the [if (useSqlite)] branch of every handler of
    index.js, over the three tables of lines 73-75.  A value is bound by
    node-sqlite3 ([bind]: [undefined] and [null] to NULL, booleans to
    0/1, numbers in the signed 32-bit range to INTEGER and others to
    REAL, strings to TEXT) and stored with its column's affinity (TEXT
    columns turn a number into its text, a REAL into its [%!.15g] text
    [real_text]; [order_num INTEGER] turns an integer literal into an
    integer and an integral REAL inside 64 bits into an INTEGER).
    Reads convert back with [to_js].  [id TEXT PRIMARY KEY] makes an
    [INSERT] of a present id fail; [UPDATE] and [DELETE] that match no
    row succeed.  The cascade [DELETE FROM articles] of line 154 is
    issued without a callback after the response is decided: it is kept
    in [pending] and runs when [flush] is called, so that a read may
    come before it.  The theorems: ids stay unique and columns keep
    their storage classes under every event, the listing and the search
    against the in-memory ones, the text of numbers in TEXT columns, and
    where the two stores differ. *)

From S2P Require Import Prelude JsValue SortCompare Records Search MemStore Backend Router Session.

Local Open Scope string_scope.

Module Sql.

(** A stored value.  [SReal z] is a REAL whose value is the integer
    [z]: numbers reach the database only as JSON integers, and those
    outside the 32-bit range are bound as REAL. *)
Inductive SqlVal : Type := SNull | SInt (z : Z) | SReal (z : Z) | SText (s : string).

#[export] Instance SqlVal_eq_dec : EqDecision SqlVal.
Proof. solve_decision. Defined.

(** The signed 32-bit range, in which node-sqlite3 binds a number as
    INTEGER ([OtherIsInt] in statement.cc), and the 64-bit range of
    SQLite's INTEGER. *)
Definition int32_range (z : Z) : bool := ((-2^31 <=? z) && (z <? 2^31))%Z.

Definition int64_range (z : Z) : bool := ((-2^63 <=? z) && (z <? 2^63))%Z.

(** node-sqlite3's binding of a JavaScript parameter: [undefined] and
    [null] to NULL, booleans to 0/1, a number to INTEGER when it is a
    32-bit integer and to REAL otherwise, a string to TEXT. *)
Definition bind (v : JsVal) : SqlVal :=
  match v with
  | JUndefined | JNull => SNull
  | JBool b => SInt (if b then 1 else 0)
  | JNum z => if int32_range z then SInt z else SReal z
  | JStr s => SText s
  end.

(** A digit string without its trailing zeros. *)
Fixpoint rstrip_zeros (s : string) : string :=
  match s with
  | EmptyString => EmptyString
  | String c r =>
      let r' := rstrip_zeros r in
      if (String.eqb r' "" && Ascii.eqb c "0")%bool then EmptyString else String c r'
  end.

(** The text of a REAL holding the integer [z], SQLite's [%!.15g]
    ([sqlite3VdbeMemStringify]): below [10^15] its digits and [.0];
    from [10^15] on, fifteen significant digits rounded half up, without
    trailing zeros but with at least one decimal, and the exponent
    [e+NN]. *)
Definition real_text (z : Z) : string :=
  let sign := if (z <? 0)%Z then "-" else "" in
  let a := Z.abs z in
  let d := Js.number_to_string a in
  let n := Z.of_nat (String.length d) in
  if (a <? 10^15)%Z then sign ++ d ++ ".0"
  else
    let k := (n - 15)%Z in
    let q := ((a + 10^k / 2) / 10^k)%Z in
    let '(m, e) := if (q =? 10^15)%Z then (10^14, n)%Z else (q, n - 1)%Z in
    match Js.number_to_string m with
    | String c frac =>
        let f := rstrip_zeros frac in
        sign ++ String c ("." ++ (if String.eqb f "" then "0" else f) ++ "e+"
                          ++ Js.number_to_string e)
    | EmptyString => EmptyString
    end.

(** TEXT affinity: a number is stored as its text. *)
Definition text_affinity (v : SqlVal) : SqlVal :=
  match v with
  | SInt z => SText (Js.number_to_string z)
  | SReal z => SText (real_text z)
  | _ => v
  end.

(** INTEGER affinity: a text that is a decimal integer literal (with an
    optional sign and surrounding blanks) is stored as that integer, or
    as a REAL when it overflows 64 bits; a REAL with an integral value
    strictly inside the 64-bit range becomes an INTEGER
    ([sqlite3VdbeIntegerAffinity]).  A text that is a real literal
    (["2.5"], ["1e3"], ["5.0"]) is stored by SQLite as a REAL, or as an
    INTEGER when its value is integral; the model keeps such a text as
    TEXT, so the theorems comparing the stores assume integer orders. *)
(** The blanks [sqlite3Isspace] skips around a numeric literal: TAB,
    LF, VT, FF, CR and SPACE (not the no-break space that JavaScript's
    [trim] also removes). *)
Definition sql_space (c : Ascii.ascii) : bool :=
  let n := Ascii.N_of_ascii c in (N.eqb n 32 || (N.leb 9 n && N.leb n 13))%bool.

Fixpoint sql_trim_start (s : string) : string :=
  match s with
  | EmptyString => EmptyString
  | String c s' => if sql_space c then sql_trim_start s' else s
  end.

Fixpoint sql_trim_end (s : string) : string :=
  match s with
  | EmptyString => EmptyString
  | String c s' =>
      let r := sql_trim_end s' in
      if (sql_space c && String.eqb r "")%bool then EmptyString else String c r
  end.

Definition text_integer (s : string) : option Z :=
  match sql_trim_end (sql_trim_start s) with
  | EmptyString => None
  | String "-"%char r => option_map Z.opp (Js.parse_digits r)
  | String "+"%char r => Js.parse_digits r
  | t => Js.parse_digits t
  end.

Definition integer_affinity (v : SqlVal) : SqlVal :=
  match v with
  | SText s =>
      match text_integer s with
      | Some z => if int64_range z then SInt z else SReal z
      | None => v
      end
  | SReal z => if ((-2^63 <? z) && (z <? 2^63 - 1))%Z then SInt z else v
  | _ => v
  end.

(** The value of a stored number, INTEGER or REAL. *)
Definition sql_num (v : SqlVal) : option Z :=
  match v with SInt z | SReal z => Some z | _ => None end.

(** A column value as [res.json(rows)] sends it. *)
Definition to_js (v : SqlVal) : JsVal :=
  match v with
  | SNull => JNull
  | SInt z | SReal z => JNum z
  | SText s => JStr s
  end.

(** ** Rows and tables (lines 73-75) *)

Record CatRow : Type := mkCatRow { cr_id : string; cr_name : SqlVal; cr_order : SqlVal }.

Record ArtRow : Type := mkArtRow {
  ar_id : string; ar_title : SqlVal; ar_description : SqlVal; ar_content : SqlVal;
  ar_imageUrl : SqlVal; ar_author : SqlVal; ar_publishedAt : SqlVal;
  ar_categoryId : SqlVal; ar_sourceUrl : SqlVal }.

Record AdRow : Type := mkAdRow {
  dr_id : string; dr_type : SqlVal; dr_placement : SqlVal; dr_imageUrl : SqlVal;
  dr_clickUrl : SqlVal }.

(** A statement issued without waiting for it: the cascade of line 154. *)
Inductive Pending : Type := CascadeArticles (catId : string).

(** Rows are kept in rowid order, the order a full scan returns. *)
Record t : Type := mk {
  cat_rows : list CatRow;
  art_rows : list ArtRow;
  ad_rows : list AdRow;
  pending : list Pending
}.

Definition cat_row_of (c : Category) : CatRow :=
  mkCatRow (cat_id c) (text_affinity (bind (cat_name c))) (integer_affinity (bind (cat_order c))).

Definition art_row_of (a : Article) : ArtRow :=
  let f v := text_affinity (bind v) in
  mkArtRow (art_id a) (f (art_title a)) (f (art_description a)) (f (art_content a))
    (f (art_imageUrl a)) (f (art_author a)) (f (art_publishedAt a))
    (f (art_categoryId a)) (f (art_sourceUrl a)).

Definition ad_row_of (d : Ad) : AdRow :=
  let f v := text_affinity (bind v) in
  mkAdRow (ad_id d) (f (ad_type d)) (f (ad_placement d)) (f (ad_imageUrl d)) (f (ad_clickUrl d)).

(** [SELECT id,name,order_num as "order"] *)
Definition category_of_row (r : CatRow) : Category :=
  mkCategory (cr_id r) (to_js (cr_name r)) (to_js (cr_order r)).

(** [SELECT *] *)
Definition article_of_row (r : ArtRow) : Article :=
  mkArticle (ar_id r) (to_js (ar_title r)) (to_js (ar_description r)) (to_js (ar_content r))
    (to_js (ar_imageUrl r)) (to_js (ar_author r)) (to_js (ar_publishedAt r))
    (to_js (ar_categoryId r)) (to_js (ar_sourceUrl r)).

Definition ad_of_row (r : AdRow) : Ad :=
  mkAd (dr_id r) (to_js (dr_type r)) (to_js (dr_placement r)) (to_js (dr_imageUrl r))
    (to_js (dr_clickUrl r)).

(** ** Expressions *)

(** The ORDER BY comparison with the BINARY collation: NULL first, then
    numbers, then texts in byte order. *)
Definition sql_compare (a b : SqlVal) : Z :=
  match a, b with
  | SNull, SNull => 0
  | SNull, _ => -1
  | _, SNull => 1
  | (SInt x | SReal x), (SInt y | SReal y) => Z.sgn (x - y)
  | (SInt _ | SReal _), SText _ => -1
  | SText _, (SInt _ | SReal _) => 1
  | SText x, SText y =>
      match String.compare x y with Lt => -1 | Eq => 0 | Gt => 1 end
  end.

(** [lower(x)]: ASCII letters only. *)
Definition ascii_lower (c : Ascii.ascii) : Ascii.ascii :=
  let n := Ascii.N_of_ascii c in
  if (N.leb 65 n && N.leb n 90)%bool then Ascii.ascii_of_N (n + 32) else c.

Fixpoint sql_lower (s : string) : string :=
  match s with
  | EmptyString => EmptyString
  | String c s' => String (ascii_lower c) (sql_lower s')
  end.

(** [x LIKE p] without ESCAPE: [%] matches any run of characters, [_]
    any one character, and other characters compare without ASCII
    case. *)
Fixpoint like (p s : string) : bool :=
  match p with
  | EmptyString => match s with EmptyString => true | _ => false end
  | String c p' =>
      if Ascii.eqb c "%" then
        (fix skip (s : string) : bool :=
           like p' s || match s with EmptyString => false | String _ s' => skip s' end)%bool s
      else
        match s with
        | EmptyString => false
        | String d s' =>
            ((Ascii.eqb c "_" || Ascii.eqb (ascii_lower c) (ascii_lower d)) && like p' s')%bool
        end
  end.

(** [lower(v)] with NULL propagation; a stored number reads as its text. *)
Definition lower_val (v : SqlVal) : option string :=
  match v with
  | SNull => None
  | SInt z => Some (Js.number_to_string z)
  | SReal z => Some (real_text z)
  | SText s => Some (sql_lower s)
  end.

(** [lower(title)||' '||lower(description)||' '||lower(content)]: NULL
    when any of the three is NULL. *)
Definition sql_haystack (r : ArtRow) : option string :=
  match lower_val (ar_title r), lower_val (ar_description r), lower_val (ar_content r) with
  | Some t, Some d, Some c => Some (t ++ " " ++ d ++ " " ++ c)
  | _, _, _ => None
  end.

(** [... LIKE '%' || q || '%'] (lines 240-241). *)
Definition sql_matches (q : string) (r : ArtRow) : bool :=
  match sql_haystack r with
  | Some h => like ("%" ++ q ++ "%") h
  | None => false
  end.

(** ** Operations: the [if (useSqlite)] branches *)

Definition set_cat_rows (rs : list CatRow) (s : t) : t := mk rs (art_rows s) (ad_rows s) (pending s).
Definition set_art_rows (rs : list ArtRow) (s : t) : t := mk (cat_rows s) rs (ad_rows s) (pending s).
Definition set_ad_rows (rs : list AdRow) (s : t) : t := mk (cat_rows s) (art_rows s) rs (pending s).

Definition unique_violation (table : string) : string :=
  "SQLITE_CONSTRAINT: UNIQUE constraint failed: " ++ table ++ ".id".

(** Line 109: [ORDER BY order_num]; ties keep rowid order. *)
Definition get_categories (s : t) : t * outcome (list Category) :=
  (s, Ok (category_of_row <$> sort_by (fun a b => sql_compare (cr_order a) (cr_order b)) (cat_rows s))).

(** Lines 122-125: [INSERT] fails on a present id. *)
Definition create_category (c : Category) (s : t) : t * outcome Category :=
  if bool_decide (cat_id c ∈ cr_id <$> cat_rows s)
  then (s, Failure (unique_violation "categories"))
  else (set_cat_rows (cat_rows s ++ [cat_row_of c]) s, Ok c).

(** Lines 137-140: [UPDATE ... WHERE id=?] answers the request's record
    whether or not a row matched. *)
Definition update_category (id : string) (name order : JsVal) (s : t) : t * outcome Category :=
  let c := {| cat_id := id; cat_name := name; cat_order := (order || JNum 0)%js |} in
  (set_cat_rows ((fun r => if decide (cr_id r = id) then cat_row_of c else r) <$> cat_rows s) s,
   Ok c).

(** Lines 152-155: the category row goes, the cascade is only issued. *)
Definition delete_category (id : string) (s : t) : t * outcome unit :=
  (mk (filter (fun r => cr_id r <> id) (cat_rows s)) (art_rows s) (ad_rows s)
      (pending s ++ [CascadeArticles id]), Ok tt).

(** The issued statements run (line 154 has no callback: its outcome
    is never looked at). *)
Definition run_pending (p : Pending) (rs : list ArtRow) : list ArtRow :=
  match p with
  | CascadeArticles k => filter (fun r => ar_categoryId r <> SText k) rs
  end.

Definition flush (s : t) : t :=
  mk (cat_rows s) (foldl (fun rs p => run_pending p rs) (art_rows s) (pending s)) (ad_rows s) [].

(** Line 168. *)
Definition articles_by_category (catId : string) (s : t) : t * outcome (list Article) :=
  (s, Ok (article_of_row <$> filter (fun r => ar_categoryId r = SText catId) (art_rows s))).

(** Lines 180-183: [db.get] yields the first row, 404 when none. *)
Definition get_article (id : string) (s : t) : t * outcome Article :=
  match list_find (fun r => ar_id r = id) (art_rows s) with
  | Some (_, r) => (s, Ok (article_of_row r))
  | None => (s, NotFound)
  end.

(** Lines 196-199. *)
Definition create_article (a : Article) (s : t) : t * outcome Article :=
  if bool_decide (art_id a ∈ ar_id <$> art_rows s)
  then (s, Failure (unique_violation "articles"))
  else (set_art_rows (art_rows s ++ [art_row_of a]) s, Ok a).

(** Lines 211-214: [SET] rewrites the eight columns of the matched row,
    whose [id] stays. *)
Definition update_article (id : string) (a : Article) (s : t) : t * outcome Article :=
  (set_art_rows ((fun r => if decide (ar_id r = id)
                           then art_row_of (mkArticle id (art_title a) (art_description a)
                                  (art_content a) (art_imageUrl a) (art_author a)
                                  (art_publishedAt a) (art_categoryId a) (art_sourceUrl a))
                           else r) <$> art_rows s) s,
   Ok a).

(** Lines 226-229. *)
Definition delete_article (id : string) (s : t) : t * outcome unit :=
  (set_art_rows (filter (fun r => ar_id r <> id) (art_rows s)) s, Ok tt).

(** Lines 240-244. *)
Definition search_articles (q : string) (s : t) : t * outcome (list Article) :=
  (s, Ok (article_of_row <$> filter (fun r => sql_matches q r = true) (art_rows s))).

(** Lines 254-257. *)
Definition get_ads (s : t) : t * outcome (list Ad) := (s, Ok (ad_of_row <$> ad_rows s)).

(** Lines 267-270. *)
Definition create_ad (d : Ad) (s : t) : t * outcome Ad :=
  if bool_decide (ad_id d ∈ dr_id <$> ad_rows s)
  then (s, Failure (unique_violation "ads"))
  else (set_ad_rows (ad_rows s ++ [ad_row_of d]) s, Ok d).

(** Lines 282-285. *)
Definition update_ad (id : string) (d : Ad) (s : t) : t * outcome Ad :=
  (set_ad_rows ((fun r => if decide (dr_id r = id)
                          then ad_row_of (mkAd id (ad_type d) (ad_placement d) (ad_imageUrl d)
                                 (ad_clickUrl d))
                          else r) <$> ad_rows s) s,
   Ok d).

(** Lines 297-300. *)
Definition delete_ad (id : string) (s : t) : t * outcome unit :=
  (set_ad_rows (filter (fun r => dr_id r <> id) (ad_rows s)) s, Ok tt).

(** ** Seeding (lines 77-97) *)

(** [stmt.run(...)] with no callback: an [INSERT] whose id is present
    makes the statement emit ['error'], which nothing listens to; it is
    thrown as an uncaught exception and the handler of lines 330-333
    exits the process.  [None]: the process has exited. *)
Definition insert_run {R} (key : R -> string) (r : R) (rs : list R) : option (list R) :=
  if bool_decide (key r ∈ key <$> rs) then None else Some (rs ++ [r])%list.

(** The [forEach] of [stmt.run]s of one table, in order. *)
Definition insert_all {A R} (key : R -> string) (row : A -> R) (xs : list A) (rs : list R)
    : option (list R) :=
  foldl (fun acc x => acc ≫= insert_run key (row x)) (Some rs) xs.

(** When [SELECT COUNT( * )] finds no category, the rows of lines 80-94
    are inserted; they are the literals of the in-memory store (lines
    50-66).  The article and ad inserts run whatever those tables hold:
    one whose id is present ends the process ([None]). *)
Definition seed_if_empty (s : t) : option t :=
  match cat_rows s with
  | [] =>
      cs ← insert_all cr_id cat_row_of (MemStore.categories MemStore.seed) [];
      arts ← insert_all ar_id art_row_of (MemStore.articles MemStore.seed) (art_rows s);
      ds ← insert_all dr_id ad_row_of (MemStore.ads MemStore.seed) (ad_rows s);
      Some (mk cs arts ds (pending s))
  | _ => Some s
  end.

(** A fresh database file: the three [CREATE TABLE] give empty tables. *)
Definition empty : t := mk [] [] [] [].

#[export] Instance sql_backend : Backend t := {
  be_get_categories := get_categories;
  be_create_category := create_category;
  be_update_category := update_category;
  be_delete_category := delete_category;
  be_articles_by_category := articles_by_category;
  be_get_article := get_article;
  be_create_article := create_article;
  be_update_article := update_article;
  be_delete_article := delete_article;
  be_search := search_articles;
  be_get_ads := get_ads;
  be_create_ad := create_ad;
  be_update_ad := update_ad;
  be_delete_ad := delete_ad
}.

(** The database the server creates on first start (the seeding of the
    empty tables succeeds: [seed_empty]). *)
Definition seeded : t := default empty (seed_if_empty empty).

(** ** Predicates of the theorems *)

(** A pattern with neither [%] nor [_]. *)
Fixpoint wild_free (p : string) : bool :=
  match p with
  | EmptyString => true
  | String c p' => (negb (Ascii.eqb c "%") && negb (Ascii.eqb c "_") && wild_free p')%bool
  end.

(** Seven-bit text, where [lower()] and [toLowerCase] agree. *)
Fixpoint ascii_text (s : string) : bool :=
  match s with
  | EmptyString => true
  | String c s' => (N.ltb (Ascii.N_of_ascii c) 128 && ascii_text s')%bool
  end.

Definition ascii_val (v : SqlVal) : bool :=
  match v with SText s => ascii_text s | _ => false end.

(** The three searched columns hold seven-bit text. *)
Definition ascii_row (r : ArtRow) : bool :=
  (ascii_val (ar_title r) && ascii_val (ar_description r) && ascii_val (ar_content r))%bool.

(** A value that reads back as it was written: a string or [null]. *)
Definition stored_val (v : JsVal) : bool :=
  match v with JStr _ | JNull => true | _ => false end.

Definition stored_article (a : Article) : bool :=
  forallb stored_val [art_title a; art_description a; art_content a; art_imageUrl a;
    art_author a; art_publishedAt a; art_categoryId a; art_sourceUrl a].

(** An article with no description, for the examples below. *)
Definition undescribed : Article :=
  mkArticle "n1" (JStr "Virat at the nets") JUndefined (JStr "Practice report.")
    JUndefined JUndefined JUndefined (JStr "sports") JUndefined.

(** A title starting with the Latin-1 capital E with acute accent
    (code unit 201), and the same word in capitals as a query. *)
Definition ecole : Article :=
  mkArticle "n2" (JStr (String (Ascii.ascii_of_nat 201) "cole")) (JStr "") (JStr "")
    JUndefined JUndefined JUndefined (JStr "sports") JUndefined.

Definition ecole_query : string := String (Ascii.ascii_of_nat 201) "COLE".

(** The ids of every table are distinct. *)
Definition rows_unique (s : t) : Prop :=
  NoDup (cr_id <$> cat_rows s) /\ NoDup (ar_id <$> art_rows s) /\ NoDup (dr_id <$> ad_rows s).

(** Server events on the database: a handler's statements, the run of
    the issued statements, and the seeding at start-up. *)
Inductive event : Type :=
| EOp (o : MemStore.op)
| EFlush
| ESeed.

Definition exec (e : event) (s : t) : option t :=
  match e with
  | EOp o =>
      Some match o with
      | MemStore.OpListCategories => fst (get_categories s)
      | MemStore.OpCreateCategory c => fst (create_category c s)
      | MemStore.OpUpdateCategory id name order => fst (update_category id name order s)
      | MemStore.OpDeleteCategory id => fst (delete_category id s)
      | MemStore.OpCreateArticle a => fst (create_article a s)
      | MemStore.OpUpdateArticle id a => fst (update_article id a s)
      | MemStore.OpDeleteArticle id => fst (delete_article id s)
      | MemStore.OpCreateAd d => fst (create_ad d s)
      | MemStore.OpUpdateAd id d => fst (update_ad id d s)
      | MemStore.OpDeleteAd id => fst (delete_ad id s)
      end
  | EFlush => Some (flush s)
  | ESeed => seed_if_empty s
  end.

(** ** Lemmas: [lower()] and [LIKE] *)

Lemma sql_lower_app a b : sql_lower (a ++ b) = sql_lower a ++ sql_lower b.
Proof.
  induction a as [|c a IH]; [done|].
  rewrite string_app_cons. cbn [sql_lower]. by rewrite IH, string_app_cons.
Qed.

Lemma ascii_lower_idem c : ascii_lower (ascii_lower c) = ascii_lower c.
Proof.
  unfold ascii_lower. cbv zeta.
  destruct (N.leb 65 (Ascii.N_of_ascii c) && N.leb (Ascii.N_of_ascii c) 90)%bool eqn:E; [|by rewrite E].
  apply andb_true_iff in E as [E1 E2]. apply N.leb_le in E1, E2.
  rewrite Ascii.N_ascii_embedding by lia.
  replace (N.leb 65 (Ascii.N_of_ascii c + 32) && N.leb (Ascii.N_of_ascii c + 32) 90)%bool
    with false; [done|].
  symmetry. apply andb_false_iff. right. apply N.leb_gt. lia.
Qed.

Lemma sql_lower_idem s : sql_lower (sql_lower s) = sql_lower s.
Proof. induction s as [|c s IH]; [done|]. cbn [sql_lower]. by rewrite ascii_lower_idem, IH. Qed.

(** On seven-bit characters [toLowerCase] is SQLite's [lower()]. *)
Lemma lower_char_ascii c :
  N.ltb (Ascii.N_of_ascii c) 128 = true -> Js.lower_char c = ascii_lower c.
Proof.
  intros Hc%N.ltb_lt. unfold Js.lower_char, Js.is_upper, ascii_lower. cbv zeta.
  rewrite (proj2 (N.leb_gt 192 _)) by lia. by rewrite andb_false_l, orb_false_r.
Qed.

Lemma to_lower_ascii s : ascii_text s = true -> Js.to_lower s = sql_lower s.
Proof.
  induction s as [|c s IH]; [done|]. cbn [ascii_text].
  intros [Hc Hs]%andb_true_iff. cbn [Js.to_lower sql_lower].
  by rewrite lower_char_ascii, IH.
Qed.

Lemma ascii_text_app a b :
  ascii_text a = true -> ascii_text b = true -> ascii_text (a ++ b) = true.
Proof.
  induction a as [|c a IH]; [done|]. rewrite string_app_cons. cbn [ascii_text].
  intros [Hc Ha]%andb_true_iff Hb. by rewrite Hc, IH.
Qed.

(** Lowering a character never makes one of the wildcards, both below
    the lower-case letters. *)
Lemma ascii_lower_not_special c x :
  N.ltb (Ascii.N_of_ascii x) 97 = true -> Ascii.eqb c x = false ->
  Ascii.eqb (ascii_lower c) x = false.
Proof.
  intros Hx%N.ltb_lt Hc. unfold ascii_lower. cbv zeta.
  destruct (N.leb 65 (Ascii.N_of_ascii c) && N.leb (Ascii.N_of_ascii c) 90)%bool eqn:E; [|done].
  apply andb_true_iff in E as [E1 E2]. apply N.leb_le in E1, E2.
  apply Ascii.eqb_neq. intros <-. rewrite Ascii.N_ascii_embedding in Hx by lia. lia.
Qed.

Lemma wild_free_lower q : wild_free q = true -> wild_free (sql_lower q) = true.
Proof.
  induction q as [|c q IH]; [done|]. cbn [wild_free sql_lower].
  intros [[H1 H2]%andb_true_iff H3]%andb_true_iff.
  apply negb_true_iff in H1, H2.
  by rewrite !ascii_lower_not_special, IH.
Qed.

Lemma like_pct_cons p s :
  like (String "%" p) s =
    (like p s || match s with EmptyString => false | String _ s' => like (String "%" p) s' end)%bool.
Proof. by destruct s. Qed.

Lemma like_pct_any s : like "%" s = true.
Proof. induction s as [|c s IH]; [done|]. by rewrite like_pct_cons, IH, orb_true_r. Qed.

(** A wildcard-free pattern followed by [%] tests a prefix, ignoring
    ASCII case. *)
Lemma like_prefix p s :
  wild_free p = true -> like (p ++ "%") s = String.prefix (sql_lower p) (sql_lower s).
Proof.
  revert s. induction p as [|c p IH]; intros s Hp.
  - rewrite string_app_nil_l, like_pct_any. by destruct s.
  - cbn [wild_free] in Hp. apply andb_true_iff in Hp as [[H1 H2]%andb_true_iff H3].
    apply negb_true_iff in H1, H2.
    rewrite string_app_cons. cbn [like]. rewrite H1.
    destruct s as [|d s]; [done|]. cbn [sql_lower String.prefix].
    rewrite H2, orb_false_l, IH by done.
    destruct (Ascii.ascii_dec (ascii_lower c) (ascii_lower d)) as [<-|Hne].
    + by rewrite Ascii.eqb_refl.
    + by rewrite (proj2 (Ascii.eqb_neq _ _) Hne).
Qed.

(** [LIKE '%' || q || '%'] is [includes] on lowered strings. *)
Lemma like_includes p s :
  wild_free p = true ->
  like (String "%" (p ++ "%")) s = Js.includes (sql_lower s) (sql_lower p).
Proof.
  intros Hp. induction s as [|d s IH]; rewrite like_pct_cons, like_prefix by done.
  - done.
  - cbn [sql_lower Js.includes]. by rewrite IH.
Qed.

(** ** Lemmas: rows *)

Lemma js_to_string_or_empty d : Js.to_string (JStr d || JStr "")%js = d.
Proof. by destruct d. Qed.

(** On a row of seven-bit text, the sqlite filter of line 240 and the
    in-memory filter of line 246 agree for a wildcard-free query. *)
Lemma sql_matches_spec q r :
  ascii_text q = true -> wild_free q = true -> ascii_row r = true ->
  sql_matches (Js.to_lower q) r = Search.matches (Js.to_lower q) (article_of_row r).
Proof.
  intros Hq Hw Hr. unfold ascii_row in Hr.
  apply andb_true_iff in Hr as [[Ht Hd]%andb_true_iff Hc].
  destruct (ar_title r) as [| | |t] eqn:Et; try discriminate.
  destruct (ar_description r) as [| | |d] eqn:Ed; try discriminate.
  destruct (ar_content r) as [| | |c] eqn:Ec; try discriminate.
  unfold sql_matches, sql_haystack, Search.matches, Search.haystack, article_of_row.
  rewrite Et, Ed, Ec. cbn [lower_val to_js art_title art_description art_content].
  rewrite !js_to_string_or_empty, (to_lower_ascii q Hq).
  rewrite (to_lower_ascii (_ ++ _)) by (repeat apply ascii_text_app; done).
  rewrite string_app_cons, string_app_nil_l, like_includes by (by apply wild_free_lower).
  by rewrite !sql_lower_app, !sql_lower_idem.
Qed.

Lemma NoDup_insert_run {R} (key : R -> string) (r : R) (rs rs' : list R) :
  NoDup (key <$> rs) -> insert_run key r rs = Some rs' -> NoDup (key <$> rs').
Proof.
  intros H. unfold insert_run. case_bool_decide; [done|]. intros [= <-]. by apply NoDup_fmap_snoc.
Qed.

Lemma NoDup_insert_all {A R} (key : R -> string) (row : A -> R) xs (rs rs' : list R) :
  NoDup (key <$> rs) -> insert_all key row xs rs = Some rs' -> NoDup (key <$> rs').
Proof.
  unfold insert_all. revert rs. induction xs as [|x xs IH]; intros rs H;
    cbn [foldl mbind option_bind].
  - by intros [= <-].
  - destruct (insert_run key (row x) rs) as [rs1|] eqn:E.
    + apply IH. by eapply NoDup_insert_run.
    + by rewrite (foldl_bind_None (fun x => insert_run key (row x))).
Qed.

(** An [INSERT] of a present id ends the whole [forEach]. *)
Lemma insert_all_present {A R} (key : R -> string) (row : A -> R) xs (rs : list R) x :
  x ∈ xs -> key (row x) ∈ key <$> rs -> insert_all key row xs rs = None.
Proof.
  unfold insert_all. revert rs. induction xs as [|y xs IH]; intros rs Hx Hk;
    [by apply not_elem_of_nil in Hx|].
  cbn [foldl mbind option_bind].
  destruct (insert_run key (row y) rs) as [rs1|] eqn:E.
  - unfold insert_run in E. case_bool_decide as Hy; [done|]. injection E as <-.
    apply elem_of_cons in Hx as [->|Hx]; [done|]. apply IH; [done|].
    rewrite fmap_app. apply elem_of_app. by left.
  - by rewrite (foldl_bind_None (fun x => insert_run key (row x))).
Qed.

(** With no category row, a seeded ad id still present ends the
    seeding, whatever the other tables hold. *)
Lemma seed_if_empty_ad_present s d :
  cat_rows s = [] -> d ∈ MemStore.ads MemStore.seed -> ad_id d ∈ dr_id <$> ad_rows s ->
  seed_if_empty s = None.
Proof.
  intros Hc Hd Hk. unfold seed_if_empty. rewrite Hc.
  destruct (insert_all cr_id _ _ []); [|done]. cbn [mbind option_bind].
  destruct (insert_all ar_id _ _ _); [|done]. cbn [mbind option_bind].
  by rewrite (insert_all_present dr_id ad_row_of _ _ d).
Qed.

(** Deleting the categories [ks] one request after the other leaves no
    row whose id is among them, and the ads as they were. *)
Lemma delete_categories_rows ks s :
  Forall (fun r => cr_id r ∈ ks) (cat_rows s) ->
  cat_rows (foldl (fun s k => fst (delete_category k s)) s ks) = [] /\
  ad_rows (foldl (fun s k => fst (delete_category k s)) s ks) = ad_rows s.
Proof.
  revert s. induction ks as [|k ks IH]; intros s Hs.
  - destruct (cat_rows s) as [|r rs] eqn:E; [done|].
    apply Forall_cons in Hs as [Hr _]. by apply not_elem_of_nil in Hr.
  - cbn [foldl]. destruct (IH (fst (delete_category k s))) as [H1 H2].
    + cbn [fst cat_rows]. apply Forall_forall. intros r [Hne Hr]%list_elem_of_filter.
      eapply Forall_forall in Hs; [|exact Hr]. by apply elem_of_cons in Hs as [?|?].
    + split; [done|]. by rewrite H2.
Qed.

(** The issued statements only delete rows. *)
Lemma run_pendings_sublist (ps : list Pending) (rs : list ArtRow) :
  foldl (fun rs p => run_pending p rs) rs ps `sublist_of` rs.
Proof.
  revert rs. induction ps as [|[k] ps IH]; intros rs; [done|].
  cbn [foldl]. etrans; [apply IH|]. apply sublist_filter.
Qed.

Lemma NoDup_create {R} (key : R -> string) (r : R) (rs : list R) :
  NoDup (key <$> rs) ->
  NoDup (key <$> if bool_decide (key r ∈ key <$> rs) then rs else (rs ++ [r])%list).
Proof. intros H. case_bool_decide; [done|]. by apply NoDup_fmap_snoc. Qed.

(** ** Lemmas: numbers in TEXT columns *)

Lemma number_to_string_abs z :
  Js.number_to_string z = (if (z <? 0)%Z then "-" else "") ++ Js.number_to_string (Z.abs z).
Proof. by destruct z. Qed.

Lemma int32_range_spec z : int32_range z = true <-> (-2^31 <= z < 2^31)%Z.
Proof. unfold int32_range. rewrite andb_true_iff, Z.leb_le, Z.ltb_lt. done. Qed.

Lemma real_text_small z : (Z.abs z < 10^15)%Z -> real_text z = Js.number_to_string z ++ ".0".
Proof.
  intros H. unfold real_text. cbv zeta. apply Z.ltb_lt in H. rewrite H.
  rewrite (number_to_string_abs z).
  by destruct (z <? 0)%Z; rewrite ?string_app_assoc.
Qed.

(** ** Theorems *)

(** C23: The primary keys hold for every event, with no assumption on
    the id [nanoid(6)] draws: a colliding [INSERT] fails instead of
    adding a row, [UPDATE] keeps the matched row's id, the deletes and
    the cascade only remove rows, and the seeding adds distinct rows;
    the only event that can end the process instead is the seeding,
    when it meets a present id. *)
Theorem exec_preserves_rows_unique e s :
  rows_unique s -> match exec e s with Some s' => rows_unique s' | None => e = ESeed end.
Proof.
  intros (Hc & Ha & Hd).
  destruct e as [o| |]; cbn [exec].
  - destruct o; unfold get_categories, create_category, update_category, delete_category,
      create_article, update_article, delete_article, create_ad, update_ad, delete_ad,
      rows_unique;
    repeat case_bool_decide; cbn [fst cat_rows art_rows ad_rows set_cat_rows
      set_art_rows set_ad_rows]; split_and!;
    auto using NoDup_fmap_filter.
    all: try (apply NoDup_fmap_snoc; assumption).
    all: try (rewrite fmap_update_keys; [assumption|done]).
    all: try (by rewrite sort_by_perm).
  - unfold flush, rows_unique. cbn [cat_rows art_rows ad_rows]. split_and!; [done| |done].
    eapply sublist_NoDup; [exact Ha|]. apply fmap_sublist, run_pendings_sublist.
  - unfold seed_if_empty. destruct (cat_rows s) eqn:E; [|by split_and!; rewrite ?E].
    destruct (insert_all cr_id _ _ []) as [cs|] eqn:H1; [|done]. cbn [mbind option_bind].
    destruct (insert_all ar_id _ _ _) as [arts|] eqn:H2; [|done]. cbn [mbind option_bind].
    destruct (insert_all dr_id _ _ _) as [ds|] eqn:H3; [|done]. cbn [mbind option_bind].
    split_and!; cbn [cat_rows art_rows ad_rows]; eapply NoDup_insert_all; eauto using NoDup_nil_2.
Qed.

(** The text a number bound into a TEXT column reads back as. *)
Lemma bound_number_text z :
  ((-2^31 <= z < 2^31)%Z ->
     to_js (text_affinity (bind (JNum z))) = JStr (Js.number_to_string z)) /\
  (~ (-2^31 <= z < 2^31)%Z -> (Z.abs z < 10^15)%Z ->
     to_js (text_affinity (bind (JNum z))) = JStr (Js.number_to_string z ++ ".0")).
Proof.
  unfold bind. split.
  - intros H. apply int32_range_spec in H. by rewrite H.
  - intros H Hs. destruct (int32_range z) eqn:E; [apply int32_range_spec in E; contradiction|].
    cbn. by rewrite real_text_small.
Qed.

(** C29: [PUT /api/articles/:id] of an absent id matches no row: the
    tables stay as they were and the handler still answers the
    request's record, where the in-memory branch answers 404 (the
    asymmetry spec section 4.1 records and section 9 leaves open). *)
Theorem update_article_absent id a s :
  id ∉ ar_id <$> art_rows s -> update_article id a s = (s, Ok a).
Proof.
  intros Hid. unfold update_article.
  rewrite (fmap_keep_others ar_id id) by (by apply not_elem_of_fmap_Forall).
  by destruct s.
Qed.

(** The issued statements, run in order, followed by one more. *)
Lemma flush_delete_category_arts k s :
  art_rows (flush (fst (delete_category k s))) =
    filter (fun r => ar_categoryId r <> SText k)
      (foldl (fun rs p => run_pending p rs) (art_rows s) (pending s)).
Proof. unfold flush, delete_category. cbn [fst art_rows pending]. by rewrite foldl_app. Qed.

(** C30: [DELETE /api/categories/:id] answers 204 before its cascade
    runs (line 154 is issued without a callback): until the issued statement runs, the category's articles are
    listed as before; once it has run, none is. *)
Theorem delete_category_cascade_deferred k s :
  snd (articles_by_category k (fst (delete_category k s))) = snd (articles_by_category k s) /\
  snd (articles_by_category k (flush (fst (delete_category k s)))) = Ok [].
Proof.
  split; [done|]. unfold articles_by_category. cbn [snd].
  rewrite flush_delete_category_arts. by rewrite filter_filter_neg.
Qed.

(** The listing's comparator on rows with numeric orders has the sign
    of the in-memory comparator on the categories they read as. *)
Lemma sql_compare_num_sign a b x y :
  sql_num (cr_order a) = Some x -> sql_num (cr_order b) = Some y ->
  (0 < sort_compare (MemStore.cat_compare (category_of_row a) (category_of_row b))
   <-> 0 < sql_compare (cr_order a) (cr_order b))%Z.
Proof.
  intros Ha Hb. unfold MemStore.cat_compare, category_of_row. cbn [cat_order].
  destruct (cr_order a); try discriminate; destruct (cr_order b); try discriminate;
    injection Ha as ->; injection Hb as ->; cbn;
    destruct (Z.sgn_spec (x - y)) as [[? ->]|[[? ->]|[? ->]]]; lia.
Qed.

(** Sorting rows with numeric orders and reading them is reading them
    and sorting the records. *)
Lemma sort_rows_as_categories rows :
  Forall (fun r => is_Some (sql_num (cr_order r))) rows ->
  category_of_row <$> sort_by (fun a b => sql_compare (cr_order a) (cr_order b)) rows =
    MemStore.sort_categories (category_of_row <$> rows).
Proof.
  intros Hint. unfold MemStore.sort_categories.
  rewrite sort_by_fmap. f_equal. apply sort_by_sign_ext.
  intros a b Ha Hb.
  destruct (proj1 (Forall_forall _ _) Hint a Ha) as [x Hx].
  destruct (proj1 (Forall_forall _ _) Hint b Hb) as [y Hy].
  symmetry. by apply sql_compare_num_sign with x y.
Qed.

(** C24: With numeric [order_num] values (INTEGER, or REAL past the
    64-bit range), [ORDER BY order_num] lists the categories in the
    order the in-memory [sort] gives the same records (ties in table
    order). *)
Theorem get_categories_matches_memory s :
  Forall (fun r => is_Some (sql_num (cr_order r))) (cat_rows s) ->
  snd (get_categories s) = Ok (MemStore.sort_categories (category_of_row <$> cat_rows s)).
Proof. intros Hint. unfold get_categories. cbn [snd]. by rewrite sort_rows_as_categories. Qed.

Lemma stored_val_roundtrip v : stored_val v = true -> to_js (text_affinity (bind v)) = v.
Proof. by destruct v. Qed.

(** Whatever its size, a number stored in [order_num] reads back as
    itself: bound as INTEGER or REAL, kept or converted by the column's
    affinity, it is sent back as the same JSON number. *)
Lemma order_num_roundtrip z : to_js (integer_affinity (bind (JNum z))) = JNum z.
Proof.
  unfold bind. destruct (int32_range z); [done|]. cbn.
  by destruct (_ && _)%bool.
Qed.

(** An article whose fields are strings or [null] is read back as it
    was written. *)
Lemma article_row_roundtrip a :
  stored_article a = true -> article_of_row (art_row_of a) = a.
Proof.
  destruct a; unfold stored_article; cbn.
  intros H. repeat (apply andb_true_iff in H as [? H]).
  unfold article_of_row. cbn. f_equal; by apply stored_val_roundtrip.
Qed.

(** A created article is read back as its row. *)
Lemma create_get_article_row a s :
  art_id a ∉ ar_id <$> art_rows s ->
  snd (get_article (art_id a) (fst (create_article a s))) = Ok (article_of_row (art_row_of a)).
Proof.
  intros Hin. unfold create_article. rewrite bool_decide_false by done.
  unfold get_article. cbn [fst set_art_rows art_rows].
  rewrite list_find_app_r by (by apply list_find_absent).
  cbn. by case_decide.
Qed.

(** C26: [POST /api/articles] then [GET /api/articles/:id] returns the
    created record when its id is new and its fields are strings or
    [null]; an id in use makes the [INSERT] fail with SQLite's
    constraint error and leaves the table as it was. *)
Theorem create_article_get a s :
  stored_article a = true ->
  if bool_decide (art_id a ∈ ar_id <$> art_rows s)
  then create_article a s = (s, Failure (unique_violation "articles"))
  else snd (get_article (art_id a) (fst (create_article a s))) = Ok a.
Proof.
  intros Hs. case_bool_decide as Hin; [by unfold create_article; rewrite bool_decide_true|].
  rewrite create_get_article_row by done. by rewrite article_row_roundtrip.
Qed.

(** C25: [POST /api/articles] with a number as the title, then
    [GET /api/articles/:id]: the title comes back as the text of what
    node-sqlite3 bound, inside the signed 32-bit range the number's
    decimal digits as JavaScript prints them, outside it (bound as a
    REAL) the digits followed by [.0], below [10^15]. *)
Theorem text_column_number_bounds a s z :
  art_id a ∉ ar_id <$> art_rows s -> art_title a = JNum z ->
  ((-2^31 <= z < 2^31)%Z -> exists a',
     snd (get_article (art_id a) (fst (create_article a s))) = Ok a' /\
     art_title a' = JStr (Js.number_to_string z)) /\
  (~ (-2^31 <= z < 2^31)%Z -> (Z.abs z < 10^15)%Z -> exists a',
     snd (get_article (art_id a) (fst (create_article a s))) = Ok a' /\
     art_title a' = JStr (Js.number_to_string z ++ ".0")).
Proof.
  intros Hin Ht. rewrite create_get_article_row by done.
  destruct (bound_number_text z) as [H1 H2].
  split; [intros H|intros H Hs]; exists (article_of_row (art_row_of a)); (split; [reflexivity|]);
    change (art_title (article_of_row (art_row_of a))) with (to_js (text_affinity (bind (art_title a))));
    rewrite Ht; auto.
Qed.

(** C10: Lines 77-97 with 330-333: after [DELETE /api/categories/:id]
    of every category, the next start of the sqlite server finds the
    [categories] table empty and seeds again; deleting categories never
    removes ads, so while a seeded ad is stored its [INSERT] meets the
    [PRIMARY KEY], the statement's unhandled ['error'] ends the process,
    and the server cannot start again. *)
Theorem restart_after_emptying_categories_crashes s d :
  d ∈ MemStore.ads MemStore.seed -> ad_id d ∈ dr_id <$> ad_rows s ->
  seed_if_empty (flush (foldl (fun s k => fst (delete_category k s)) s (cr_id <$> cat_rows s))) = None.
Proof.
  intros Hd Hk.
  destruct (delete_categories_rows (cr_id <$> cat_rows s) s) as [Hc Ha].
  { apply Forall_forall. intros r Hr. by apply list_elem_of_fmap_2. }
  eapply seed_if_empty_ad_present; [|exact Hd|].
  - by unfold flush; cbn [cat_rows].
  - unfold flush. cbn [ad_rows]. by rewrite Ha.
Qed.

(** C27: For a query of seven-bit text without [%] or [_], and articles
    whose title, description and content are seven-bit text, the
    sqlite search (line 240) returns what the in-memory filter (line
    246) returns on the same records. *)
Theorem search_matches_memory q s :
  ascii_text q = true -> wild_free q = true ->
  Forall (fun r => ascii_row r = true) (art_rows s) ->
  snd (search_articles (Js.to_lower q) s) =
    Ok (Search.search (Js.to_lower q) (article_of_row <$> art_rows s)).
Proof.
  intros Hq Hw Hr. unfold search_articles, Search.search. cbn [snd]. f_equal.
  rewrite list_filter_fmap. f_equal. apply filter_ext_Forall.
  eapply Forall_impl; [exact Hr|]. intros r Hrow. cbn beta.
  by rewrite sql_matches_spec.
Qed.

(** The seeding of lines 77-97 gives, read back, the records of the
    in-memory store. *)
Example seeded_reads_as_memory_seed :
  category_of_row <$> cat_rows seeded = MemStore.categories MemStore.seed /\
  article_of_row <$> art_rows seeded = MemStore.articles MemStore.seed /\
  ad_of_row <$> ad_rows seeded = MemStore.ads MemStore.seed.
Proof. vm_compute. split_and!; reflexivity. Qed.

(** C28: An article created without a description (or with [null])
    is stored with a NULL description, which makes the concatenation of
    line 240 NULL: on sqlite its creation changes the answer of no
    search, while the in-memory search ([description||'']) finds it by
    any query that occurs in its lower-cased title. *)
Theorem null_description_never_found a s q arts :
  art_id a ∉ ar_id <$> art_rows s -> art_description a = JUndefined \/ art_description a = JNull ->
  snd (search_articles q (fst (create_article a s))) = snd (search_articles q s) /\
  (Js.includes (Js.to_lower (Js.to_string (art_title a))) q = true ->
   a ∈ Search.search q (arts ++ [a])%list).
Proof.
  intros Hin Hd. split.
  - unfold create_article. rewrite bool_decide_false by done.
    unfold search_articles. cbn [snd fst set_art_rows art_rows]. f_equal.
    rewrite filter_app, filter_cons_False, filter_nil, app_nil_r; [done|].
    unfold sql_matches, sql_haystack, art_row_of. cbn [ar_description ar_title ar_content].
    destruct Hd as [-> | ->]; cbn [bind text_affinity lower_val]; by destruct (lower_val _).
  - intros Hq. apply list_elem_of_filter. split; [|by apply elem_of_app; right; left].
    eapply (Search.matches_part a ""); [reflexivity|exact Hq].
Qed.

(** ** Witnesses *)

Lemma seeded_rows_unique : rows_unique seeded.
Proof. split_and!; eval_decide. Qed.

(** A creation whose drawn id collides with the seeded ["sports"]. *)
Lemma exec_preserves_rows_unique_witness :
  let e := EOp (MemStore.OpCreateCategory (mkCategory "sports" (JStr "Tech") (JNum 5))) in
  rows_unique seeded /\
  match exec e seeded with Some s' => rows_unique s' | None => e = ESeed end.
Proof.
  cbv zeta. split; [exact seeded_rows_unique|].
  exact (exec_preserves_rows_unique
           (EOp (MemStore.OpCreateCategory (mkCategory "sports" (JStr "Tech") (JNum 5))))
           seeded seeded_rows_unique).
Defined.

Lemma update_article_absent_witness :
  ("zz" ∉ ar_id <$> art_rows seeded) /\ update_article "zz" undescribed seeded = (seeded, Ok undescribed).
Proof.
  assert (H : "zz" ∉ ar_id <$> art_rows seeded) by eval_decide.
  split; [exact H|exact (update_article_absent "zz" undescribed seeded H)].
Defined.

Lemma get_categories_matches_memory_witness :
  Forall (fun r => is_Some (sql_num (cr_order r))) (cat_rows seeded) /\
  snd (get_categories seeded)
    = Ok (MemStore.sort_categories (category_of_row <$> cat_rows seeded)).
Proof.
  assert (H : Forall (fun r => is_Some (sql_num (cr_order r))) (cat_rows seeded))
    by (vm_compute; repeat constructor; eexists; reflexivity).
  split; [exact H|exact (get_categories_matches_memory seeded H)].
Defined.

Lemma create_article_get_witness :
  stored_article Search.sample_virat = true /\
  create_article Search.sample_virat seeded
    = (seeded, Failure (unique_violation "articles")).
Proof.
  assert (H : stored_article Search.sample_virat = true) by reflexivity.
  split; [exact H|].
  exact (create_article_get Search.sample_virat seeded H).
Defined.

Lemma search_matches_memory_witness :
  ascii_text "Virat" = true /\ wild_free "Virat" = true /\
  Forall (fun r => ascii_row r = true) (art_rows seeded) /\
  snd (search_articles (Js.to_lower "Virat") seeded)
    = Ok (Search.search (Js.to_lower "Virat") (article_of_row <$> art_rows seeded)).
Proof.
  assert (Hr : Forall (fun r => ascii_row r = true) (art_rows seeded))
    by (vm_compute; repeat constructor).
  split_and!; [reflexivity|reflexivity|exact Hr|].
  exact (search_matches_memory "Virat" seeded eq_refl eq_refl Hr).
Defined.

(** An article whose title is [2^31], just past the 32-bit range. *)
Lemma text_column_number_bounds_witness :
  let a := mkArticle "n3" (JNum 2147483648) JNull JNull JNull JNull JNull (JStr "sports") JNull in
  art_id a ∉ ar_id <$> art_rows seeded /\ art_title a = JNum 2147483648 /\
  (~ (-2^31 <= 2147483648 < 2^31)%Z) /\ (Z.abs 2147483648 < 10^15)%Z /\
  exists a', snd (get_article (art_id a) (fst (create_article a seeded))) = Ok a' /\
    art_title a' = JStr (Js.number_to_string 2147483648 ++ ".0").
Proof.
  cbv zeta.
  assert (Hin : "n3" ∉ ar_id <$> art_rows seeded) by eval_decide.
  assert (H1 : ~ (-2^31 <= 2147483648 < 2^31)%Z) by lia.
  assert (H2 : (Z.abs 2147483648 < 10^15)%Z) by lia.
  split_and!; [exact Hin|reflexivity|exact H1|exact H2|].
  exact (proj2 (text_column_number_bounds
    (mkArticle "n3" (JNum 2147483648) JNull JNull JNull JNull JNull (JStr "sports") JNull)
    seeded 2147483648 Hin eq_refl) H1 H2).
Defined.

(** The article without a description, created on the seeded database
    and searched for by a word of its title. *)
Lemma null_description_never_found_witness :
  art_id undescribed ∉ ar_id <$> art_rows seeded /\
  (art_description undescribed = JUndefined \/ art_description undescribed = JNull) /\
  Js.includes (Js.to_lower (Js.to_string (art_title undescribed))) "virat" = true /\
  snd (search_articles "virat" (fst (create_article undescribed seeded)))
    = snd (search_articles "virat" seeded) /\
  undescribed ∈ Search.search "virat" (MemStore.articles MemStore.seed ++ [undescribed])%list.
Proof.
  assert (Hin : art_id undescribed ∉ ar_id <$> art_rows seeded) by eval_decide.
  assert (Hd : art_description undescribed = JUndefined \/ art_description undescribed = JNull)
    by (left; reflexivity).
  assert (Hq : Js.includes (Js.to_lower (Js.to_string (art_title undescribed))) "virat" = true)
    by reflexivity.
  destruct (null_description_never_found undescribed seeded "virat" (MemStore.articles MemStore.seed)
              Hin Hd) as [H1 H2].
  split_and!; [exact Hin|exact Hd|exact Hq|exact H1|exact (H2 Hq)].
Defined.

(** The seeded database: every category deleted, then a restart. *)
Lemma restart_after_emptying_categories_crashes_witness :
  let d := mkAd "ad1" (JStr "banner") (JStr "top") (JStr "https://picsum.photos/800/150?random=10")
             (JStr "https://example.com/ad1") in
  d ∈ MemStore.ads MemStore.seed /\ ad_id d ∈ dr_id <$> ad_rows seeded /\
  seed_if_empty (flush (foldl (fun s k => fst (delete_category k s)) seeded
                          (cr_id <$> cat_rows seeded))) = None.
Proof.
  cbv zeta.
  assert (Hd : mkAd "ad1" (JStr "banner") (JStr "top") (JStr "https://picsum.photos/800/150?random=10")
                 (JStr "https://example.com/ad1") ∈ MemStore.ads MemStore.seed) by (left).
  assert (Hk : "ad1" ∈ dr_id <$> ad_rows seeded) by eval_decide.
  split_and!; [exact Hd|exact Hk|].
  exact (restart_after_emptying_categories_crashes seeded _ Hd Hk).
Defined.

(** The seeding of the empty database succeeds. *)
Lemma seed_empty : seed_if_empty empty = Some seeded.
Proof. vm_compute. reflexivity. Qed.

(** The text SQLite gives numbers bound as REAL, at the edges of the
    32-bit range and in exponent form. *)
Lemma numeric_text_examples :
  real_text (10^15) = "1.0e+15" /\ real_text (2^53) = "9.00719925474099e+15" /\
  real_text (-3000000000) = "-3000000000.0" /\ real_text 999999999999999999 = "1.0e+18" /\
  real_text 123456789012345678 = "1.23456789012346e+17" /\
  to_js (text_affinity (bind (JNum (-2147483648)))) = JStr "-2147483648" /\
  to_js (text_affinity (bind (JNum (-2147483649)))) = JStr "-2147483649.0".
Proof. vm_compute. split_and!; reflexivity. Qed.

End Sql.
