(* ===== verification/Equivalence.v ===== *)
(** The two storage backends compared: a simulation relation [sim]
    between the in-memory store ([MemStore]) and the sqlite store
    ([SqlStore]), one lemma per operation of the [Backend] interface
    showing that both answer the same and keep the relation, and the
    theorem that the two servers of index.js, started on their seeds,
    answer the same to every trace of requests that stays inside the
    conditions under which the divergences of [SqlStore] and [MemStore]
    cannot arise: the cascade has run before the next request, values
    are strings (or [null]) and orders integers, updates name present
    ids, creations draw fresh ids, listed orders are distinct, and
    searches use seven-bit text without wildcards. *)

From S2P Require Import Prelude JsValue SortCompare Records Search MemStore Backend Router SqlStore.

Local Open Scope string_scope.

Module Sim.

Import Sql Router.

(** ** Values both stores keep as they are *)

Definition str_or_null (v : JsVal) : bool :=
  match v with JStr _ | JNull => true | _ => false end.

Definition ascii_str (v : JsVal) : bool :=
  match v with JStr s => ascii_text s | _ => false end.

Definition is_num (v : JsVal) : bool :=
  match v with JNum _ => true | _ => false end.

(** An [order] the update handler turns into a number with [|| 0] the
    same way in both stores. *)
Definition order_input (v : JsVal) : bool :=
  match v with JNum _ | JNull | JUndefined => true | _ => false end.

Definition good_category (c : Category) : bool :=
  str_or_null (cat_name c) && is_num (cat_order c).

Definition good_article (a : Article) : bool :=
  ascii_str (art_title a) && ascii_str (art_description a) && ascii_str (art_content a)
  && str_or_null (art_imageUrl a) && str_or_null (art_author a)
  && str_or_null (art_publishedAt a) && str_or_null (art_categoryId a)
  && str_or_null (art_sourceUrl a).

Definition good_ad (d : Ad) : bool :=
  str_or_null (ad_type d) && str_or_null (ad_placement d) && str_or_null (ad_imageUrl d)
  && str_or_null (ad_clickUrl d).

(** ** The simulation relation *)

(** The in-memory store [m] and the sqlite store [q] hold the same
    records: the categories up to order (a listing sorts [m] in place),
    the articles and ads in the same order; no statement is pending;
    ids are unique and every record is one both stores keep as is. *)
Definition sim (m : MemStore.t) (q : Sql.t) : Prop :=
  pending q = [] /\
  MemStore.categories m ≡ₚ category_of_row <$> cat_rows q /\
  MemStore.articles m = article_of_row <$> art_rows q /\
  MemStore.ads m = ad_of_row <$> ad_rows q /\
  rows_unique q /\
  Forall (fun c => good_category c = true) (MemStore.categories m) /\
  Forall (fun a => good_article a = true) (MemStore.articles m) /\
  Forall (fun d => good_ad d = true) (MemStore.ads m).

(** Two results of one operation: the same answer, and the stores
    related once the issued statements have run. *)
Definition sim_result {B} (rm : MemStore.t * B) (rq : Sql.t * B) : Prop :=
  snd rm = snd rq /\ sim (fst rm) (flush (fst rq)).

(** ** Requests inside the conditions *)

(** What a matched route must satisfy, on the in-memory store, for the
    two servers to answer it alike.  The guards of the mutating routes
    bind only when the request passes [requireAuth]: otherwise both
    answer 401 and change nothing.  The root route is excluded, as its
    text names the backend. *)
Definition good_route (m : MemStore.t) (fresh : string) (req : Request) (r : Route)
    (ps : list string) : bool :=
  let b := req_body req in
  let guarded (g : bool) := (negb (authorized req) || g)%bool in
  match r with
  | RRoot => false
  | RListCategories => bool_decide (NoDup (MemStore.order_key <$> MemStore.categories m))
  | RCreateCategory =>
      guarded (bool_decide (fresh ∉ cat_id <$> MemStore.categories m)
               && good_category (category_of_body fresh b))
  | RUpdateCategory =>
      guarded (bool_decide (param ps ∈ cat_id <$> MemStore.categories m)
               && str_or_null (body_get b "name") && order_input (body_get b "order"))
  | RCreateArticle =>
      guarded (bool_decide (fresh ∉ art_id <$> MemStore.articles m)
               && good_article (article_of_body fresh b))
  | RUpdateArticle =>
      guarded (bool_decide (param ps ∈ art_id <$> MemStore.articles m)
               && good_article (article_of_body (param ps) b))
  | RSearch =>
      match req_query_q req with
      | Search.QStr s => ascii_text s && wild_free s
      | _ => true
      end
  | RCreateAd =>
      guarded (bool_decide (fresh ∉ ad_id <$> MemStore.ads m) && good_ad (ad_of_body fresh b))
  | RUpdateAd =>
      guarded (bool_decide (param ps ∈ ad_id <$> MemStore.ads m)
               && good_ad (ad_of_body (param ps) b))
  | _ => true
  end.

Definition good_request (m : MemStore.t) (fresh : string) (req : Request) : bool :=
  match find_route routes (req_method req) (req_path req) with
  | Some (r, ps) => good_route m fresh req r ps
  | None => true
  end.

(** A server answering a sequence of requests, each with the id
    [Date.now().toString()] would draw for it.  [settle] is what happens
    to the store between two requests: nothing in memory, [flush] for
    sqlite, where the statements a handler issued without waiting have
    run by the time the next request arrives. *)
Fixpoint serve {S} `{!Backend S} (settle : S -> S) (cfg : Config)
    (tr : list (string * Request)) (s : S) : list (option Response) :=
  match tr with
  | [] => []
  | (fresh, req) :: tr' =>
      match dispatch cfg fresh req s with
      | Some (s', r) => Some r :: serve settle cfg tr' (settle s')
      | None => None :: serve settle cfg tr' s
      end
  end.

(** Every request of the trace is good on the in-memory store it meets. *)
Fixpoint good_trace (cfg : Config) (tr : list (string * Request)) (m : MemStore.t) : bool :=
  match tr with
  | [] => true
  | (fresh, req) :: tr' =>
      good_request m fresh req
      && good_trace cfg tr' (default m (fst <$> dispatch cfg fresh req m))
  end.

(** A session of the admin and a reader: a new category, the listing, a
    search, the deletion of a seeded category and the read of its
    articles, an ad update and the ad listing. *)
Definition agree_trace : list (string * Request) := [
  ("1700000000001", json_request POST ["api"; "categories"] admin_cookie
                      (<["name" := JStr "Tech"]> {["order" := JNum 5]}));
  ("1700000000002", json_request GET ["api"; "categories"] ∅ ∅);
  ("1700000000003", mkRequest GET ["api"; "search"] ∅ ∅ (Search.QStr "Virat") None);
  ("1700000000004", json_request DELETE ["api"; "categories"; "sports"] admin_cookie ∅);
  ("1700000000005", json_request GET ["api"; "categories"; "sports"; "articles"] ∅ ∅);
  ("1700000000006", json_request PUT ["api"; "ads"; "ad1"] admin_cookie
                      (<["type" := JStr "video"]> (<["placement" := JStr "top"]>
                        (<["imageUrl" := JNull]> {["clickUrl" := JNull]}))));
  ("1700000000007", json_request GET ["api"; "ads"] ∅ ∅)].

(** ** Lemmas: records through the tables *)

Lemma flush_idle q : pending q = [] -> flush q = q.
Proof. destruct q as [c a d p]. cbn. by intros ->. Qed.

Lemma str_or_null_roundtrip v : str_or_null v = true -> to_js (text_affinity (bind v)) = v.
Proof. by destruct v. Qed.

Lemma category_row_roundtrip c : good_category c = true -> category_of_row (cat_row_of c) = c.
Proof.
  destruct c as [id name [| | |z|]]; unfold good_category; cbn;
    intros [Hn ?]%andb_true_iff; try discriminate.
  unfold category_of_row, cat_row_of. cbn [cr_id cr_name cr_order cat_id cat_name cat_order].
  by rewrite str_or_null_roundtrip, order_num_roundtrip.
Qed.

Lemma ad_row_roundtrip d : good_ad d = true -> ad_of_row (ad_row_of d) = d.
Proof.
  destruct d; unfold good_ad; cbn. intros H. repeat (apply andb_true_iff in H as [H ?]).
  unfold ad_of_row, ad_row_of. cbn. f_equal; by apply str_or_null_roundtrip.
Qed.

Lemma ascii_str_stored v : ascii_str v = true -> stored_val v = true.
Proof. by destruct v. Qed.

Lemma str_or_null_stored v : str_or_null v = true -> stored_val v = true.
Proof. by destruct v. Qed.

Lemma ascii_str_to_js v : ascii_str (to_js v) = ascii_val v.
Proof. by destruct v. Qed.

Ltac split_andb H := repeat (apply andb_true_iff in H as [H ?]).

Lemma good_article_stored a : good_article a = true -> stored_article a = true.
Proof.
  intros H. unfold good_article in H. split_andb H.
  unfold stored_article. cbn [forallb].
  repeat (apply andb_true_intro; split); auto using ascii_str_stored, str_or_null_stored.
Qed.

Lemma good_article_roundtrip a : good_article a = true -> article_of_row (art_row_of a) = a.
Proof. intros H. by apply article_row_roundtrip, good_article_stored. Qed.

Lemma good_article_row r : good_article (article_of_row r) = true -> ascii_row r = true.
Proof.
  intros H. unfold good_article, article_of_row in H. cbn in H. split_andb H.
  rewrite !ascii_str_to_js in *. unfold ascii_row.
  repeat (apply andb_true_intro; split); assumption.
Qed.

Lemma to_js_str v k : to_js v = JStr k <-> v = SText k.
Proof. destruct v; cbn; split; congruence. Qed.

Lemma cat_ids_rows (rows : list CatRow) : cat_id <$> (category_of_row <$> rows) = cr_id <$> rows.
Proof. by rewrite <- list_fmap_compose. Qed.

Lemma art_ids_rows (rows : list ArtRow) : art_id <$> (article_of_row <$> rows) = ar_id <$> rows.
Proof. by rewrite <- list_fmap_compose. Qed.

Lemma ad_ids_rows (rows : list AdRow) : ad_id <$> (ad_of_row <$> rows) = dr_id <$> rows.
Proof. by rewrite <- list_fmap_compose. Qed.

(** [order || 0] of an order input is a number. *)
Lemma order_input_num v : order_input v = true -> is_num (v || JNum 0)%js = true.
Proof. destruct v as [| | |z|]; try done. unfold js_or. cbn. by destruct (Z.eqb z 0). Qed.

Lemma good_numeric (cs : list Category) : Forall (fun c => good_category c = true) cs -> MemStore.numeric_orders cs.
Proof.
  intros H. eapply Forall_impl; [exact H|]. intros [id name [| | |z|]]; unfold good_category; cbn;
    rewrite ?andb_false_r; try discriminate. by eexists.
Qed.

Lemma rows_int_orders (cs : list Category) (rows : list CatRow) :
  cs ≡ₚ category_of_row <$> rows -> Forall (fun c => good_category c = true) cs ->
  Forall (fun r => is_Some (sql_num (cr_order r))) rows.
Proof.
  intros Hp Hg. rewrite Hp, Forall_fmap in Hg. eapply Forall_impl; [exact Hg|].
  intros r. unfold compose, good_category, category_of_row. cbn.
  destruct (cr_order r); cbn; rewrite ?andb_false_r; try discriminate; by eexists.
Qed.

Lemma sim_cat_nodup m q : sim m q -> NoDup (cat_id <$> MemStore.categories m).
Proof.
  intros (_ & Hc & _ & _ & (Hu & _) & _). rewrite Hc, cat_ids_rows. exact Hu.
Qed.

(** ** The operations of the categories *)

Lemma sim_get_categories m q :
  sim m q -> NoDup (MemStore.order_key <$> MemStore.categories m) ->
  sim_result (MemStore.get_categories m) (Sql.get_categories q).
Proof.
  intros Hs Hk. pose proof Hs as (Hp & Hc & Ha & Hd & Hu & Gc & Ga & Gd).
  split; cbn [fst snd MemStore.get_categories Sql.get_categories].
  - rewrite sort_rows_as_categories by (by eapply rows_int_orders). f_equal.
    unfold MemStore.sort_categories. apply (sort_by_perm_distinct MemStore.order_key); [|exact Hc|exact Hk].
    by apply (MemStore.cat_compare_agrees _ (good_numeric _ Gc)).
  - rewrite flush_idle by done. unfold MemStore.sort_categories.
    split_and!; cbn; try done; by rewrite sort_by_perm.
Qed.

Lemma sim_create_category m q c :
  sim m q -> cat_id c ∉ cat_id <$> MemStore.categories m -> good_category c = true ->
  sim_result (MemStore.create_category c m) (Sql.create_category c q).
Proof.
  intros (Hp & Hc & Ha & Hd & (Hu1 & Hu2 & Hu3) & Gc & Ga & Gd) Hf Hg.
  assert (Hf' : cat_id c ∉ cr_id <$> cat_rows q) by (by rewrite <- cat_ids_rows, <- Hc).
  unfold Sql.create_category. rewrite bool_decide_false by done.
  split; cbn; [done|]. rewrite flush_idle by done.
  unfold sim, rows_unique. split_and!; cbn; try done.
  - by rewrite fmap_app, fmap_cons, fmap_nil, Hc, category_row_roundtrip.
  - by apply NoDup_fmap_snoc.
  - apply Forall_app. split; [done|]. by apply Forall_singleton.
Qed.

(** The record an update gives the category [id]. *)
Lemma sim_update_category m q id name order :
  sim m q -> id ∈ cat_id <$> MemStore.categories m ->
  str_or_null name = true -> order_input order = true ->
  sim_result (MemStore.update_category id name order m) (Sql.update_category id name order q).
Proof.
  intros Hs Hid Hn Ho. pose proof (sim_cat_nodup m q Hs) as Hnd.
  destruct Hs as (Hp & Hc & Ha & Hd & (Hu1 & Hu2 & Hu3) & Gc & Ga & Gd).
  set (upd := fun c : Category => {| cat_id := cat_id c; cat_name := name;
                                     cat_order := (order || JNum 0)%js |}).
  assert (Hgood : forall c, good_category (upd c) = true).
  { intros c. unfold good_category. cbn. by rewrite Hn, order_input_num. }
  apply list_elem_of_fmap in Hid as (c0 & Hc0 & Hin).
  destruct (list_find_elem_of (fun c => cat_id c = id) _ c0 Hin (eq_sym Hc0)) as [[i old] Hf].
  unfold MemStore.update_category. rewrite Hf.
  pose proof Hf as (_ & Hold & _)%list_find_Some.
  split; cbn [fst snd]; [by rewrite Hold|]. rewrite flush_idle by done.
  change {| cat_id := cat_id old; cat_name := name; cat_order := (order || JNum 0)%js |}
    with (upd old).
  rewrite (insert_found_map cat_id id upd) by done.
  unfold sim, rows_unique. split_and!; cbn; try done.
  - rewrite Hc, <- !list_fmap_compose. apply Permutation_refl'. apply list_fmap_ext.
    intros j r _. unfold compose. cbn. repeat case_decide; try done.
    rewrite category_row_roundtrip; [|exact (Hgood (mkCategory id name JNull))].
    unfold upd. cbn. congruence.
  - by rewrite fmap_update_keys.
  - apply Forall_fmap. eapply Forall_impl; [exact Gc|]. intros c Hg. unfold compose.
    by case_decide.
Qed.

Lemma sim_delete_category m q id :
  sim m q -> sim_result (MemStore.delete_category id m) (Sql.delete_category id q).
Proof.
  intros (Hp & Hc & Ha & Hd & (Hu1 & Hu2 & Hu3) & Gc & Ga & Gd).
  split; cbn [fst snd MemStore.delete_category Sql.delete_category]; [done|].
  unfold flush. cbn. rewrite Hp. cbn.
  unfold sim, rows_unique. split_and!; cbn; try done.
  - rewrite Hc, list_filter_fmap. done.
  - rewrite Ha, list_filter_fmap. f_equal. apply filter_ext_Forall, Forall_forall.
    intros r _. unfold js_strict_eq, article_of_row. cbn.
    rewrite negb_true_iff, bool_decide_eq_false, to_js_str. done.
  - by apply NoDup_fmap_filter.
  - by apply NoDup_fmap_filter.
  - by apply Forall_filter_keep.
  - by apply Forall_filter_keep.
Qed.

(** ** The operations of the articles *)

Lemma sim_articles_by_category m q k :
  sim m q -> sim_result (MemStore.articles_by_category k m) (Sql.articles_by_category k q).
Proof.
  intros Hs. pose proof Hs as (Hp & _ & Ha & _). split; cbn; [|by rewrite flush_idle].
  rewrite Ha, list_filter_fmap. do 2 f_equal. apply filter_ext_Forall, Forall_forall.
  intros r _. unfold js_strict_eq, article_of_row. cbn.
  by rewrite bool_decide_eq_true, to_js_str.
Qed.

Lemma sim_get_article m q id :
  sim m q -> sim_result (MemStore.get_article id m) (Sql.get_article id q).
Proof.
  intros Hs. pose proof Hs as (Hp & _ & Ha & _).
  unfold MemStore.get_article, Sql.get_article. rewrite Ha, list_find_fmap.
  destruct (list_find _ (art_rows q)) as [[i r]|]; cbn; (split; [done|by rewrite flush_idle]).
Qed.

Lemma sim_create_article m q a :
  sim m q -> art_id a ∉ art_id <$> MemStore.articles m -> good_article a = true ->
  sim_result (MemStore.create_article a m) (Sql.create_article a q).
Proof.
  intros (Hp & Hc & Ha & Hd & (Hu1 & Hu2 & Hu3) & Gc & Ga & Gd) Hf Hg.
  assert (Hf' : art_id a ∉ ar_id <$> art_rows q) by (by rewrite <- art_ids_rows, <- Ha).
  unfold Sql.create_article. rewrite bool_decide_false by done.
  split; cbn; [done|]. rewrite flush_idle by done.
  unfold sim, rows_unique. split_and!; cbn; try done.
  - by rewrite fmap_app, fmap_cons, fmap_nil, Ha, good_article_roundtrip.
  - by apply NoDup_fmap_snoc.
  - apply Forall_app. split; [done|]. by apply Forall_singleton.
Qed.

Lemma article_spread_same old a : art_id old = art_id a -> article_spread old a = a.
Proof. intros H. unfold article_spread. rewrite H. by destruct a. Qed.

Lemma sim_update_article m q id a :
  sim m q -> id ∈ art_id <$> MemStore.articles m -> art_id a = id -> good_article a = true ->
  sim_result (MemStore.update_article id a m) (Sql.update_article id a q).
Proof.
  intros (Hp & Hc & Ha & Hd & (Hu1 & Hu2 & Hu3) & Gc & Ga & Gd) Hid Haid Hg.
  assert (Hnd : NoDup (art_id <$> MemStore.articles m)) by (by rewrite Ha, art_ids_rows).
  apply list_elem_of_fmap in Hid as (a0 & Ha0 & Hin).
  destruct (list_find_elem_of (fun x => art_id x = id) _ a0 Hin (eq_sym Ha0)) as [[i old] Hf].
  unfold MemStore.update_article. rewrite Hf.
  pose proof Hf as (_ & Hold & _)%list_find_Some.
  rewrite (article_spread_same old a) by congruence.
  split; cbn [fst snd]; [done|]. rewrite flush_idle by done.
  change a with ((fun _ : Article => a) old) at 1.
  rewrite (insert_found_map art_id id (fun _ => a) _ i old) by done.
  assert (Hrow : art_row_of (mkArticle id (art_title a) (art_description a) (art_content a)
     (art_imageUrl a) (art_author a) (art_publishedAt a) (art_categoryId a) (art_sourceUrl a))
     = art_row_of a) by (destruct a; cbn in *; by subst).
  unfold sim, rows_unique. split_and!; cbn; try done.
  - rewrite Ha, <- !list_fmap_compose. apply list_fmap_ext.
    intros j r _. unfold compose. cbn. repeat case_decide; try done.
    by rewrite Hrow, good_article_roundtrip.
  - rewrite fmap_update_keys; [done|]. intros r _. by rewrite Hrow.
  - apply Forall_fmap. eapply Forall_impl; [exact Ga|]. intros x Hx. unfold compose.
    by case_decide.
Qed.

Lemma sim_delete_article m q id :
  sim m q -> sim_result (MemStore.delete_article id m) (Sql.delete_article id q).
Proof.
  intros (Hp & Hc & Ha & Hd & (Hu1 & Hu2 & Hu3) & Gc & Ga & Gd).
  split; cbn; [done|]. rewrite flush_idle by done.
  unfold sim, rows_unique. split_and!; cbn; try done.
  - by rewrite Ha, list_filter_fmap.
  - by apply NoDup_fmap_filter.
  - by apply Forall_filter_keep.
Qed.

Lemma sim_search m q s :
  sim m q -> ascii_text s = true -> wild_free s = true ->
  sim_result (MemStore.search_articles (Js.to_lower s) m) (Sql.search_articles (Js.to_lower s) q).
Proof.
  intros Hs Hq Hw. pose proof Hs as (Hp & _ & Ha & _ & _ & _ & Ga & _).
  split; cbn; [|by rewrite flush_idle]. f_equal.
  unfold Search.search. rewrite Ha, list_filter_fmap. f_equal.
  apply filter_ext_Forall. rewrite Ha, Forall_fmap in Ga.
  eapply Forall_impl; [exact Ga|]. intros r Hr. unfold compose in Hr. cbn beta.
  rewrite sql_matches_spec; [done..|by apply good_article_row].
Qed.

(** ** The operations of the ads *)

Lemma sim_get_ads m q : sim m q -> sim_result (MemStore.get_ads m) (Sql.get_ads q).
Proof.
  intros Hs. pose proof Hs as (Hp & _ & _ & Hd & _). split; cbn; [|by rewrite flush_idle].
  by rewrite Hd.
Qed.

Lemma sim_create_ad m q d :
  sim m q -> ad_id d ∉ ad_id <$> MemStore.ads m -> good_ad d = true ->
  sim_result (MemStore.create_ad d m) (Sql.create_ad d q).
Proof.
  intros (Hp & Hc & Ha & Hd & (Hu1 & Hu2 & Hu3) & Gc & Ga & Gd) Hf Hg.
  assert (Hf' : ad_id d ∉ dr_id <$> ad_rows q) by (by rewrite <- ad_ids_rows, <- Hd).
  unfold Sql.create_ad. rewrite bool_decide_false by done.
  split; cbn; [done|]. rewrite flush_idle by done.
  unfold sim, rows_unique. split_and!; cbn; try done.
  - by rewrite fmap_app, fmap_cons, fmap_nil, Hd, ad_row_roundtrip.
  - by apply NoDup_fmap_snoc.
  - apply Forall_app. split; [done|]. by apply Forall_singleton.
Qed.

Lemma sim_update_ad m q id d :
  sim m q -> id ∈ ad_id <$> MemStore.ads m -> ad_id d = id -> good_ad d = true ->
  sim_result (MemStore.update_ad id d m) (Sql.update_ad id d q).
Proof.
  intros (Hp & Hc & Ha & Hd & (Hu1 & Hu2 & Hu3) & Gc & Ga & Gd) Hid Hdid Hg.
  assert (Hnd : NoDup (ad_id <$> MemStore.ads m)) by (by rewrite Hd, ad_ids_rows).
  apply list_elem_of_fmap in Hid as (d0 & Hd0 & Hin).
  destruct (list_find_elem_of (fun x => ad_id x = id) _ d0 Hin (eq_sym Hd0)) as [[i old] Hf].
  unfold MemStore.update_ad. rewrite Hf.
  pose proof Hf as (_ & Hold & _)%list_find_Some.
  rewrite (ad_spread_same_id old d) by congruence.
  split; cbn [fst snd]; [done|]. rewrite flush_idle by done.
  change d with ((fun _ : Ad => d) old) at 1.
  rewrite (insert_found_map ad_id id (fun _ => d) _ i old) by done.
  assert (Hrow : ad_row_of (mkAd id (ad_type d) (ad_placement d) (ad_imageUrl d)
     (ad_clickUrl d)) = ad_row_of d) by (destruct d; cbn in *; by subst).
  unfold sim, rows_unique. split_and!; cbn; try done.
  - rewrite Hd, <- !list_fmap_compose. apply list_fmap_ext.
    intros j r _. unfold compose. cbn. repeat case_decide; try done.
    by rewrite Hrow, ad_row_roundtrip.
  - rewrite fmap_update_keys; [done|]. intros r _. by rewrite Hrow.
  - apply Forall_fmap. eapply Forall_impl; [exact Gd|]. intros x Hx. unfold compose.
    by case_decide.
Qed.

Lemma sim_delete_ad m q id :
  sim m q -> sim_result (MemStore.delete_ad id m) (Sql.delete_ad id q).
Proof.
  intros (Hp & Hc & Ha & Hd & (Hu1 & Hu2 & Hu3) & Gc & Ga & Gd).
  split; cbn; [done|]. rewrite flush_idle by done.
  unfold sim, rows_unique. split_and!; cbn; try done.
  - by rewrite Hd, list_filter_fmap.
  - by apply NoDup_fmap_filter.
  - by apply Forall_filter_keep.
Qed.

(** ** The handlers *)

Lemma sim_idle {B} m q (x : B) : sim m q -> sim_result (m, x) (q, x).
Proof. intros Hs. split; [done|]. rewrite flush_idle; [done|]. apply Hs. Qed.

Lemma sim_call {A} (w : A -> RBody) rm rq :
  sim_result rm rq -> sim_result (call w rm) (call w rq).
Proof. intros [He Hs]. split; [cbn; by rewrite He|exact Hs]. Qed.

Lemma sim_call_deleted rm rq :
  sim_result rm rq -> sim_result (call_deleted rm) (call_deleted rq).
Proof. intros [He Hs]. split; [cbn; by rewrite He|exact Hs]. Qed.

Lemma sim_require_auth req m q k1 k2 :
  sim m q -> (authorized req = true -> sim_result (k1 m) (k2 q)) ->
  sim_result (require_auth req m k1) (require_auth req q k2).
Proof.
  intros Hs Hk. unfold require_auth. destruct (authorized req); [by apply Hk|].
  by apply sim_idle.
Qed.

(** The guard of a mutating route, once [requireAuth] has passed. *)
Lemma guard_passed req (g : bool) :
  authorized req = true -> (negb (authorized req) || g)%bool = true -> g = true.
Proof. by intros ->. Qed.

(** A mutating route past [requireAuth]: its guard, split into facts. *)
Local Ltac passed Hg :=
  let Ha := fresh "Ha" in
  intros Ha; apply (guard_passed _ _ Ha) in Hg; split_andb Hg;
  apply bool_decide_eq_true in Hg.

Lemma sim_search_query m q req :
  sim m q ->
  match req_query_q req with Search.QStr s => ascii_text s && wild_free s | _ => true end = true ->
  sim_result (handle_search req m) (handle_search req q).
Proof.
  intros Hs Hg. unfold handle_search.
  destruct (req_query_q req) as [|s|].
  - apply sim_call. by apply (sim_search m q "").
  - apply andb_true_iff in Hg as [Hq Hw]. rewrite Search.query_of_str.
    apply sim_call. by apply sim_search.
  - by apply sim_idle.
Qed.

Lemma sim_run_route cfgm cfgq fresh req r ps m q :
  admin_password cfgm = admin_password cfgq -> sim m q ->
  good_route m fresh req r ps = true ->
  sim_result (run_route cfgm fresh req r ps m) (run_route cfgq fresh req r ps q).
Proof.
  intros Hpw Hs Hg.
  destruct r; cbn [run_route good_route] in Hg |- *; try discriminate;
    unfold handle_upload, handle_list_categories, handle_create_category,
      handle_update_category, handle_delete_category, handle_category_articles,
      handle_get_article, handle_create_article, handle_update_article,
      handle_delete_article, handle_list_ads, handle_create_ad, handle_update_ad,
      handle_delete_ad, handle_login, handle_logout.
  - apply sim_require_auth; [done|]. intros _. destruct (req_file req); by apply sim_idle.
  - apply bool_decide_eq_true in Hg. apply sim_call. by apply sim_get_categories.
  - apply sim_require_auth; [done|]. passed Hg. apply sim_call. by apply sim_create_category.
  - apply sim_require_auth; [done|]. passed Hg. apply sim_call. by apply sim_update_category.
  - apply sim_require_auth; [done|]. intros _. apply sim_call_deleted.
    by apply sim_delete_category.
  - apply sim_call. by apply sim_articles_by_category.
  - apply sim_call. by apply sim_get_article.
  - apply sim_require_auth; [done|]. passed Hg. apply sim_call. by apply sim_create_article.
  - apply sim_require_auth; [done|]. passed Hg. apply sim_call. by apply sim_update_article.
  - apply sim_require_auth; [done|]. intros _. apply sim_call_deleted.
    by apply sim_delete_article.
  - by apply sim_search_query.
  - apply sim_call. by apply sim_get_ads.
  - apply sim_require_auth; [done|]. passed Hg. apply sim_call. by apply sim_create_ad.
  - apply sim_require_auth; [done|]. passed Hg. apply sim_call. by apply sim_update_ad.
  - apply sim_require_auth; [done|]. intros _. apply sim_call_deleted. by apply sim_delete_ad.
  - rewrite Hpw. case_match; by apply sim_idle.
  - by apply sim_idle.
Qed.

Lemma sim_dispatch cfgm cfgq fresh req m q :
  admin_password cfgm = admin_password cfgq -> sim m q -> good_request m fresh req = true ->
  option_Forall2 sim_result (dispatch cfgm fresh req m) (dispatch cfgq fresh req q).
Proof.
  intros Hpw Hs Hg. unfold dispatch, good_request in *.
  case_bool_decide; [constructor; by apply sim_idle|].
  destruct (static_mount _ _); constructor.
  destruct (find_route _ _ _) as [[r ps]|]; [by apply sim_run_route|by apply sim_idle].
Qed.

Lemma sim_seed : sim MemStore.seed Sql.seeded.
Proof.
  destruct seeded_reads_as_memory_seed as (Hc & Ha & Hd).
  unfold sim. rewrite Hc, Ha, Hd. split_and!; try reflexivity; [exact seeded_rows_unique|..];
    vm_compute; repeat constructor.
Qed.

Lemma serve_sim cfgm cfgq tr : forall m q,
  admin_password cfgm = admin_password cfgq -> sim m q -> good_trace cfgm tr m = true ->
  serve id cfgm tr m = serve flush cfgq tr q.
Proof.
  induction tr as [|[fresh req] tr IH]; intros m q Hpw Hs Hg; [done|].
  cbn [good_trace] in Hg. apply andb_true_iff in Hg as [Hr Ht].
  pose proof (sim_dispatch cfgm cfgq fresh req m q Hpw Hs Hr) as Hd. cbn [serve].
  destruct (dispatch cfgm fresh req m) as [[m' rm]|], (dispatch cfgq fresh req q) as [[q' rq]|];
    inversion Hd as [? ? [He Hs']|]; subst; cbn in *; rewrite ?He; f_equal; by apply IH.
Qed.

(** C9: The two servers of index.js answer alike.  Started on their
    seeds, the in-memory server and the sqlite server, configured with
    the same admin password, give the same response to every request of
    a trace whose requests keep inside the conditions of [good_request]
    (string or null fields, integer orders, distinct listed orders,
    present ids for updates, fresh ids for creations, seven-bit searches
    without wildcards, no root request), when the statements sqlite runs
    without waiting have run before the next request. *)
Theorem servers_agree pw tr :
  good_trace (mkConfig false pw) tr MemStore.seed = true ->
  serve id (mkConfig false pw) tr MemStore.seed = serve flush (mkConfig true pw) tr Sql.seeded.
Proof. intros Hg. by apply serve_sim; [|exact sim_seed|]. Qed.

Lemma servers_agree_witness :
  good_trace (mkConfig false "virat123") agree_trace MemStore.seed = true /\
  serve id (mkConfig false "virat123") agree_trace MemStore.seed
  = serve flush (mkConfig true "virat123") agree_trace Sql.seeded.
Proof.
  assert (Hg : good_trace (mkConfig false "virat123") agree_trace MemStore.seed = true)
    by (vm_compute; reflexivity).
  split; [exact Hg|exact (servers_agree "virat123" agree_trace Hg)].
Defined.

End Sim.
