(* ===== verification/AdminPage.v ===== *)
(** The admin page, src/mock-api/admin/app.js, as the client that builds
    the request bodies of [Router]: [parseInt] of the order field (lines
    30 and 52), the value an [<input type='number'>] reports, the
    single-quoted [value='${...}'] attributes and the [<textarea>] that
    prefill the edit forms (lines 46-47, 130-136), the [<select>] of
    categories with its [selected] option (line 135), and the bodies of
    [POST /api/categories] (line 31), [PUT /api/categories/:id] (line
    53) and [PUT /api/articles/:id] (line 147).  The HTML parser is
    modelled where these values pass through it: newline normalisation,
    the end of a quoted attribute value, the end of the [textarea]'s
    text and the selectedness rules of a [select]; character references
    ([&amp;] and the like) are not decoded, so the theorems that read a
    value back assume it has no [&]. *)

From S2P Require Import Prelude JsValue Records MemStore.

Local Open Scope string_scope.

Module Admin.

(** ** parseInt (ECMA-262 19.2.5) *)

(** The value of [c] as a digit of radix [r]: [0-9], then [a-z] and
    [A-Z] from 10. *)
Definition radix_digit (r : Z) (c : Ascii.ascii) : option Z :=
  let n := Z.of_N (Ascii.N_of_ascii c) in
  let v := (if (48 <=? n) && (n <=? 57) then Some (n - 48)
            else if (97 <=? n) && (n <=? 122) then Some (n - 87)
            else if (65 <=? n) && (n <=? 90) then Some (n - 55)
            else None)%Z in
  match v with Some d => if (d <? r)%Z then Some d else None | None => None end.

(** The longest prefix of radix-[r] digits: its value after [acc] and
    its length. *)
Fixpoint digit_run (r acc : Z) (s : string) : Z * nat :=
  match s with
  | EmptyString => (acc, 0%nat)
  | String c s' =>
      match radix_digit r c with
      | Some d => let '(v, n) := digit_run r (r * acc + d)%Z s' in (v, S n)
      | None => (acc, 0%nat)
      end
  end.

(** [parseInt(s)] with no radix: leading white space, a sign, a [0x]
    prefix for radix 16, then the longest digit prefix; [NaN] ([None])
    when there is no digit. *)
Definition parse_int (s : string) : option Z :=
  let s := Js.trim_start s in
  let '(sign, s) :=
    match s with
    | String c r => if Ascii.eqb c "-" then ((-1)%Z, r)
                    else if Ascii.eqb c "+" then (1%Z, r) else (1%Z, s)
    | EmptyString => (1%Z, s)
    end in
  let '(radix, s) :=
    match s with
    | String z (String x r) =>
        if (Ascii.eqb z "0" && (Ascii.eqb x "x" || Ascii.eqb x "X"))%bool
        then (16%Z, r) else (10%Z, s)
    | _ => (10%Z, s)
    end in
  let '(v, n) := digit_run radix 0 s in
  match n with O => None | S _ => Some (sign * v)%Z end.

(** ** What the browser hands back *)

(** A valid floating-point number (HTML 2.3.4.3): an optional [-],
    digits with an optional fraction ([1], [1.5], [.5], not [1.]), an
    optional exponent. *)
Fixpoint span_digits (s : string) : string * string :=
  match s with
  | String c s' =>
      match Js.digit_value c with
      | Some _ => let '(d, r) := span_digits s' in (String c d, r)
      | None => (EmptyString, s)
      end
  | EmptyString => (EmptyString, EmptyString)
  end.

Definition nonempty (s : string) : bool := match s with EmptyString => false | _ => true end.

Definition valid_exponent (s : string) : bool :=
  match s with
  | EmptyString => true
  | String e r =>
      (Ascii.eqb e "e" || Ascii.eqb e "E")%bool &&
      (let r := match r with
                | String c r' => if (Ascii.eqb c "-" || Ascii.eqb c "+")%bool then r' else r
                | EmptyString => r
                end in
       let '(d, rest) := span_digits r in nonempty d && negb (nonempty rest))
  end.

Definition valid_float (s : string) : bool :=
  let s := match s with String c r => if Ascii.eqb c "-" then r else s | _ => s end in
  let '(d1, r1) := span_digits s in
  match r1 with
  | String p r2 =>
      if Ascii.eqb p "." then
        let '(d2, r3) := span_digits r2 in nonempty d2 && valid_exponent r3
      else nonempty d1 && valid_exponent r1
  | EmptyString => nonempty d1
  end.

(** [input.value] of an [<input type='number'>]: the value sanitisation
    algorithm leaves a valid floating-point number and empties anything
    else. *)
Definition number_input_value (raw : string) : string :=
  if valid_float raw then raw else "".

(** [value || '0'] on a string. *)
Definition str_or (s d : string) : string := if String.eqb s "" then d else s.

(** [JSON.stringify] of a number: [NaN] is written [null]. *)
Definition json_num (n : option Z) : JsVal :=
  match n with Some z => JNum z | None => JNull end.

(** The input stream preprocessing: CR LF and a lone CR become LF. *)
Fixpoint normalize_newlines (s : string) : string :=
  match s with
  | EmptyString => EmptyString
  | String c r =>
      if Ascii.eqb c "013"%char then
        match r with
        | String d r' => if Ascii.eqb d "010"%char then String "010"%char (normalize_newlines r')
                         else String "010"%char (normalize_newlines r)
        | EmptyString => String "010"%char EmptyString
        end
      else String c (normalize_newlines r)
  end.

(** The text of [value='...']: what precedes the first single quote. *)
Fixpoint until_quote (s : string) : string :=
  match s with
  | EmptyString => EmptyString
  | String c r => if Ascii.eqb c "'" then EmptyString else String c (until_quote r)
  end.

Definition attr_value (s : string) : string := until_quote (normalize_newlines s).

(** The value sanitisation of a text [<input>]: [.value] has no line
    feed or carriage return. *)
Fixpoint strip_newlines (s : string) : string :=
  match s with
  | EmptyString => EmptyString
  | String c r =>
      if (Ascii.eqb c "010" || Ascii.eqb c "013")%bool then strip_newlines r
      else String c (strip_newlines r)
  end.

(** [input.value] of a text [<input value='${s}' />]. *)
Definition input_value (s : string) : string := strip_newlines (attr_value s).

(** An appropriate end tag [</textarea] followed by white space, [/] or
    [>] ends the element's text (RCDATA state). *)
Definition closes_textarea (s : string) : bool :=
  String.prefix "</textarea" (Js.to_lower (substring 0 10 s)) &&
  match String.get 10 s with
  | Some c => existsb (Ascii.eqb c) ["009"%char; "010"%char; "012"%char; " "%char; "/"%char; ">"%char]
  | None => false
  end.

Fixpoint rcdata_text (s : string) : string :=
  match s with
  | EmptyString => EmptyString
  | String c r => if closes_textarea s then EmptyString else String c (rcdata_text r)
  end.

(** [textarea.value] for [<textarea ...>${t}</textarea>]: the text up to
    the end tag, without a first line feed. *)
Definition textarea_value (t : string) : string :=
  match rcdata_text (normalize_newlines (t ++ "</textarea>")) with
  | String c r => if Ascii.eqb c "010"%char then r else String c r
  | EmptyString => EmptyString
  end.

(** [select.value] when no option is [selected]: the first option's
    value, [""] when there is none (the add-article form, line 71). *)
Definition first_option (cats : list Category) : string :=
  default "" (head (attr_value <$> (cat_id <$> cats))).

(** [select.value] of the add-article form (line 71) once the user has
    had it: the value of the option they chose, read as the HTML parser
    reads [value='${c.id}'], or the first option when they left it
    alone ([None]); a value that is no option's cannot be chosen and
    reads as the first option. *)
Definition chosen_option (cats : list Category) (pick : option string) : string :=
  match pick with
  | Some v => if bool_decide (v ∈ attr_value <$> (cat_id <$> cats)) then v else first_option cats
  | None => first_option cats
  end.

(** [select.value] for the options [<option value='${c.id}' ${c.id ===
    art.categoryId ? 'selected' : ''}>] of the categories [cats]: the
    last option marked [selected], else the first option, else [""]. *)
Definition select_value (cats : list Category) (sel : JsVal) : string :=
  let marked := filter (fun c => JStr (cat_id c) = sel) cats in
  match last marked with
  | Some c => attr_value (cat_id c)
  | None => first_option cats
  end.

(** ** The bodies the forms send *)

(** Lines 29-31 and 51-53: [{ name, order: parseInt(orderValue || '0') }]. *)
Definition category_form_body (name order_value : string) : Body :=
  <["name" := JStr name]> {["order" := json_num (parse_int (str_or order_value "0"))]}.

(** Lines 45-53 with the prefilled fields left as they are: the name
    input holds [${c.name}], the number input [${c.order}]. *)
Definition edit_category_body (c : Category) : Body :=
  category_form_body (input_value (Js.to_string (cat_name c)))
    (number_input_value (attr_value (Js.to_string (cat_order c)))).

(** Lines 129-147 with the prefilled fields left as they are, [cats]
    being the category list the page loaded. *)
Definition edit_article_body (cats : list Category) (a : Article) : Body :=
  <["title" := JStr (input_value (Js.to_string (art_title a)))]>
  (<["description" := JStr (input_value (Js.to_string (art_description a)))]>
  (<["content" := JStr (textarea_value (Js.to_string (art_content a)))]>
  (<["imageUrl" := JStr (input_value (Js.to_string (art_imageUrl a)))]>
  (<["author" := JStr (input_value (Js.to_string (art_author a)))]>
  (<["categoryId" := JStr (select_value cats (art_categoryId a))]>
  {["sourceUrl" := JStr (input_value (Js.to_string (art_sourceUrl a)))]}))))).

(** Text that the HTML parser and a text input hand back as written: no
    single quote, no character reference, no tag opener, no line break. *)
Fixpoint plain_text (s : string) : bool :=
  match s with
  | EmptyString => true
  | String c r =>
      negb (existsb (Ascii.eqb c) ["'"%char; "&"%char; "<"%char; "013"%char; "010"%char])
      && plain_text r
  end.

(** Records for the examples below: a category whose name has a single
    quote, and an article saved without a description. *)
Definition rock : Category := mkCategory "c1" (JStr "Rock 'n' Roll") (JNum 4).

Definition draft : Article :=
  mkArticle "n1" (JStr "Draft") JUndefined (JStr "Body") JUndefined JUndefined
    (JStr "2025-09-04") (JStr "sports") JUndefined.

(** ** Lemmas: the parser hands plain text back *)

Lemma plain_text_cons c r :
  plain_text (String c r) = true ->
  Ascii.eqb c "'" = false /\ Ascii.eqb c "&" = false /\ Ascii.eqb c "<" = false /\
  Ascii.eqb c "013" = false /\ Ascii.eqb c "010" = false /\ plain_text r = true.
Proof.
  cbn [plain_text existsb]. intros [H Hr]%andb_true_iff.
  apply negb_true_iff in H. repeat (apply orb_false_iff in H as [? H]). by split_and!.
Qed.

Lemma normalize_app_plain s t :
  plain_text s = true -> normalize_newlines (s ++ t) = s ++ normalize_newlines t.
Proof.
  induction s as [|c r IH]; [done|]. intros (_ & _ & _ & Hcr & _ & Hr)%plain_text_cons.
  rewrite !string_app_cons. cbn [normalize_newlines]. by rewrite Hcr, IH.
Qed.

Lemma normalize_plain s : plain_text s = true -> normalize_newlines s = s.
Proof.
  intros Hs. rewrite <- (string_app_nil_r s) at 1.
  by rewrite normalize_app_plain, string_app_nil_r.
Qed.

Lemma attr_value_plain s : plain_text s = true -> attr_value s = s.
Proof.
  intros Hs. unfold attr_value. rewrite normalize_plain by done.
  induction s as [|c r IH]; [done|].
  apply plain_text_cons in Hs as (Hq & _ & _ & _ & _ & Hr). cbn [until_quote].
  by rewrite Hq, IH.
Qed.

Lemma input_value_plain s : plain_text s = true -> input_value s = s.
Proof.
  intros Hs. unfold input_value. rewrite attr_value_plain by done.
  induction s as [|c r IH]; [done|].
  apply plain_text_cons in Hs as (_ & _ & _ & Hcr & Hlf & Hr). cbn [strip_newlines].
  by rewrite Hcr, Hlf, IH.
Qed.

(** A value attribute ends at the first single quote. *)
Lemma input_value_quote pre post :
  plain_text pre = true -> input_value (pre ++ String "'" post) = pre.
Proof.
  intros Hp. unfold input_value, attr_value. rewrite normalize_app_plain by done.
  replace (until_quote (pre ++ normalize_newlines (String "'" post))) with pre.
  - rewrite <- (attr_value_plain pre Hp) at 1. exact (input_value_plain pre Hp).
  - induction pre as [|c r IH]; [done|].
    apply plain_text_cons in Hp as (Hq & _ & _ & _ & _ & Hr).
    rewrite string_app_cons. cbn [until_quote]. by rewrite Hq, <- IH.
Qed.

(** Lowering never makes a [<]. *)
Lemma lower_char_lt c : Ascii.eqb c "<" = false -> Ascii.eqb (Js.lower_char c) "<" = false.
Proof.
  intros Hc. unfold Js.lower_char. destruct (Js.is_upper c) eqn:E; [|done].
  unfold Js.is_upper in E. cbv zeta in E.
  assert (Hr : (65 <= Ascii.N_of_ascii c <= 222)%N).
  { apply orb_true_iff in E as [E|E];
      [apply andb_true_iff in E as [E1 E2]
      |apply andb_true_iff in E as [[E1 E2]%andb_true_iff _]];
      apply N.leb_le in E1, E2; lia. }
  apply Ascii.eqb_neq. intros Heq. apply (f_equal Ascii.N_of_ascii) in Heq.
  rewrite Ascii.N_ascii_embedding in Heq by lia. cbn in Heq. lia.
Qed.

Lemma rcdata_plain s : plain_text s = true -> rcdata_text (s ++ "</textarea>") = s.
Proof.
  induction s as [|c r IH]; [done|].
  intros Hs. pose proof Hs as (_ & _ & Hlt & _ & _ & Hr)%plain_text_cons.
  rewrite string_app_cons. cbn [rcdata_text]. rewrite IH by done.
  unfold closes_textarea. cbn [substring Js.to_lower String.prefix].
  destruct (Ascii.ascii_dec "<" (Js.lower_char c)) as [Heq|]; [|done].
  exfalso. pose proof (lower_char_lt c Hlt) as H. rewrite <- Heq in H. done.
Qed.

Lemma textarea_value_plain s : plain_text s = true -> textarea_value s = s.
Proof.
  intros Hs. unfold textarea_value.
  rewrite normalize_app_plain by done. cbn -[String.append].
  rewrite rcdata_plain by done. destruct s as [|c r]; [done|].
  apply plain_text_cons in Hs as (_ & _ & _ & _ & Hlf & _). by rewrite Hlf.
Qed.

(** ** Lemmas: a rendered integer read back by the edit form *)

Lemma digit_neq c d x :
  Js.digit_value c = Some d -> Js.digit_value x = None -> Ascii.eqb c x = false.
Proof. intros Hc Hx. apply Ascii.eqb_neq. intros ->. congruence. Qed.

Lemma digit_not_space c d : Js.digit_value c = Some d -> Js.is_space c = false.
Proof.
  unfold Js.digit_value, Js.is_space. cbv zeta.
  destruct (N.leb 48 _ && N.leb _ 57)%bool eqn:E; [|discriminate]. intros _.
  apply andb_true_iff in E as [E1 E2]. apply N.leb_le in E1, E2.
  repeat (rewrite (proj2 (N.eqb_neq _ _)) by lia). done.
Qed.

Lemma radix_digit_decimal c d : Js.digit_value c = Some d -> radix_digit 10 c = Some d.
Proof.
  unfold Js.digit_value, radix_digit. cbv zeta.
  destruct (N.leb 48 _ && N.leb _ 57)%bool eqn:E; [|discriminate]. intros [= <-].
  apply andb_true_iff in E as [E1 E2]. apply N.leb_le in E1, E2.
  rewrite (proj2 (Z.leb_le 48 _)), (proj2 (Z.leb_le _ 57)) by lia. cbn.
  rewrite (proj2 (Z.ltb_lt _ 10)) by lia. f_equal; lia.
Qed.

Lemma digit_run_digits s acc :
  Js.all_digits s = true ->
  Js.digits_from acc s = Some (fst (digit_run 10 acc s)) /\ snd (digit_run 10 acc s) = String.length s.
Proof.
  revert acc. induction s as [|c r IH]; intros acc; [done|]. cbn [Js.all_digits].
  destruct (Js.digit_value c) as [d|] eqn:Hc; [|discriminate]. intros Hd.
  cbn [digit_run Js.digits_from]. rewrite Hc, (radix_digit_decimal _ _ Hc).
  destruct (IH (10 * acc + d)%Z Hd) as [H1 H2].
  destruct (digit_run 10 (10 * acc + d) r) as [v n]. cbn in *. by rewrite H1, H2.
Qed.

Lemma span_all_digits s : Js.all_digits s = true -> span_digits s = (s, EmptyString).
Proof.
  induction s as [|c r IH]; [done|]. cbn [Js.all_digits span_digits].
  destruct (Js.digit_value c); [|discriminate]. intros Hd. by rewrite IH.
Qed.

Lemma all_digits_plain s : Js.all_digits s = true -> plain_text s = true.
Proof.
  induction s as [|c r IH]; [done|]. cbn [Js.all_digits plain_text existsb].
  destruct (Js.digit_value c) as [d|] eqn:Hc; [|discriminate]. intros Hd.
  rewrite !(digit_neq c d) by (done || reflexivity). by rewrite IH.
Qed.

(** What [parseInt] reads from a digit string and from its negation. *)
Lemma parse_int_digits c r v :
  Js.all_digits (String c r) = true -> Js.digits_from 0 (String c r) = Some v ->
  parse_int (String c r) = Some v /\ parse_int (String "-" (String c r)) = Some (- v)%Z.
Proof.
  intros Hd Hv. pose proof Hd as Hd'. cbn [Js.all_digits] in Hd'.
  destruct (Js.digit_value c) as [d|] eqn:Hc; [|discriminate].
  destruct (digit_run_digits (String c r) 0 Hd) as [Hrun Hlen].
  destruct (digit_run 10 0 (String c r)) as [w n] eqn:E. cbn [fst snd] in Hrun, Hlen.
  rewrite Hv in Hrun. injection Hrun as <-. subst n.
  assert (Hradix : forall sign,
    (let '(radix, s) := match String c r with
       | String z (String y t) =>
           if (Ascii.eqb z "0" && (Ascii.eqb y "x" || Ascii.eqb y "X"))%bool
           then (16%Z, t) else (10%Z, String c r)
       | _ => (10%Z, String c r) end in
     let '(v, n) := digit_run radix 0 s in
     match n with O => None | S _ => Some (sign * v)%Z end) = Some (sign * v)%Z).
  { intros sign. destruct r as [|x r'].
    - cbn iota. by rewrite E.
    - cbn [Js.all_digits] in Hd'. destruct (Js.digit_value x) as [dx|] eqn:Hx; [|discriminate].
      rewrite (digit_neq x dx "x"), (digit_neq x dx "X") by (done || reflexivity).
      cbn [orb]. rewrite andb_false_r. by rewrite E. }
  unfold parse_int. split.
  - cbn [Js.trim_start]. rewrite (digit_not_space c d Hc).
    rewrite !(digit_neq c d) by (done || reflexivity).
    rewrite <- (Z.mul_1_l v). apply Hradix.
  - cbn [Js.trim_start]. replace (Js.is_space "-") with false by reflexivity.
    cbn iota. rewrite Ascii.eqb_refl. replace (- v)%Z with (-1 * v)%Z by lia. apply Hradix.
Qed.

Lemma parse_int_number z : parse_int (Js.number_to_string z) = Some z.
Proof.
  unfold Js.number_to_string. destruct z as [|p|p]; [reflexivity|..];
    cbn [Z.to_int NilEmpty.string_of_int];
    destruct (Js.positive_string p) as (c & r & Hs & _ & _ & _ & Hd & Hv); rewrite Hs.
  - exact (proj1 (parse_int_digits c r _ Hd Hv)).
  - exact (proj2 (parse_int_digits c r _ Hd Hv)).
Qed.

(** A rendered integer is a valid floating-point number and plain text. *)
Lemma number_string_cases z :
  exists c r, Js.all_digits (String c r) = true /\
    (Js.number_to_string z = String c r \/ Js.number_to_string z = String "-" (String c r)).
Proof.
  unfold Js.number_to_string. destruct z as [|p|p]; [exists "0"%char, ""; split; [reflexivity|by left]|..];
    cbn [Z.to_int NilEmpty.string_of_int];
    destruct (Js.positive_string p) as (c & r & Hs & _ & _ & _ & Hd & _);
    exists c, r; rewrite Hs; auto.
Qed.

Lemma number_input_value_number z :
  number_input_value (Js.number_to_string z) = Js.number_to_string z.
Proof.
  unfold number_input_value, valid_float.
  destruct (number_string_cases z) as (c & r & Hd & [-> | ->]).
  - pose proof Hd as Hc. cbn [Js.all_digits] in Hc.
    destruct (Js.digit_value c) as [d|] eqn:E; [|discriminate].
    rewrite (digit_neq c d "-") by (done || reflexivity). by rewrite span_all_digits.
  - cbn iota. rewrite Ascii.eqb_refl. by rewrite span_all_digits.
Qed.

Lemma plain_number z : plain_text (Js.number_to_string z) = true.
Proof.
  destruct (number_string_cases z) as (c & r & Hd & [-> | ->]);
    [|change (plain_text (String "-" (String c r))) with (plain_text (String c r))];
    by apply all_digits_plain.
Qed.

(** ** Lemmas: the bodies *)

Lemma category_form_name name v : body_get (category_form_body name v) "name" = JStr name.
Proof. unfold body_get, category_form_body. by rewrite lookup_insert_eq. Qed.

Lemma category_form_order name v :
  body_get (category_form_body name v) "order" = json_num (parse_int (str_or v "0")).
Proof.
  unfold body_get, category_form_body.
  rewrite lookup_insert_ne by done. by rewrite lookup_singleton_eq.
Qed.

(** [order || 0] of what the form sends is a number. *)
Lemma form_order_number name v :
  exists z, (body_get (category_form_body name v) "order" || JNum 0)%js = JNum z.
Proof.
  rewrite category_form_order. destruct (parse_int _) as [z|]; cbn [json_num].
  - unfold js_or. cbn [truthy]. destruct (Z.eqb_spec z 0) as [->|]; by eexists.
  - by eexists.
Qed.

(** An update that gives a category its own name and order changes
    nothing. *)
Lemma update_category_same s c name order :
  NoDup (cat_id <$> MemStore.categories s) -> c ∈ MemStore.categories s ->
  name = cat_name c -> (order || JNum 0)%js = cat_order c ->
  MemStore.update_category (cat_id c) name order s = (s, Ok c).
Proof.
  intros Hnd Hc -> Ho. destruct (list_find_key_member cat_id _ c Hnd Hc) as (i & Hf & Hi).
  unfold MemStore.update_category. rewrite Hf, Ho.
  destruct c as [cid cname cord]. cbn. rewrite Hi. by destruct s.
Qed.

Lemma js_or_num_zero z : (JNum z || JNum 0)%js = JNum z.
Proof. unfold js_or. cbn [truthy]. by destruct (Z.eqb_spec z 0) as [->|]. Qed.

Lemma str_or_number z : str_or (Js.number_to_string z) "0" = Js.number_to_string z.
Proof. by destruct (number_string_cases z) as (c & r & _ & [-> | ->]). Qed.

Lemma edit_article_published cats a : body_get (edit_article_body cats a) "publishedAt" = JUndefined.
Proof.
  unfold body_get, edit_article_body.
  rewrite !lookup_insert_ne by done. by rewrite lookup_singleton_ne.
Qed.

Lemma edit_article_category cats a :
  body_get (edit_article_body cats a) "categoryId" = JStr (select_value cats (art_categoryId a)).
Proof.
  unfold body_get, edit_article_body.
  do 5 (rewrite lookup_insert_ne by done). by rewrite lookup_insert_eq.
Qed.

(** What the category edit form sends back, left untouched, for a plain
    name and an integer order: the name, and an order that [|| 0] turns
    into the stored one. *)
Lemma edit_category_fields c n z :
  cat_name c = JStr n -> plain_text n = true -> cat_order c = JNum z ->
  body_get (edit_category_body c) "name" = cat_name c /\
  (body_get (edit_category_body c) "order" || JNum 0)%js = cat_order c.
Proof.
  intros Hn Hp Hz. unfold edit_category_body. split.
  - rewrite category_form_name, Hn. cbn [Js.to_string]. by rewrite input_value_plain.
  - rewrite category_form_order, Hz. cbn [Js.to_string].
    rewrite (attr_value_plain _ (plain_number z)).
    rewrite number_input_value_number, str_or_number, parse_int_number. cbn [json_num].
    by rewrite js_or_num_zero.
Qed.

(** ** Theorems *)

(** C31: Categories created through the admin page always carry a
    numeric order: whatever is typed in the order field, [parseInt]
    gives an integer or [NaN], [JSON.stringify] writes [NaN] as [null],
    and the server's [order || 0] makes that [0].  So the page keeps the
    precondition of the listing theorems of [MemStore]. *)
Theorem admin_create_keeps_numeric_orders s id name v :
  MemStore.numeric_orders (MemStore.categories s) ->
  MemStore.numeric_orders
    (MemStore.categories (fst (MemStore.create_category (category_of_body id (category_form_body name v)) s))).
Proof.
  intros Hn. unfold MemStore.numeric_orders. cbn. apply Forall_app. split; [exact Hn|].
  apply Forall_singleton. cbn [cat_order category_of_body].
  destruct (form_order_number name v) as [z ->]. by eexists.
Qed.

(** Saving the edit form of a category without touching it leaves
    the store as it was, when the name is plain text and the order an
    integer: the integer is rendered into [value='...'], accepted by the
    number input and read back by [parseInt]. *)
Theorem edit_category_unchanged s c n z :
  NoDup (cat_id <$> MemStore.categories s) -> c ∈ MemStore.categories s ->
  cat_name c = JStr n -> plain_text n = true -> cat_order c = JNum z ->
  MemStore.update_category (cat_id c) (body_get (edit_category_body c) "name")
    (body_get (edit_category_body c) "order") s = (s, Ok c).
Proof.
  intros Hnd Hc Hn Hp Hz. destruct (edit_category_fields c n z Hn Hp Hz) as [H1 H2].
  by apply update_category_same.
Qed.

(** C33: Saving the edit form of a stored article erases its
    [publishedAt] (the form sends no such field and the server spreads
    [publishedAt: undefined] over the record) and sets its category to
    what the [select] reports. *)
Theorem admin_edit_erases_published s cats id i a :
  list_find (fun x => art_id x = id) (MemStore.articles s) = Some (i, a) ->
  exists a', snd (MemStore.update_article id (article_of_body id (edit_article_body cats a)) s) = Ok a'
    /\ art_id a' = art_id a /\ art_publishedAt a' = JUndefined
    /\ art_categoryId a' = JStr (select_value cats (art_categoryId a)).
Proof.
  intros Hf. unfold MemStore.update_article. rewrite Hf. cbn [snd].
  eexists. split; [reflexivity|]. cbn [article_spread article_of_body art_id art_publishedAt art_categoryId].
  by rewrite edit_article_published, edit_article_category.
Qed.

(** The category [select] of the article edit form keeps the
    article's category when it is listed, and otherwise reports the
    first listed category: saving the form moves an article whose
    category is gone (or was given as a number) to the first category. *)
Theorem edit_article_select cats :
  Forall (fun c => plain_text (cat_id c) = true) cats ->
  (forall k, k ∈ cat_id <$> cats -> select_value cats (JStr k) = k) /\
  (forall v, (forall c, c ∈ cats -> JStr (cat_id c) <> v) ->
     select_value cats v = default "" (head (cat_id <$> cats))).
Proof.
  intros Hp. unfold select_value. split.
  - intros k Hk. destruct (last _) as [c|] eqn:E.
    + apply last_Some_elem_of, list_elem_of_filter in E as [Hck Hc].
      injection Hck as <-. apply attr_value_plain. by eapply Forall_forall in Hp.
    + apply last_None in E. apply list_elem_of_fmap in Hk as (c & -> & Hc).
      assert (c ∈ filter (fun c' => JStr (cat_id c') = JStr (cat_id c)) cats) as Hin
        by (by apply list_elem_of_filter).
      rewrite E in Hin. by apply not_elem_of_nil in Hin.
  - intros v Hv. rewrite filter_none; [|apply Forall_forall; intros c Hc; by apply Hv].
    unfold first_option. destruct cats as [|c cs]; [done|]. cbn. f_equal. apply attr_value_plain.
    by apply Forall_inv in Hp.
Qed.

(** C34: Two ways saving an edit form unchanged changes what it did not
    mean to change: a category whose name has a single quote after a
    plain prefix is renamed to that prefix (the [value='...'] attribute
    of line 46 ends at the quote), and an article without a description
    gets the word ["undefined"] as its description (line 131). *)
Theorem admin_edit_corruptions c pre post cats a :
  cat_name c = JStr (pre ++ String "'" post) -> plain_text pre = true ->
  art_description a = JUndefined ->
  body_get (edit_category_body c) "name" = JStr pre /\
  body_get (edit_article_body cats a) "description" = JStr "undefined".
Proof.
  intros Hn Hp Hd. split.
  - unfold edit_category_body. rewrite category_form_name, Hn. cbn [Js.to_string].
    by rewrite input_value_quote.
  - unfold edit_article_body, body_get. rewrite Hd.
    rewrite lookup_insert_ne by done. by rewrite lookup_insert_eq.
Qed.

(** ** Witnesses *)

Lemma admin_create_keeps_numeric_orders_witness :
  MemStore.numeric_orders (MemStore.categories MemStore.seed) /\
  MemStore.numeric_orders (MemStore.categories (fst (MemStore.create_category
    (category_of_body "f1" (category_form_body "Tech" "abc")) MemStore.seed))).
Proof.
  assert (H : MemStore.numeric_orders (MemStore.categories MemStore.seed)) by eval_decide.
  split; [exact H|exact (admin_create_keeps_numeric_orders _ _ _ _ H)].
Defined.

Lemma edit_category_unchanged_witness :
  let c := mkCategory "sports" (JStr "Sports") (JNum 1) in
  NoDup (cat_id <$> MemStore.categories MemStore.seed) /\ c ∈ MemStore.categories MemStore.seed /\
  MemStore.update_category (cat_id c) (body_get (edit_category_body c) "name")
    (body_get (edit_category_body c) "order") MemStore.seed = (MemStore.seed, Ok c).
Proof.
  assert (H1 : NoDup (cat_id <$> MemStore.categories MemStore.seed)) by eval_decide.
  assert (H2 : mkCategory "sports" (JStr "Sports") (JNum 1) ∈ MemStore.categories MemStore.seed)
    by eval_decide.
  split_and!; [exact H1|exact H2|].
  exact (edit_category_unchanged _ _ "Sports" 1 H1 H2 eq_refl eq_refl eq_refl).
Defined.

Lemma admin_edit_erases_published_witness :
  exists i a, list_find (fun x => art_id x = "a1") (MemStore.articles MemStore.seed) = Some (i, a) /\
  exists a', snd (MemStore.update_article "a1"
      (article_of_body "a1" (edit_article_body (MemStore.categories MemStore.seed) a)) MemStore.seed)
      = Ok a'
    /\ art_id a' = art_id a /\ art_publishedAt a' = JUndefined
    /\ art_categoryId a' = JStr (select_value (MemStore.categories MemStore.seed) (art_categoryId a)).
Proof.
  destruct (list_find (fun x => art_id x = "a1") (MemStore.articles MemStore.seed))
    as [[i a]|] eqn:E; [|vm_compute in E; discriminate E].
  exists i, a. split; [reflexivity|].
  exact (admin_edit_erases_published _ _ _ _ _ E).
Defined.

Lemma edit_article_select_witness :
  Forall (fun c => plain_text (cat_id c) = true) (MemStore.categories MemStore.seed) /\
  select_value (MemStore.categories MemStore.seed) (JStr "politics") = "politics" /\
  select_value (MemStore.categories MemStore.seed) (JStr "gone") = "sports".
Proof.
  assert (H : Forall (fun c => plain_text (cat_id c) = true) (MemStore.categories MemStore.seed))
    by (vm_compute; repeat constructor).
  destruct (edit_article_select _ H) as [H1 H2].
  split_and!; [exact H|apply H1; eval_decide|].
  apply H2. intros c Hc. apply list_elem_of_In in Hc. vm_compute in Hc.
  repeat destruct Hc as [<-|Hc]; try discriminate. destruct Hc.
Defined.

(** [Rock 'n' Roll] and the draft article without a description. *)
Lemma admin_edit_corruptions_witness :
  cat_name rock = JStr ("Rock " ++ String "'" "n' Roll") /\ plain_text "Rock " = true /\
  art_description draft = JUndefined /\
  body_get (edit_category_body rock) "name" = JStr "Rock " /\
  body_get (edit_article_body (MemStore.categories MemStore.seed) draft) "description"
    = JStr "undefined".
Proof.
  split_and!; [reflexivity|reflexivity|reflexivity|..];
    apply (admin_edit_corruptions rock "Rock " "n' Roll" (MemStore.categories MemStore.seed) draft
             eq_refl eq_refl eq_refl).
Defined.

End Admin.
