(* ===== verification/AdminFlow.v ===== *)
(** The click handlers of the admin page (src/mock-api/admin/app.js) as
    exchanges of an honest browser with the server ([Session.exchange]):
    the Add buttons of the article form (lines 76-99) and of the ad form
    (lines 170-190), each with its optional image upload to
    [/api/upload]; the Edit/Save buttons of categories, articles and ads
    (lines 42-55, 126-149, 199-216); the Delete buttons (lines 35-39,
    119-123, 192-196), whose [fetch] answer the page ignores; the login
    and logout buttons (lines 228-242); and the requests [loadArticles]
    makes to build the article list (lines 59-117).  [fetchJson] (lines
    3-7) throws on a response that is not ok, which ends the handler.
    The page reloads and the DOM are in [AdminView]; here the
    path of a URL is split at [/] up to a [?] or [#], without
    percent-decoding, which the theorems avoid by taking ids of
    [nanoid]'s alphabet. *)

From S2P Require Import Prelude JsValue SortCompare Records Search MemStore Backend Router Session AdminPage.

Local Open Scope string_scope.

Module Flow.
Import Router Session Admin.

(** How a click handler ends: its requests went through ([Done]),
    [alert(msg); return] ([Alerted]), [fetchJson] threw on a response
    that is not ok ([Threw]), or the handler threw a [TypeError] on an
    [undefined] record ([Crashed]); the last two reject its promise. *)
Inductive Outcome : Type := Done | Alerted (msg : string) | Threw (r : Response) | Crashed.

(** [res.ok]: a status in 200-299. *)
Definition res_ok (r : Response) : bool := ((200 <=? status r) && (status r <? 300))%Z.

(** [data.url] of the upload's JSON answer. *)
Definition url_of (b : RBody) : JsVal := match b with BUrl u => JStr u | _ => JUndefined end.

(** [JSON.stringify] leaves out a key whose value is [undefined]. *)
Definition json_field (k : string) (v : JsVal) (b : Body) : Body :=
  match v with JUndefined => b | _ => <[k := v]> b end.

(** The add-article form as the user left it: what was typed in each
    field, the option chosen in the category [select] ([None]: left on
    the first) and, when a file was chosen, the name [multer] stores it
    under. *)
Record ArticleForm : Type := mkArticleForm {
  fa_title : string;
  fa_desc : string;
  fa_img : string;
  fa_file : option string;
  fa_author : string;
  fa_source : string;
  fa_cat : option string;
  fa_content : string
}.

(** The add-ad form (lines 161-167). *)
Record AdForm : Type := mkAdForm {
  fd_type : string;
  fd_placement : string;
  fd_img : string;
  fd_file : option string;
  fd_click : string
}.

(** [fetch('/api/upload', { method: 'POST', body: formData })] with the
    file in the field [image]. *)
Definition upload_request (fn : string) : Request :=
  mkRequest POST ["api"; "upload"] ∅ ∅ Search.QAbsent (Some fn).

(** Lines 93-97: [{ title, description, imageUrl, author, sourceUrl,
    categoryId, content }]; the text inputs report what was typed without
    line breaks, the [select] the option chosen. *)
Definition add_article_body (cats : list Category) (f : ArticleForm) (img : JsVal) : Body :=
  <["title" := JStr (strip_newlines (fa_title f))]>
  (<["description" := JStr (strip_newlines (fa_desc f))]>
  (json_field "imageUrl" img
  (<["author" := JStr (strip_newlines (fa_author f))]>
  (<["sourceUrl" := JStr (strip_newlines (fa_source f))]>
  (<["categoryId" := JStr (chosen_option cats (fa_cat f))]>
  {["content" := JStr (fa_content f)]}))))).

(** Line 188: [{ type, placement, imageUrl, clickUrl }]. *)
Definition add_ad_body (f : AdForm) (img : JsVal) : Body :=
  <["type" := JStr (strip_newlines (fd_type f))]>
  (<["placement" := JStr (strip_newlines (fd_placement f))]>
  (json_field "imageUrl" img
  {["clickUrl" := JStr (strip_newlines (fd_click f))]})).

(** Lines 202-214 with the prefilled fields left as they are. *)
Definition edit_ad_body (d : Ad) : Body :=
  <["type" := JStr (input_value (Js.to_string (ad_type d)))]>
  (<["placement" := JStr (input_value (Js.to_string (ad_placement d)))]>
  (<["imageUrl" := JStr (input_value (Js.to_string (ad_imageUrl d)))]>
  {["clickUrl" := JStr (input_value (Js.to_string (ad_clickUrl d)))]})).

(** Forms for the witnesses: an article typed with a line break in its
    title and an image file chosen, and an ad without a file. *)
Definition demo_article_form : ArticleForm :=
  mkArticleForm ("Final" ++ String "010" " over") "Ten runs needed" "" (Some "3f2a9c") "Reporter D" ""
    (Some "politics") "Ball by ball".

(** An article filed under a category that does not exist. *)
Definition orphan : Article :=
  mkArticle "n9" (JStr "Monsoon arrives") (JStr "Rain") (JStr "Heavy rain") JNull JNull
    (JStr "2025-09-05") (JStr "weather") JNull.

Definition demo_ad_form : AdForm :=
  mkAdForm "banner" "top" "https://example.com/b.png" None "https://example.com".

(** The path of a URL given to [fetch]: its segments after the leading
    slash, up to a [?] or [#]. *)
Fixpoint split_path (acc s : string) : list string :=
  match s with
  | EmptyString => [acc]
  | String c r =>
      if Ascii.eqb c "/" then acc :: split_path "" r
      else if (Ascii.eqb c "?" || Ascii.eqb c "#")%bool then [acc]
      else split_path (acc ++ String c "") r
  end.

Definition url_path (u : string) : list string :=
  match u with
  | String c r => if Ascii.eqb c "/" then split_path "" r else split_path "" u
  | EmptyString => [""]
  end.

(** The characters of the ids [nanoid] draws ([A-Za-z0-9_-]), which
    pass through an attribute and a URL path unchanged. *)
Definition nanoid_char (c : Ascii.ascii) : bool :=
  let n := Ascii.nat_of_ascii c in
  ((48 <=? n) && (n <=? 57) || (65 <=? n) && (n <=? 90) || (97 <=? n) && (n <=? 122))%nat
  || Ascii.eqb c "_" || Ascii.eqb c "-".

Fixpoint url_safe (s : string) : bool :=
  match s with EmptyString => true | String c r => nanoid_char c && url_safe r end.

Section Page.
Context {S : Type} `{!Backend S} (cfg : Config).

(** Lines 79-92 (and 173-186): the image URL the form sends, the typed
    one or the uploaded file's; [None] when the upload is not ok, where
    the handler alerts and returns. *)
Definition upload_image (typed : string) (file : option string) (σ : Sys S)
    : Sys S * option JsVal :=
  match file with
  | None => (σ, Some (JStr typed))
  | Some fn =>
      match exchange cfg "" (upload_request fn) σ with
      | Some (σ', r) => (σ', if res_ok r then Some (url_of (body r)) else None)
      | None => (σ, None)
      end
  end.

(** [await fetchJson(path, opts)]: the exchange, and a throw when the
    response is not ok.  Here, in [upload_image] and below, the [None]
    of [exchange] (a static file) does not arise: the requests are not
    [GET]s under [/admin] or [/uploads]. *)
Definition fetch_json (fresh : string) (req : Request) (σ : Sys S) : Sys S * Outcome :=
  match exchange cfg fresh req σ with
  | Some (σ', r) => (σ', if res_ok r then Done else Threw r)
  | None => (σ, Done)
  end.

(** Lines 76-97: the Add button of the article form, [cats] being the
    categories the page loaded (line 61). *)
Definition add_article_click (fresh : string) (cats : list Category) (f : ArticleForm)
    (σ : Sys S) : Sys S * Outcome :=
  match upload_image (strip_newlines (fa_img f)) (fa_file f) σ with
  | (σ', None) => (σ', Alerted "Image upload failed")
  | (σ', Some img) =>
      fetch_json fresh (json_request POST ["api"; "articles"] ∅ (add_article_body cats f img)) σ'
  end.

(** Lines 170-188: the Add button of the ad form. *)
Definition add_ad_click (fresh : string) (f : AdForm) (σ : Sys S) : Sys S * Outcome :=
  match upload_image (strip_newlines (fd_img f)) (fd_file f) σ with
  | (σ', None) => (σ', Alerted "Image upload failed")
  | (σ', Some img) => fetch_json fresh (json_request POST ["api"; "ads"] ∅ (add_ad_body f img)) σ'
  end.

(** Lines 35-39, 119-123 and 192-196: the Delete button of the record
    [id] of the collection [coll] ([categories], [articles], [ads]):
    [fetch] on the [data-id] attribute, whose answer the page does not
    look at before it reloads. *)
Definition delete_click (coll id : string) (σ : Sys S) : Sys S :=
  let req := mkRequest DELETE (url_path ("/api/" ++ coll ++ "/" ++ attr_value id)) ∅ ∅
               Search.QAbsent None in
  match exchange cfg "" req σ with
  | Some (σ', _) => σ'
  | None => σ
  end.

(** Lines 228-236: the login button sends the password field's value;
    the page alerts [Logged in] or, when [fetchJson] throws, [Login
    failed]. *)
Definition login_click (pass : string) (σ : Sys S) : Sys S * Outcome :=
  match fetch_json "" (login_request pass) σ with
  | (σ', Done) => (σ', Alerted "Logged in")
  | (σ', _) => (σ', Alerted "Login failed")
  end.

(** Lines 238-242. *)
Definition logout_click (σ : Sys S) : Sys S * Outcome :=
  fetch_json "" (json_request POST ["admin"; "logout"] ∅ ∅) σ.

(** [fetchJson('/api/categories')] (lines 61 and 102); [None] when it
    throws. *)
Definition fetch_categories (σ : Sys S) : Sys S * option (list Category) :=
  match exchange cfg "" (json_request GET ["api"; "categories"] ∅ ∅) σ with
  | Some (σ', r) =>
      (σ', match res_ok r, body r with true, BCategories cs => Some cs | _, _ => None end)
  | None => (σ, None)
  end.

(** Lines 104-116: [for (const c of list)] the articles of each listed
    category, [fetchJson(`/api/categories/${c.id}/articles`)]. *)
Fixpoint load_sections (cs : list Category) (σ : Sys S)
    : Sys S * option (list (Category * list Article)) :=
  match cs with
  | [] => (σ, Some [])
  | c :: cs' =>
      let req := mkRequest GET (url_path ("/api/categories/" ++ cat_id c ++ "/articles")) ∅ ∅
                   Search.QAbsent None in
      match exchange cfg "" req σ with
      | Some (σ', r) =>
          match res_ok r, body r with
          | true, BArticles arts =>
              let '(σ'', rest) := load_sections cs' σ' in (σ'', option_map (cons (c, arts)) rest)
          | _, _ => (σ', None)
          end
      | None => (σ, None)
      end
  end.

(** Lines 59-117, [loadArticles]: the categories for the form's
    [select] (line 61), the categories again (line 102), and the article
    list, one section per category; [None] when a [fetchJson] throws. *)
Definition load_articles (σ : Sys S)
    : Sys S * option (list Category * list (Category * list Article)) :=
  match fetch_categories σ with
  | (σ1, Some cats) =>
      match fetch_categories σ1 with
      | (σ2, Some list) =>
          let '(σ3, secs) := load_sections list σ2 in (σ3, option_map (pair cats) secs)
      | (σ2, None) => (σ2, None)
      end
  | (σ1, None) => (σ1, None)
  end.

(** Lines 42-55: Edit on the row of [shown] in the listed categories
    [list] (its [data-id] attribute), then Save with the form as it was
    filled; [list.find] finding nothing leaves [c] undefined and
    [c.name] throws. *)
Definition edit_category_save (list : list Category) (shown : Category) (σ : Sys S)
    : Sys S * Outcome :=
  let id := attr_value (cat_id shown) in
  match list_find (fun x => cat_id x = id) list with
  | Some (_, c) =>
      fetch_json "" (mkRequest PUT (url_path ("/api/categories/" ++ id)) ∅ (edit_category_body c)
                       Search.QAbsent None) σ
  | None => (σ, Crashed)
  end.

(** Lines 126-147: Edit on the article row [shown_id] fetches the
    article, then Save sends the form as it was filled; [cats] are the
    categories of line 61. *)
Definition edit_article_save (cats : list Category) (shown_id : string) (σ : Sys S)
    : Sys S * Outcome :=
  let id := attr_value shown_id in
  match exchange cfg "" (mkRequest GET (url_path ("/api/articles/" ++ id)) ∅ ∅
                           Search.QAbsent None) σ with
  | Some (σ1, r) =>
      match res_ok r, body r with
      | true, BArticle art =>
          fetch_json "" (mkRequest PUT (url_path ("/api/articles/" ++ id)) ∅
                           (edit_article_body cats art) Search.QAbsent None) σ1
      | false, _ => (σ1, Threw r)
      | true, _ => (σ1, Crashed)
      end
  | None => (σ, Crashed)
  end.

(** Lines 199-214: Edit on the ad row [shown] fetches the ads again and
    finds the one with its [data-id], then Save sends the form as it was
    filled. *)
Definition edit_ad_save (shown : Ad) (σ : Sys S) : Sys S * Outcome :=
  let id := attr_value (ad_id shown) in
  match exchange cfg "" (json_request GET ["api"; "ads"] ∅ ∅) σ with
  | Some (σ1, r) =>
      match res_ok r, body r with
      | true, BAds ads =>
          match list_find (fun x => ad_id x = id) ads with
          | Some (_, d) =>
              fetch_json "" (mkRequest PUT (url_path ("/api/ads/" ++ id)) ∅ (edit_ad_body d)
                               Search.QAbsent None) σ1
          | None => (σ1, Crashed)
          end
      | false, _ => (σ1, Threw r)
      | true, _ => (σ1, Crashed)
      end
  | None => (σ, Crashed)
  end.

End Page.

(** ** Lemmas *)

Lemma res_ok_respond {A} (w : A -> RBody) o :
  res_ok (respond w o) = match o with Ok _ => true | _ => false end.
Proof. by destruct o. Qed.

Section Exchanges.
Context {S : Type} `{!Backend S} (cfg : Config).

Lemma exchange_upload (σ : Sys S) fn :
  exchange cfg "" (upload_request fn) σ =
    Some (σ, if jar_admin σ then resp 200 (BUrl ("/uploads/" ++ fn)) else unauthorized).
Proof. by destruct σ as [s []]. Qed.

Lemma upload_image_spec typed file (σ : Sys S) :
  upload_image cfg typed file σ =
    (σ, match file with
        | None => Some (JStr typed)
        | Some fn => if jar_admin σ then Some (JStr ("/uploads/" ++ fn)) else None
        end).
Proof. destruct file; [|done]. unfold upload_image. rewrite exchange_upload. by destruct (jar_admin σ). Qed.

Lemma exchange_create_article (σ : Sys S) fresh b :
  exchange cfg fresh (json_request POST ["api"; "articles"] ∅ b) σ =
    Some (if jar_admin σ
          then let r := be_create_article (article_of_body fresh b) (store σ) in
               (mkSys (fst r) true, respond BArticle (snd r))
          else (σ, unauthorized)).
Proof.
  destruct σ as [s []]; [|reflexivity]. unfold exchange. cbn [store jar_admin].
  change (dispatch cfg fresh _ s)
    with (Some (call BArticle (be_create_article (article_of_body fresh b) s))).
  cbn [call fst snd]. by rewrite respond_keep.
Qed.

Lemma exchange_create_ad (σ : Sys S) fresh b :
  exchange cfg fresh (json_request POST ["api"; "ads"] ∅ b) σ =
    Some (if jar_admin σ
          then let r := be_create_ad (ad_of_body fresh b) (store σ) in
               (mkSys (fst r) true, respond BAd (snd r))
          else (σ, unauthorized)).
Proof.
  destruct σ as [s []]; [|reflexivity]. unfold exchange. cbn [store jar_admin].
  change (dispatch cfg fresh _ s) with (Some (call BAd (be_create_ad (ad_of_body fresh b) s))).
  cbn [call fst snd]. by rewrite respond_keep.
Qed.

End Exchanges.

(** The record the server builds from the add-article body. *)
Lemma add_article_record fresh cats f u :
  article_of_body fresh (add_article_body cats f (JStr u)) =
    mkArticle fresh (JStr (strip_newlines (fa_title f))) (JStr (strip_newlines (fa_desc f)))
      (JStr (fa_content f)) (JStr u) (JStr (strip_newlines (fa_author f))) JUndefined
      (JStr (chosen_option cats (fa_cat f))) (JStr (strip_newlines (fa_source f))).
Proof. reflexivity. Qed.

Lemma add_ad_record fresh f u :
  ad_of_body fresh (add_ad_body f (JStr u)) =
    mkAd fresh (JStr (strip_newlines (fd_type f))) (JStr (strip_newlines (fd_placement f)))
      (JStr u) (JStr (strip_newlines (fd_click f))).
Proof. reflexivity. Qed.

(** ** Lemmas: ids in attributes and paths *)

Lemma nanoid_char_neq c d : nanoid_char c = true -> nanoid_char d = false -> Ascii.eqb c d = false.
Proof. intros Hc Hd. destruct (Ascii.eqb_spec c d) as [->|]; [congruence|done]. Qed.

Local Ltac not_special Hc :=
  repeat match goal with
  | |- context [Ascii.eqb ?c ?d] => rewrite (nanoid_char_neq c d Hc eq_refl)
  end.

Lemma url_safe_plain s : url_safe s = true -> plain_text s = true.
Proof.
  induction s as [|c r IH]; [done|]. cbn. intros [Hc Hr]%andb_true_iff.
  not_special Hc. by apply IH.
Qed.

Lemma split_path_app acc s t :
  url_safe s = true -> split_path acc (s ++ t) = split_path (acc ++ s) t.
Proof.
  revert acc. induction s as [|c r IH]; intros acc; cbn.
  - by rewrite string_app_nil_r.
  - intros [Hc Hr]%andb_true_iff. rewrite string_app_cons. cbn [split_path].
    not_special Hc. by rewrite IH, <- string_app_assoc.
Qed.

Lemma split_path_safe acc s : url_safe s = true -> split_path acc s = [acc ++ s].
Proof. intros Hs. rewrite <- (string_app_nil_r s) at 1. by rewrite split_path_app. Qed.

Lemma url_path_api coll id :
  url_safe coll = true -> url_safe id = true ->
  url_path ("/api/" ++ coll ++ "/" ++ attr_value id) = ["api"; coll; id].
Proof.
  intros Hc Hi. rewrite (attr_value_plain id (url_safe_plain id Hi)).
  autorewrite with vnc_rw. simpl. autorewrite with vnc_rw.
  rewrite split_path_app by done. simpl. rewrite split_path_safe by done.
  by autorewrite with vnc_rw.
Qed.


Lemma route_delete_article k :
  k <> "" -> find_route routes DELETE ["api"; "articles"; k] = Some (RDeleteArticle, [k]).
Proof. destruct k; [done|]. intros _. vm_compute. reflexivity. Qed.

Lemma route_delete_ad k :
  k <> "" -> find_route routes DELETE ["api"; "ads"; k] = Some (RDeleteAd, [k]).
Proof. destruct k; [done|]. intros _. vm_compute. reflexivity. Qed.

(** The gate passes exactly the requests of a browser holding the cookie. *)
Lemma authorized_browser jar req : authorized (browser_request jar req) = jar.
Proof. by destruct jar. Qed.

Lemma route_update_category k :
  k <> "" -> find_route routes PUT ["api"; "categories"; k] = Some (RUpdateCategory, [k]).
Proof. destruct k; [done|]. intros _. vm_compute. reflexivity. Qed.

Section Deletes.
Context {S : Type} `{!Backend S} (cfg : Config).

(** A [DELETE] the route table sends to [r], from the browser [σ]. *)
Lemma exchange_delete (σ : Sys S) coll id r :
  find_route routes DELETE ["api"; coll; id] = Some (r, [id]) ->
  exchange cfg "" (mkRequest DELETE ["api"; coll; id] ∅ ∅ Search.QAbsent None) σ =
    let '(s', resp) := run_route cfg "" (browser_request (jar_admin σ)
          (mkRequest DELETE ["api"; coll; id] ∅ ∅ Search.QAbsent None)) r [id] (store σ) in
    Some (mkSys s' (apply_cookie (cookie resp) (jar_admin σ)), resp).
Proof.
  intros Hf. unfold exchange.
  rewrite (dispatch_route cfg "" _ (store σ) r [id]);
    [|discriminate|apply static_mount_api|exact Hf].
  by destruct (run_route _ _ _ _ _ _).
Qed.

End Deletes.

Lemma url_path_category_articles k :
  url_safe k = true ->
  url_path ("/api/categories/" ++ k ++ "/articles") = ["api"; "categories"; k; "articles"].
Proof.
  intros Hk. autorewrite with vnc_rw. simpl. autorewrite with vnc_rw.
  rewrite split_path_app by done. simpl. by autorewrite with vnc_rw.
Qed.

(** ** Lemmas: the article list on the in-memory store *)

Section MemoryPage.
Variable cfg : Config.

Lemma exchange_list_categories_mem s jar :
  exchange cfg "" (json_request GET ["api"; "categories"] ∅ ∅) (mkSys s jar) =
    Some (mkSys (MemStore.set_categories (MemStore.sort_categories (MemStore.categories s)) s) jar,
          resp 200 (BCategories (MemStore.sort_categories (MemStore.categories s)))).
Proof. by destruct jar. Qed.

Lemma exchange_category_articles_mem s jar k :
  k <> "" -> url_safe k = true ->
  exchange cfg "" (mkRequest GET (url_path ("/api/categories/" ++ k ++ "/articles")) ∅ ∅
                     Search.QAbsent None) (mkSys s jar) =
    Some (mkSys s jar, resp 200 (BArticles
      (filter (fun a => (art_categoryId a === JStr k)%js = true) (MemStore.articles s)))).
Proof.
  intros Hne Hk. rewrite url_path_category_articles by done. unfold exchange.
  rewrite (dispatch_route cfg "" _ s RCategoryArticles [k]);
    [|discriminate|apply static_mount_api|exact (route_category_articles k Hne)].
  by destruct jar.
Qed.

Lemma load_sections_mem s jar cs :
  Forall (fun c => cat_id c <> "" /\ url_safe (cat_id c) = true) cs ->
  load_sections cfg cs (mkSys s jar) =
    (mkSys s jar, Some ((fun c => (c, filter (fun a => (art_categoryId a === JStr (cat_id c))%js = true)
                                        (MemStore.articles s))) <$> cs)).
Proof.
  induction 1 as [|c cs [Hne Hk] _ IH]; [done|]. cbn [load_sections].
  rewrite exchange_category_articles_mem by done. cbn -[load_sections]. by rewrite IH.
Qed.

End MemoryPage.

Lemma sort_categories_idem cs :
  MemStore.numeric_orders cs ->
  MemStore.sort_categories (MemStore.sort_categories cs) = MemStore.sort_categories cs.
Proof. intros Hn. apply (sort_by_idem MemStore.order_key), MemStore.cat_compare_agrees, Hn. Qed.

Lemma set_categories_twice cs cs' s :
  MemStore.set_categories cs (MemStore.set_categories cs' s) = MemStore.set_categories cs s.
Proof. by destruct s. Qed.

(** [loadArticles] on the in-memory store, as a function of the store. *)
Lemma load_articles_mem cfg (σ : Sys MemStore.t) :
  MemStore.numeric_orders (MemStore.categories (store σ)) ->
  Forall (fun c => cat_id c <> "" /\ url_safe (cat_id c) = true) (MemStore.categories (store σ)) ->
  let cs := MemStore.sort_categories (MemStore.categories (store σ)) in
  load_articles cfg σ =
    (mkSys (MemStore.set_categories cs (store σ)) (jar_admin σ),
     Some (cs, (fun c => (c, filter (fun a => (art_categoryId a === JStr (cat_id c))%js = true)
                                 (MemStore.articles (store σ)))) <$> cs)).
Proof.
  intros Hn Hs cs. destruct σ as [s jar]. cbn [store jar_admin] in *.
  unfold load_articles, fetch_categories. rewrite exchange_list_categories_mem.
  cbn -[MemStore.sort_categories MemStore.set_categories].
  rewrite exchange_list_categories_mem. cbn -[MemStore.sort_categories MemStore.set_categories].
  change (MemStore.categories (MemStore.set_categories ?x s)) with x.
  rewrite (sort_categories_idem _ Hn), set_categories_twice.
  rewrite load_sections_mem; [done|].
  unfold MemStore.sort_categories. by rewrite sort_by_perm.
Qed.

(** ** Theorems *)

Section Clicks.
Context {S : Type} `{!Backend S} (cfg : Config).

(** The Add button of the article form, logged in: the chosen file is
    uploaded and its URL sent (or the typed URL when there is no file),
    and the store is what the backend's create makes of the record;
    the handler completes when the create succeeds and throws otherwise. *)
Theorem admin_add_article (σ : Sys S) fresh cats f :
  jar_admin σ = true ->
  let img := match fa_file f with
             | Some fn => "/uploads/" ++ fn
             | None => strip_newlines (fa_img f)
             end in
  let r := be_create_article (article_of_body fresh (add_article_body cats f (JStr img))) (store σ) in
  add_article_click cfg fresh cats f σ =
    (mkSys (fst r) true, match snd r with Ok _ => Done | o => Threw (respond BArticle o) end).
Proof.
  intros Hj img r. unfold add_article_click. rewrite upload_image_spec, Hj.
  unfold fetch_json. destruct (fa_file f) as [fn|];
    rewrite exchange_create_article, Hj; cbn beta iota zeta; rewrite res_ok_respond;
    subst img r; by destruct (snd _).
Qed.

(** Logged out, neither Add button of the admin page changes the
    store: with a file chosen the upload is refused and the page alerts;
    without one the create is refused with 401 and [fetchJson] throws. *)
Theorem admin_add_logged_out (σ : Sys S) fresh cats f g :
  jar_admin σ = false ->
  add_article_click cfg fresh cats f σ
    = (σ, match fa_file f with
         | Some _ => Alerted "Image upload failed"
         | None => Threw unauthorized
         end) /\
  add_ad_click cfg fresh g σ
    = (σ, match fd_file g with
         | Some _ => Alerted "Image upload failed"
         | None => Threw unauthorized
         end).
Proof.
  intros Hj. unfold add_article_click, add_ad_click, fetch_json.
  rewrite !upload_image_spec, Hj.
  split; [destruct (fa_file f)|destruct (fd_file g)]; try done;
    [rewrite exchange_create_article|rewrite exchange_create_ad]; by rewrite Hj.
Qed.

(** The Delete buttons, on an id [nanoid] could draw: logged in, the
    record is deleted; logged out, the server answers 401 and nothing
    changes, which the page, not looking at the answer, does not report. *)
Theorem admin_delete_clicks (σ : Sys S) id :
  id <> "" -> url_safe id = true ->
  delete_click cfg "categories" id σ
    = (if jar_admin σ then mkSys (fst (be_delete_category id (store σ))) true else σ) /\
  delete_click cfg "articles" id σ
    = (if jar_admin σ then mkSys (fst (be_delete_article id (store σ))) true else σ) /\
  delete_click cfg "ads" id σ
    = (if jar_admin σ then mkSys (fst (be_delete_ad id (store σ))) true else σ).
Proof.
  intros Hne Hs. unfold delete_click. rewrite !url_path_api by done.
  rewrite (exchange_delete _ _ _ _ _ (route_delete_category id Hne)),
    (exchange_delete _ _ _ _ _ (route_delete_article id Hne)),
    (exchange_delete _ _ _ _ _ (route_delete_ad id Hne)).
  destruct σ as [s []]; cbn [store jar_admin run_route param head default];
    unfold handle_delete_category, handle_delete_article, handle_delete_ad,
      require_auth, call_deleted; rewrite !authorized_browser; cbn -[respond_deleted]; [|done].
  by rewrite !respond_deleted_keep.
Qed.

(** The login button: the configured password sets the cookie and the
    page says [Logged in]; any other leaves the browser as it was and
    the page says [Login failed]. *)
Theorem admin_login_click (σ : Sys S) pass :
  login_click cfg pass σ =
    if bool_decide (pass = admin_password cfg) then (mkSys (store σ) true, Alerted "Logged in")
    else (σ, Alerted "Login failed").
Proof.
  unfold login_click, fetch_json, exchange.
  rewrite (dispatch_route cfg "" _ (store σ) RLogin []);
    [|discriminate|reflexivity|exact route_login].
  cbn [run_route]. unfold handle_login, js_strict_eq.
  change (body_get (req_body _) "password") with (JStr pass).
  destruct σ as [s jar]. cbn [store jar_admin].
  by case_bool_decide as Hp; case_bool_decide as Hq; try congruence.
Qed.

(** The logout button clears the cookie. *)
Lemma admin_logout_click (σ : Sys S) : logout_click cfg σ = (mkSys (store σ) false, Done).
Proof. by destruct σ as [s []]. Qed.

End Clicks.

(** C35: On the in-memory store, logged in with a file chosen: the article
    the page creates carries the uploaded file's URL, the typed fields
    without line breaks, the category chosen in the [select] (the first
    listed one when the user left it) and no [publishedAt], and is
    appended to the articles. *)
Theorem admin_add_article_stored cfg (σ : Sys MemStore.t) fresh cats f fn :
  jar_admin σ = true -> fa_file f = Some fn ->
  add_article_click cfg fresh cats f σ =
    (mkSys (MemStore.set_articles (MemStore.articles (store σ) ++
       [mkArticle fresh (JStr (strip_newlines (fa_title f))) (JStr (strip_newlines (fa_desc f)))
          (JStr (fa_content f)) (JStr ("/uploads/" ++ fn)) (JStr (strip_newlines (fa_author f)))
          JUndefined (JStr (chosen_option cats (fa_cat f))) (JStr (strip_newlines (fa_source f)))])
       (store σ)) true, Done).
Proof.
  intros Hj Hf. rewrite (admin_add_article cfg σ fresh cats f Hj), Hf. cbv zeta.
  by rewrite add_article_record.
Qed.

Lemma edit_ad_record id d :
  ad_of_body id (edit_ad_body d) =
    mkAd id (JStr (input_value (Js.to_string (ad_type d))))
      (JStr (input_value (Js.to_string (ad_placement d))))
      (JStr (input_value (Js.to_string (ad_imageUrl d))))
      (JStr (input_value (Js.to_string (ad_clickUrl d)))).
Proof. reflexivity. Qed.

(** An update that gives an ad its own fields changes nothing. *)
Lemma update_ad_same s d d' :
  NoDup (ad_id <$> MemStore.ads s) -> d ∈ MemStore.ads s -> ad_spread d d' = d ->
  MemStore.update_ad (ad_id d) d' s = (s, Ok d).
Proof.
  intros Hnd Hd Hs. destruct (list_find_key_member ad_id _ d Hnd Hd) as (i & Hf & Hi).
  unfold MemStore.update_ad. rewrite Hf, Hs, Hi. by destruct s.
Qed.

(** Saving the edit form of an ad without touching it leaves the store
    as it was when the four fields are plain text. *)
Theorem edit_ad_unchanged s d :
  NoDup (ad_id <$> MemStore.ads s) -> d ∈ MemStore.ads s ->
  Forall (fun v => exists t, v = JStr t /\ plain_text t = true)
    [ad_type d; ad_placement d; ad_imageUrl d; ad_clickUrl d] ->
  MemStore.update_ad (ad_id d) (ad_of_body (ad_id d) (edit_ad_body d)) s = (s, Ok d).
Proof.
  intros Hnd Hd Hp. apply update_ad_same; [done|done|]. rewrite edit_ad_record.
  repeat (apply Forall_cons in Hp as [(? & ? & ?) Hp]).
  destruct d as [id ty pl im cl]. cbn in *. subst. cbn [Js.to_string].
  by rewrite !input_value_plain.
Qed.

(** C36: The article list of the admin page shows an article exactly when
    its [categoryId] is the id of a stored category: it is built from
    one request per listed category.  An article whose category does not
    exist (or was given as a number) is in no section, so the page can
    neither edit nor delete it. *)
Theorem admin_list_hides_orphans cfg (σ : Sys MemStore.t) a :
  MemStore.numeric_orders (MemStore.categories (store σ)) ->
  Forall (fun c => cat_id c <> "" /\ url_safe (cat_id c) = true) (MemStore.categories (store σ)) ->
  a ∈ MemStore.articles (store σ) ->
  match snd (load_articles cfg σ) with
  | Some (_, secs) =>
      (exists c arts, (c, arts) ∈ secs /\ a ∈ arts) <->
      (exists c, c ∈ MemStore.categories (store σ) /\ art_categoryId a = JStr (cat_id c))
  | None => False
  end.
Proof.
  intros Hn Hs Ha. rewrite (load_articles_mem cfg σ Hn Hs). cbn [snd].
  assert (Hp : MemStore.sort_categories (MemStore.categories (store σ))
               ≡ₚ MemStore.categories (store σ)) by apply sort_by_perm.
  split.
  - intros (c & arts & (c' & [= <- ->] & Hc)%list_elem_of_fmap & Hin).
    apply list_elem_of_filter in Hin as [Heq _]. unfold js_strict_eq in Heq.
    apply bool_decide_eq_true in Heq. exists c. split; [by rewrite <- Hp|done].
  - intros (c & Hc & Heq). eexists c, _. split.
    + apply list_elem_of_fmap. exists c. split; [done|by rewrite Hp].
    + apply list_elem_of_filter. split; [|done]. unfold js_strict_eq. by apply bool_decide_eq_true.
Qed.

(** C32: Saving a category's edit form untouched through the page, logged in,
    leaves the in-memory store as it was and completes, for a category
    with a [nanoid] id, a plain name and an integer order: the row's
    [data-id], [list.find], the rendered form and the [PUT] together. *)
Theorem admin_edit_category_unchanged cfg (σ : Sys MemStore.t) list c n z :
  jar_admin σ = true -> NoDup (cat_id <$> list) -> c ∈ list ->
  NoDup (cat_id <$> MemStore.categories (store σ)) -> c ∈ MemStore.categories (store σ) ->
  cat_id c <> "" -> url_safe (cat_id c) = true ->
  cat_name c = JStr n -> plain_text n = true -> cat_order c = JNum z ->
  edit_category_save cfg list c σ = (σ, Done).
Proof.
  intros Hj Hnl Hcl Hnd Hc Hne Hs Hn Hp Hz. unfold edit_category_save. cbv zeta.
  change ("/api/categories/" ++ attr_value (cat_id c))
    with ("/api/" ++ "categories" ++ "/" ++ attr_value (cat_id c)).
  rewrite url_path_api by done. rewrite (attr_value_plain _ (url_safe_plain _ Hs)).
  destruct (list_find_key_member cat_id list c Hnl Hcl) as (i & Hf & _). rewrite Hf.
  destruct (edit_category_fields c n z Hn Hp Hz) as [H1 H2].
  destruct σ as [s jar]. cbn [store jar_admin] in *. subst jar.
  unfold fetch_json, exchange.
  rewrite (dispatch_route cfg "" _ s RUpdateCategory [cat_id c]);
    [|discriminate|apply static_mount_api|exact (route_update_category _ Hne)].
  cbn [run_route param head default]. unfold handle_update_category, require_auth.
  rewrite authorized_browser. cbn [req_body browser_request call fst snd].
  rewrite (update_category_same s c) by done. by destruct s.
Qed.

(** The page in use on the in-memory server: a Delete click before
    logging in changes nothing (and the page shows no error), a wrong
    password is refused, the right one logs in, and the same Delete then
    removes the category [sports] with its articles. *)
Example admin_page_scenario :
  let σ0 := mkSys MemStore.seed false in
  delete_click demo_cfg "categories" "sports" σ0 = σ0 /\
  login_click demo_cfg "virat" σ0 = (σ0, Alerted "Login failed") /\
  login_click demo_cfg "virat123" σ0 = (mkSys MemStore.seed true, Alerted "Logged in") /\
  delete_click demo_cfg "categories" "sports" (mkSys MemStore.seed true)
    = mkSys (fst (MemStore.delete_category "sports" MemStore.seed)) true /\
  MemStore.articles (fst (MemStore.delete_category "sports" MemStore.seed))
    = filter (fun a => art_categoryId a <> JStr "sports") (MemStore.articles MemStore.seed).
Proof. vm_compute. split_and!; reflexivity. Qed.

(** ** Witnesses *)

Lemma admin_add_article_stored_witness :
  let σ := mkSys MemStore.seed true in
  jar_admin σ = true /\ fa_file demo_article_form = Some "3f2a9c" /\
  add_article_click demo_cfg "1700000000009" (MemStore.categories MemStore.seed)
    demo_article_form σ =
    (mkSys (MemStore.set_articles (MemStore.articles MemStore.seed ++
       [mkArticle "1700000000009" (JStr "Final over") (JStr "Ten runs needed")
          (JStr "Ball by ball") (JStr "/uploads/3f2a9c") (JStr "Reporter D") JUndefined
          (JStr "politics") (JStr "")]) MemStore.seed) true, Done).
Proof.
  split_and!; [reflexivity|reflexivity|].
  exact (admin_add_article_stored demo_cfg (mkSys MemStore.seed true) "1700000000009"
           (MemStore.categories MemStore.seed) demo_article_form "3f2a9c" eq_refl eq_refl).
Defined.

Lemma admin_add_logged_out_witness :
  let σ := mkSys MemStore.seed false in
  jar_admin σ = false /\
  add_article_click demo_cfg "1700000000010" [] demo_article_form σ
    = (σ, Alerted "Image upload failed") /\
  add_ad_click demo_cfg "1700000000010" demo_ad_form σ = (σ, Threw unauthorized).
Proof.
  split; [reflexivity|].
  exact (admin_add_logged_out demo_cfg (mkSys MemStore.seed false) "1700000000010" []
           demo_article_form demo_ad_form eq_refl).
Defined.

Lemma edit_ad_unchanged_witness :
  let d := mkAd "ad1" (JStr "banner") (JStr "top")
             (JStr "https://picsum.photos/800/150?random=10") (JStr "https://example.com/ad1") in
  NoDup (ad_id <$> MemStore.ads MemStore.seed) /\ d ∈ MemStore.ads MemStore.seed /\
  Forall (fun v => exists t, v = JStr t /\ plain_text t = true)
    [ad_type d; ad_placement d; ad_imageUrl d; ad_clickUrl d] /\
  MemStore.update_ad (ad_id d) (ad_of_body (ad_id d) (edit_ad_body d)) MemStore.seed
    = (MemStore.seed, Ok d).
Proof.
  cbv zeta.
  assert (Hn : NoDup (ad_id <$> MemStore.ads MemStore.seed)) by eval_decide.
  assert (Hm : mkAd "ad1" (JStr "banner") (JStr "top")
             (JStr "https://picsum.photos/800/150?random=10") (JStr "https://example.com/ad1")
             ∈ MemStore.ads MemStore.seed) by (by left).
  assert (Hp : Forall (fun v => exists t, v = JStr t /\ plain_text t = true)
    [JStr "banner"; JStr "top"; JStr "https://picsum.photos/800/150?random=10";
     JStr "https://example.com/ad1"])
    by (repeat constructor; eexists; split; reflexivity).
  split_and!; [exact Hn|exact Hm|exact Hp|].
  exact (edit_ad_unchanged MemStore.seed _ Hn Hm Hp).
Defined.

Lemma admin_list_hides_orphans_witness :
  let σ := mkSys (MemStore.set_articles (MemStore.articles MemStore.seed ++ [orphan]) MemStore.seed) true in
  MemStore.numeric_orders (MemStore.categories (store σ)) /\
  Forall (fun c => cat_id c <> "" /\ url_safe (cat_id c) = true) (MemStore.categories (store σ)) /\
  orphan ∈ MemStore.articles (store σ) /\
  match snd (load_articles demo_cfg σ) with
  | Some (_, secs) =>
      (exists c arts, (c, arts) ∈ secs /\ orphan ∈ arts) <->
      (exists c, c ∈ MemStore.categories (store σ) /\ art_categoryId orphan = JStr (cat_id c))
  | None => False
  end.
Proof.
  cbv zeta.
  assert (Hn : MemStore.numeric_orders (MemStore.categories MemStore.seed))
    by (repeat constructor; eexists; reflexivity).
  assert (Hs : Forall (fun c => cat_id c <> "" /\ url_safe (cat_id c) = true)
                 (MemStore.categories MemStore.seed))
    by (repeat constructor; (discriminate || reflexivity)).
  assert (Ha : orphan ∈ MemStore.articles
                 (MemStore.set_articles (MemStore.articles MemStore.seed ++ [orphan]) MemStore.seed))
    by (apply elem_of_app; right; by left).
  split_and!; [exact Hn|exact Hs|exact Ha|].
  exact (admin_list_hides_orphans demo_cfg
    (mkSys (MemStore.set_articles (MemStore.articles MemStore.seed ++ [orphan]) MemStore.seed) true)
    orphan Hn Hs Ha).
Defined.

Lemma admin_edit_category_unchanged_witness :
  let σ := mkSys MemStore.seed true in
  let c := mkCategory "politics" (JStr "Politics") (JNum 2) in
  let list := MemStore.categories MemStore.seed in
  jar_admin σ = true /\ NoDup (cat_id <$> list) /\ c ∈ list /\
  NoDup (cat_id <$> MemStore.categories (store σ)) /\ c ∈ MemStore.categories (store σ) /\
  cat_id c <> "" /\ url_safe (cat_id c) = true /\
  cat_name c = JStr "Politics" /\ plain_text "Politics" = true /\ cat_order c = JNum 2 /\
  edit_category_save demo_cfg list c σ = (σ, Done).
Proof.
  cbv zeta.
  assert (Hnd : NoDup (cat_id <$> MemStore.categories MemStore.seed)) by eval_decide.
  assert (Hc : mkCategory "politics" (JStr "Politics") (JNum 2) ∈ MemStore.categories MemStore.seed)
    by (right; left).
  split_and!; [done..|].
  exact (admin_edit_category_unchanged demo_cfg (mkSys MemStore.seed true)
           (MemStore.categories MemStore.seed) _ "Politics" 2
           eq_refl Hnd Hc Hnd Hc ltac:(discriminate) eq_refl eq_refl eq_refl eq_refl).
Defined.

End Flow.
