(* ===== verification/AdminView.v ===== *)
(** The admin page as the browser runs it (src/mock-api/admin/app.js):
    what each [loadX] function puts in the container [#content], the
    click handlers it installs on the buttons it renders, and the
    asynchronous functions interleaved at their [await]s.

    A handler or an [async] function is a [Task]: its synchronous
    statements ([container.innerHTML = ...], [appendChild], [onclick =],
    [alert], [style.display =], calling another [async] function
    without awaiting it) up to
    its next [await fetch(...)], whose continuation receives the
    response.  The page [Page] pairs the browser-server system of
    [Session] with the container ([Screen]: the nodes, the installed
    handlers, what it shows outside the container) and the fetches in
    flight.  A step of the page is a click on a button that has a handler, with what the
    user typed in the inputs, or the arrival of the response of one
    fetch in flight, in any order.  The server handles a request when
    its response arrives; the [res.json()] awaits, which send nothing,
    are not separate steps.  The theorems: the page is never stuck, what
    the categories tab and its Delete buttons show, the duplicate list
    of two loads in flight, and the login and logout buttons following
    the cookie on every reachable page. *)

From S2P Require Import Prelude JsValue SortCompare Records Search MemStore Backend Router Session AdminPage AdminFlow.

Local Open Scope string_scope.

Module View.
Import Router Session Admin Flow.

(** ** The DOM the page builds *)

Local Set Warnings "-register-all".

(** [el(tag, inner)] (line 9) with the children appended to it, or the
    nodes [container.innerHTML = html] parses. *)
Inductive Node : Type :=
| Elem (tag : string) (inner : string) (kids : list Node)
| Markup (html : string).

(** A button the user can click: [#id], or a button of a class with its
    [data-id] attribute as [getAttribute] reads it. *)
Inductive Key : Type := KId (id : string) | KClass (cls : string) (data_id : string).

#[export] Instance Key_eq_dec : EqDecision Key.
Proof. solve_decision. Defined.

(** What the user typed in the inputs, by element id, and the file
    chosen in a file input (the name [multer] stores it under). *)
Definition Inputs := gmap string string.

(** The [async] functions a handler calls without awaiting them. *)
Inductive Proc : Type := LoadCategories | LoadArticles | LoadAds.

Inductive Task : Type :=
| TDone                                    (* the function returns *)
| TThrow                                   (* it throws: its promise rejects *)
| TClear (k : Task)                        (* container.innerHTML = '' *)
| TSetHtml (html : string) (k : Task)      (* container.innerHTML = html *)
| TAppend (n : Node) (k : Task)            (* container.appendChild(n) *)
| TOn (key : Key) (h : Inputs -> Task) (k : Task)   (* button.onclick = h *)
| TAlert (msg : string) (k : Task)         (* alert(msg) *)
| TDisplay (id v : string) (k : Task)      (* getElementById(id).style.display = v *)
| TCall (f : Proc) (k : Task)              (* f(container), not awaited *)
| TFetch (req : Request) (k : Response -> Task).   (* await fetch(req) *)

(** [await fetchJson(req)] (lines 3-7): a response that is not ok
    throws. *)
Definition fetch_json (req : Request) (k : RBody -> Task) : Task :=
  TFetch req (fun r => if res_ok r then k (body r) else TThrow).

(** [.value] of a text input: what was typed without line breaks, else
    what the page put in it. *)
Definition text_field (inp : Inputs) (id prefill : string) : string :=
  match inp !! id with Some t => strip_newlines t | None => prefill end.

(** [.value] of an [<input type='number'>], prefilled with [raw]. *)
Definition number_field (inp : Inputs) (id raw : string) : string :=
  number_input_value (default raw (inp !! id)).

(** [.value] of a [select] or [textarea]: the option chosen or the text
    typed, else the value the page gave it. *)
Definition raw_field (inp : Inputs) (id prefill : string) : string := default prefill (inp !! id).

Definition nl : string := String "010" EmptyString.

(** ** The categories tab (lines 11-57) *)

(** Line 16. *)
Definition category_item (c : Category) : Node :=
  Elem "li" ("<strong>" ++ Js.to_string (cat_name c) ++ "</strong> (order: " ++
    Js.to_string (cat_order c) ++ ") <button data-id='" ++ cat_id c ++
    "' class='edit'>Edit</button> <button data-id='" ++ cat_id c ++
    "' class='del'>Delete</button>") [].

(** Lines 22-25. *)
Definition add_category_html : string :=
  "<h3>Add Category</h3>" ++ nl ++
  "    <input id='cat-name' placeholder='Name' />" ++ nl ++
  "    <input id='cat-order' placeholder='Order' type='number' />" ++ nl ++
  "    <button id='add-cat'>Add</button>".

(** Lines 45-48. *)
Definition edit_category_html (c : Category) : string :=
  "<h3>Edit Category</h3>" ++ nl ++
  "      <input id='edit-cat-name' value='" ++ Js.to_string (cat_name c) ++ "' />" ++ nl ++
  "      <input id='edit-cat-order' type='number' value='" ++ Js.to_string (cat_order c) ++
  "' />" ++ nl ++
  "      <button id='save-cat'>Save</button>".

(** [querySelectorAll('.cls').forEach(btn => btn.onclick = h)] over the
    buttons rendered for [ids]. *)
Definition on_each (cls : string) (ids : list string) (h : string -> Inputs -> Task)
    (k : Task) : Task :=
  foldr (fun id k => TOn (KClass cls id) (h id) k) k ids.

(** The [DELETE] of a Delete button (lines 37, 121, 194). *)
Definition delete_request (coll id : string) : Request :=
  mkRequest DELETE (url_path ("/api/" ++ coll ++ "/" ++ id)) ∅ ∅ Search.QAbsent None.

(** Lines 35-39, 119-123, 192-196: [fetch], not [fetchJson]: the answer
    is not looked at before the reload. *)
Definition delete_handler (coll : string) (reload : Proc) (id : string) (_ : Inputs) : Task :=
  TFetch (delete_request coll id) (fun _ => TCall reload TDone).

(** Lines 28-33. *)
Definition add_category_handler (inp : Inputs) : Task :=
  fetch_json (json_request POST ["api"; "categories"] ∅
                (category_form_body (text_field inp "cat-name" "")
                   (number_field inp "cat-order" "")))
    (fun _ => TCall LoadCategories TDone).

(** Lines 50-55: the Save button of the category edit form. *)
Definition save_category_handler (id : string) (c : Category) (inp : Inputs) : Task :=
  fetch_json (mkRequest PUT (url_path ("/api/categories/" ++ id)) ∅
                (category_form_body
                   (text_field inp "edit-cat-name" (input_value (Js.to_string (cat_name c))))
                   (number_field inp "edit-cat-order" (attr_value (Js.to_string (cat_order c)))))
                Search.QAbsent None)
    (fun _ => TCall LoadCategories TDone).

(** Lines 42-56: [list.find] in the list the page loaded; an id it does
    not find leaves [c] undefined and [c.name] throws. *)
Definition edit_category_handler (list : list Category) (id : string) (_ : Inputs) : Task :=
  match list_find (fun x => cat_id x = id) list with
  | Some (_, c) => TSetHtml (edit_category_html c) (TOn (KId "save-cat") (save_category_handler id c) TDone)
  | None => TThrow
  end.

(** [appendChild] of each node in turn. *)
Definition append_all (ns : list Node) (k : Task) : Task := foldr TAppend k ns.

(** Lines 14-19 and 21-26: the list and the add form. *)
Definition categories_view (cs : list Category) : list Node :=
  [Elem "ul" "" (category_item <$> cs); Elem "div" add_category_html []].

(** Lines 14-56, once [fetchJson('/api/categories')] has answered. *)
Definition categories_loaded (b : RBody) : Task :=
  match b with
  | BCategories list =>
      let ids := (fun c => attr_value (cat_id c)) <$> list in
      append_all (categories_view list)
      (TOn (KId "add-cat") add_category_handler
      (on_each "del" ids (delete_handler "categories" LoadCategories)
      (on_each "edit" ids (edit_category_handler list) TDone)))
  | _ => TThrow
  end.

Definition categories_request : Request := json_request GET ["api"; "categories"] ∅ ∅.

(** Lines 11-57, [loadCategories]. *)
Definition load_categories : Task := TClear (fetch_json categories_request categories_loaded).

(** ** The articles tab (lines 59-151) *)

(** Line 71 and 135: the [option]s of the category [select]. *)
Definition category_option (c : Category) : string :=
  "<option value='" ++ cat_id c ++ "'>" ++ Js.to_string (cat_name c) ++ "</option>".

Definition category_option_sel (sel : JsVal) (c : Category) : string :=
  "<option value='" ++ cat_id c ++ "' " ++
  (if bool_decide (JStr (cat_id c) = sel) then "selected" else "") ++ ">" ++
  Js.to_string (cat_name c) ++ "</option>".

(** Lines 64-73. *)
Definition add_article_html (cats : list Category) : string :=
  "<h3>Add Article</h3>" ++ nl ++
  "    <input id='a-title' placeholder='Title' />" ++ nl ++
  "    <input id='a-desc' placeholder='Description' />" ++ nl ++
  "  <input id='a-img' placeholder='Image URL' />" ++ nl ++
  "  <input type='file' id='a-img-file' accept='image/*' />" ++ nl ++
  "    <input id='a-author' placeholder='Author' />" ++ nl ++
  "    <input id='a-source' placeholder='Source URL' />" ++ nl ++
  "    <select id='a-cat'>" ++ String.concat "" (category_option <$> cats) ++ "</select>" ++ nl ++
  "    <textarea id='a-content' placeholder='Content'></textarea>" ++ nl ++
  "    <button id='add-article'>Add</button>".

(** Line 106: the section header; line 109: an empty section. *)
Definition section_header (c : Category) : Node := Elem "h4" (Js.to_string (cat_name c)) [].

Definition no_articles : Node := Elem "div" "<em>No articles</em>" [].

(** Line 112. *)
Definition article_row (a : Article) : Node :=
  Elem "div" ("<strong>" ++ Js.to_string (art_title a) ++ "</strong> <button data-id='" ++
    art_id a ++ "' class='edit-article'>Edit</button> <button data-id='" ++ art_id a ++
    "' class='del-article'>Delete</button>") [].

(** Lines 129-137. *)
Definition edit_article_html (cats : list Category) (art : Article) : string :=
  "<h3>Edit Article</h3>" ++ nl ++
  "      <input id='edit-title' value='" ++ Js.to_string (art_title art) ++ "' />" ++ nl ++
  "      <input id='edit-desc' value='" ++ Js.to_string (art_description art) ++ "' />" ++ nl ++
  "      <input id='edit-img' value='" ++ Js.to_string (art_imageUrl art) ++ "' />" ++ nl ++
  "      <input id='edit-author' value='" ++ Js.to_string (art_author art) ++ "' />" ++ nl ++
  "      <input id='edit-source' value='" ++ Js.to_string (art_sourceUrl art) ++ "' />" ++ nl ++
  "      <select id='edit-cat'>" ++
  String.concat "" (category_option_sel (art_categoryId art) <$> cats) ++ "</select>" ++ nl ++
  "      <textarea id='edit-content'>" ++ Js.to_string (art_content art) ++ "</textarea>" ++ nl ++
  "      <button id='save-article'>Save</button>".

(** The image of an add form (lines 79-92, 173-186): with a file chosen,
    [fetch('/api/upload')] and [data.url], or [alert] and [return] when
    the answer is not ok; else the typed URL. *)
Definition with_image (inp : Inputs) (file_id img_id : string) (k : JsVal -> Task) : Task :=
  match inp !! file_id with
  | Some fn => TFetch (upload_request fn) (fun r =>
      if res_ok r then k (url_of (body r)) else TAlert "Image upload failed" TDone)
  | None => k (JStr (text_field inp img_id ""))
  end.

(** Lines 76-99, [cats] being the categories of line 61: the form as
    the user left it ([a-cat] is the option chosen in the [select]) and
    the body of [add_article_body]. *)
Definition add_article_handler (cats : list Category) (inp : Inputs) : Task :=
  let f := mkArticleForm (raw_field inp "a-title" "") (raw_field inp "a-desc" "")
             (raw_field inp "a-img" "") (inp !! "a-img-file") (raw_field inp "a-author" "")
             (raw_field inp "a-source" "") (inp !! "a-cat") (raw_field inp "a-content" "") in
  with_image inp "a-img-file" "a-img" (fun img =>
    fetch_json (json_request POST ["api"; "articles"] ∅ (add_article_body cats f img))
      (fun _ => TCall LoadArticles TDone)).

(** Lines 139-149: the Save button of the article edit form. *)
Definition save_article_body (cats : list Category) (a : Article) (inp : Inputs) : Body :=
  <["title" := JStr (text_field inp "edit-title" (input_value (Js.to_string (art_title a))))]>
  (<["description" := JStr (text_field inp "edit-desc" (input_value (Js.to_string (art_description a))))]>
  (<["content" := JStr (raw_field inp "edit-content" (textarea_value (Js.to_string (art_content a))))]>
  (<["imageUrl" := JStr (text_field inp "edit-img" (input_value (Js.to_string (art_imageUrl a))))]>
  (<["author" := JStr (text_field inp "edit-author" (input_value (Js.to_string (art_author a))))]>
  (<["categoryId" := JStr (raw_field inp "edit-cat" (select_value cats (art_categoryId a)))]>
  {["sourceUrl" := JStr (text_field inp "edit-source" (input_value (Js.to_string (art_sourceUrl a))))]}))))).

Definition save_article_handler (cats : list Category) (id : string) (a : Article) (inp : Inputs)
    : Task :=
  fetch_json (mkRequest PUT (url_path ("/api/articles/" ++ id)) ∅ (save_article_body cats a inp)
                Search.QAbsent None)
    (fun _ => TCall LoadArticles TDone).

(** Lines 126-150: the article is fetched again, the form replaces the
    container. *)
Definition edit_article_handler (cats : list Category) (id : string) (_ : Inputs) : Task :=
  fetch_json (mkRequest GET (url_path ("/api/articles/" ++ id)) ∅ ∅ Search.QAbsent None) (fun b =>
    match b with
    | BArticle art =>
        TSetHtml (edit_article_html cats art)
          (TOn (KId "save-article") (save_article_handler cats id art) TDone)
    | _ => TThrow
    end).

(** Lines 102-123: [for (const c of list)] ([cs]) one awaited [fetchJson] per
    category, the section appended to [articlesDiv] ([acc]), which is
    attached after the loop; then the Delete and Edit buttons of the
    articles listed ([seen]) get their handlers. *)
Fixpoint sections (cats cs : list Category) (acc : list Node) (seen : list Article) : Task :=
  match cs with
  | [] =>
      let ids := (fun a => attr_value (art_id a)) <$> seen in
      TAppend (Elem "div" "" acc)
      (on_each "del-article" ids (delete_handler "articles" LoadArticles)
      (on_each "edit-article" ids (edit_article_handler cats) TDone))
  | c :: rest =>
      fetch_json (mkRequest GET (url_path ("/api/categories/" ++ cat_id c ++ "/articles")) ∅ ∅
                    Search.QAbsent None) (fun b =>
        match b with
        | BArticles arts =>
            sections cats rest
              (acc ++ section_header c :: (if bool_decide (arts = []) then [no_articles]
                                           else article_row <$> arts))%list
              ((seen ++ arts)%list)
        | _ => TThrow
        end)
  end.

(** Lines 59-151, [loadArticles]. *)
Definition load_articles : Task :=
  TClear (fetch_json (json_request GET ["api"; "categories"] ∅ ∅) (fun b =>
    match b with
    | BCategories cats =>
        TAppend (Elem "div" (add_article_html cats) [])
        (TOn (KId "add-article") (add_article_handler cats)
        (fetch_json (json_request GET ["api"; "categories"] ∅ ∅) (fun b' =>
          match b' with
          | BCategories list => sections cats list [] []
          | _ => TThrow
          end)))
    | _ => TThrow
    end)).

(** ** The ads tab (lines 153-221) *)

(** Line 157. *)
Definition ad_item (d : Ad) : Node :=
  Elem "div" ("<img src='" ++ Js.to_string (ad_imageUrl d) ++
    "' alt='ad' style='max-width:200px'/> <div>" ++ Js.to_string (ad_placement d) ++ " - " ++
    Js.to_string (ad_type d) ++ " <button data-id='" ++ ad_id d ++
    "' class='edit-ad'>Edit</button> <button data-id='" ++ ad_id d ++
    "' class='del-ad'>Delete</button></div>") [].

(** Lines 161-167. *)
Definition add_ad_html : string :=
  "<h3>Add Ad</h3>" ++ nl ++
  "    <input id='ad-type' placeholder='type (banner/interstitial)' />" ++ nl ++
  "    <input id='ad-placement' placeholder='placement (top/bottom/interstitial)' />" ++ nl ++
  "  <input id='ad-img' placeholder='imageUrl' />" ++ nl ++
  "  <input type='file' id='ad-img-file' accept='image/*' />" ++ nl ++
  "    <input id='ad-click' placeholder='clickUrl' />" ++ nl ++
  "    <button id='add-ad'>Add</button>".

(** Lines 202-207. *)
Definition edit_ad_html (d : Ad) : string :=
  "<h3>Edit Ad</h3>" ++ nl ++
  "      <input id='edit-ad-type' value='" ++ Js.to_string (ad_type d) ++ "' />" ++ nl ++
  "      <input id='edit-ad-placement' value='" ++ Js.to_string (ad_placement d) ++ "' />" ++ nl ++
  "      <input id='edit-ad-img' value='" ++ Js.to_string (ad_imageUrl d) ++ "' />" ++ nl ++
  "      <input id='edit-ad-click' value='" ++ Js.to_string (ad_clickUrl d) ++ "' />" ++ nl ++
  "      <button id='save-ad'>Save</button>".

(** Lines 170-190. *)
Definition add_ad_handler (inp : Inputs) : Task :=
  let f := mkAdForm (raw_field inp "ad-type" "") (raw_field inp "ad-placement" "")
             (raw_field inp "ad-img" "") (inp !! "ad-img-file") (raw_field inp "ad-click" "") in
  with_image inp "ad-img-file" "ad-img" (fun img =>
    fetch_json (json_request POST ["api"; "ads"] ∅ (add_ad_body f img))
      (fun _ => TCall LoadAds TDone)).

(** Lines 209-216. *)
Definition save_ad_handler (id : string) (d : Ad) (inp : Inputs) : Task :=
  fetch_json (mkRequest PUT (url_path ("/api/ads/" ++ id)) ∅
      (<["type" := JStr (text_field inp "edit-ad-type" (input_value (Js.to_string (ad_type d))))]>
      (<["placement" := JStr (text_field inp "edit-ad-placement"
                                (input_value (Js.to_string (ad_placement d))))]>
      (<["imageUrl" := JStr (text_field inp "edit-ad-img" (input_value (Js.to_string (ad_imageUrl d))))]>
      {["clickUrl" := JStr (text_field inp "edit-ad-click" (input_value (Js.to_string (ad_clickUrl d))))]})))
      Search.QAbsent None)
    (fun _ => TCall LoadAds TDone).

(** Lines 199-217: the ads are fetched again and the one with the
    button's [data-id] found; none leaves [ad] undefined and [ad.type]
    throws. *)
Definition edit_ad_handler (id : string) (_ : Inputs) : Task :=
  fetch_json (json_request GET ["api"; "ads"] ∅ ∅) (fun b =>
    match b with
    | BAds ads =>
        match list_find (fun x => ad_id x = id) ads with
        | Some (_, d) => TSetHtml (edit_ad_html d) (TOn (KId "save-ad") (save_ad_handler id d) TDone)
        | None => TThrow
        end
    | _ => TThrow
    end).

(** Lines 156-158 and 160-168. *)
Definition ads_view (ads : list Ad) : list Node :=
  [Elem "div" "" (ad_item <$> ads); Elem "div" add_ad_html []].

(** Lines 156-220, once [fetchJson('/api/ads')] has answered; line 220
    installs nothing. *)
Definition ads_loaded (b : RBody) : Task :=
  match b with
  | BAds ads =>
      let ids := (fun d => attr_value (ad_id d)) <$> ads in
      append_all (ads_view ads)
      (TOn (KId "add-ad") add_ad_handler
      (on_each "del-ad" ids (delete_handler "ads" LoadAds)
      (on_each "edit-ad" ids edit_ad_handler TDone)))
  | _ => TThrow
  end.

(** Lines 153-221, [loadAds]. *)
Definition load_ads : Task :=
  TClear (fetch_json (json_request GET ["api"; "ads"] ∅ ∅) ads_loaded).

Definition proc_body (f : Proc) : Task :=
  match f with
  | LoadCategories => load_categories
  | LoadArticles => load_articles
  | LoadAds => load_ads
  end.

(** ** The page around the container (lines 223-245) *)

(** Lines 229-235: after [fetchJson('/admin/login')], the login button
    is hidden and the logout button shown, then [alert('Logged in')];
    a response that is not ok makes [fetchJson] throw into the [catch]. *)
Definition login_cont (r : Response) : Task :=
  if res_ok r
  then TDisplay "btn-login" "none" (TDisplay "btn-logout" "inline-block" (TAlert "Logged in" TDone))
  else TAlert "Login failed" TDone.

(** Lines 228-236: the login button sends the password field's value. *)
Definition login_handler (inp : Inputs) : Task :=
  TFetch (login_request (text_field inp "admin-pass" "")) login_cont.

Definition logout_request : Request := json_request POST ["admin"; "logout"] ∅ ∅.

(** Lines 240-241. *)
Definition logout_cont (b : RBody) : Task :=
  TDisplay "btn-login" "inline-block" (TDisplay "btn-logout" "none" TDone).

(** Lines 238-242. *)
Definition logout_handler (_ : Inputs) : Task := fetch_json logout_request logout_cont.

(** The handlers of the tabs and of the login and logout buttons, set
    once at start-up (lines 223-225, 228, 238). *)
Definition shell : list (Key * (Inputs -> Task)) :=
  [(KId "tab-categories", fun _ => TCall LoadCategories TDone);
   (KId "tab-articles", fun _ => TCall LoadArticles TDone);
   (KId "tab-ads", fun _ => TCall LoadAds TDone);
   (KId "btn-login", login_handler);
   (KId "btn-logout", logout_handler)].

(** ** The page and its steps *)

(** The container's children, the click handlers installed on the
    buttons in it, and what the page has shown outside the container:
    its alerts and the [display] it gave the login and logout buttons,
    in order. *)
(** What the page does outside the container. *)
Inductive Effect : Type := EAlert (msg : string) | EDisplay (id v : string).

Record Screen : Type := mkScreen {
  dom : list Node;
  handlers : list (Key * (Inputs -> Task));
  outside : list Effect
}.

Definition blank : Screen := mkScreen [] [] [].

(** An [await fetch(req)] in flight and what runs when it answers. *)
Record Pending : Type := mkPending { p_req : Request; p_k : Response -> Task }.

(** The handler a click on [key] runs: [onclick] holds one function. *)
Definition lookup_handler (key : Key) (hs : list (Key * (Inputs -> Task))) : option (Inputs -> Task) :=
  (fun '(_, e) => e.2) <$> list_find (fun e => e.1 = key) hs.

(** [button.onclick = h]: the button's previous handler is replaced. *)
Definition install (key : Key) (h : Inputs -> Task) (hs : list (Key * (Inputs -> Task)))
    : list (Key * (Inputs -> Task)) :=
  (key, h) :: filter (fun e => e.1 <> key) hs.

(** The synchronous part of a task, up to its [await]s, and the
    fetches it leaves in flight; a function called without [await] runs
    synchronously up to its first [await] ([depth] bounds the nesting
    of such calls; [None] when it is exceeded). *)
Fixpoint run_sync (depth : nat) : Task -> Screen -> option (Screen * list Pending) :=
  fix go (t : Task) (sc : Screen) : option (Screen * list Pending) :=
    match t with
    | TDone | TThrow => Some (sc, [])
    | TClear k => go k (mkScreen [] [] (outside sc))
    | TSetHtml h k => go k (mkScreen [Markup h] [] (outside sc))
    | TAppend n k => go k (mkScreen ((dom sc ++ [n])%list) (handlers sc) (outside sc))
    | TOn key h k => go k (mkScreen (dom sc) (install key h (handlers sc)) (outside sc))
    | TAlert m k => go k (mkScreen (dom sc) (handlers sc) ((outside sc ++ [EAlert m])%list))
    | TDisplay i v k => go k (mkScreen (dom sc) (handlers sc) ((outside sc ++ [EDisplay i v])%list))
    | TCall f k =>
        match depth with
        | 0 => None
        | S d =>
            match run_sync d (proc_body f) sc with
            | Some (sc1, ps1) =>
                match go k sc1 with Some (sc2, ps2) => Some (sc2, (ps1 ++ ps2)%list) | None => None end
            | None => None
            end
        end
    | TFetch req k => Some (sc, [mkPending req k])
    end.

(** The handlers of this page call a [loadX] function, whose
    synchronous part calls nothing: one level of calls. *)
Definition call_depth : nat := 1.

Section Page.
Context {S : Type} `{!Backend S} (cfg : Config).

Record Page : Type := mkPage { sys : Sys S; screen : Screen; waiting : list Pending }.

Definition run_task (t : Task) (σ : Sys S) (sc : Screen) (ws : list Pending) : option Page :=
  match run_sync call_depth t sc with
  | Some (sc', ps) => Some (mkPage σ sc' ((ws ++ ps)%list))
  | None => None
  end.

(** A click on [key], with the inputs as the user left them; [None]
    when no handler is installed on it. *)
Definition click (key : Key) (inp : Inputs) (p : Page) : option Page :=
  match lookup_handler key ((shell ++ handlers (screen p))%list) with
  | Some h => run_task (h inp) (sys p) (screen p) (waiting p)
  | None => None
  end.

(** The response to the [i]-th fetch in flight arrives: the server
    handles the request ([fresh] is the id [nanoid] draws) and the
    awaiting function resumes.  A [GET] of a static file (never sent by
    the page) leaves the fetch rejected. *)
Definition resume (i : nat) (fresh : string) (p : Page) : option Page :=
  match waiting p !! i with
  | Some w =>
      let rest := delete i (waiting p) in
      match exchange cfg fresh (p_req w) (sys p) with
      | Some (σ', r) => run_task (p_k w r) σ' (screen p) rest
      | None => Some (mkPage (sys p) (screen p) rest)
      end
  | None => None
  end.

(** Line 245: the script ends by calling [loadCategories]. *)
Definition boot (σ : Sys S) : option Page := run_task (TCall LoadCategories TDone) σ blank [].

(** What can happen next on the page: a click, or the response of the
    [i]-th fetch in flight. *)
Inductive Event : Type := EClick (key : Key) (inp : Inputs) | EResume (i : nat) (fresh : string).

Definition page_event (e : Event) (p : Page) : option Page :=
  match e with
  | EClick key inp => click key inp p
  | EResume i fresh => resume i fresh p
  end.

(** A schedule of events, run in order; [None] when one of them cannot
    happen. *)
Fixpoint run_events (es : list Event) (p : Page) : option Page :=
  match es with
  | [] => Some p
  | e :: es' => page_event e p ≫= run_events es'
  end.

Inductive page_step : Page -> Page -> Prop :=
| step_event e p p' : page_event e p = Some p' -> page_step p p'.

(** The pages a session can reach from the server state [σ]. *)
Definition page_reachable (σ : Sys S) (p : Page) : Prop :=
  exists p0, boot σ = Some p0 /\ rtc page_step p0 p.

End Page.

Local Open Scope list_scope.

(** ** Lemmas: the synchronous runs *)

(** The equations of [run_sync], one per statement. *)
Section RunSyncEquations.
Variables (d : nat) (sc : Screen).

Lemma run_sync_done : run_sync d TDone sc = Some (sc, []).
Proof. by destruct d. Qed.
Lemma run_sync_throw : run_sync d TThrow sc = Some (sc, []).
Proof. by destruct d. Qed.
Lemma run_sync_clear k : run_sync d (TClear k) sc = run_sync d k (mkScreen [] [] (outside sc)).
Proof. by destruct d. Qed.
Lemma run_sync_set_html h k : run_sync d (TSetHtml h k) sc = run_sync d k (mkScreen [Markup h] [] (outside sc)).
Proof. by destruct d. Qed.
Lemma run_sync_append n k :
  run_sync d (TAppend n k) sc = run_sync d k (mkScreen (dom sc ++ [n]) (handlers sc) (outside sc)).
Proof. by destruct d. Qed.
Lemma run_sync_on key h k :
  run_sync d (TOn key h k) sc = run_sync d k (mkScreen (dom sc) (install key h (handlers sc)) (outside sc)).
Proof. by destruct d. Qed.
Lemma run_sync_alert m k :
  run_sync d (TAlert m k) sc = run_sync d k (mkScreen (dom sc) (handlers sc) (outside sc ++ [EAlert m])).
Proof. by destruct d. Qed.
Lemma run_sync_display i v k :
  run_sync d (TDisplay i v k) sc =
    run_sync d k (mkScreen (dom sc) (handlers sc) (outside sc ++ [EDisplay i v])).
Proof. by destruct d. Qed.
Lemma run_sync_fetch req k : run_sync d (TFetch req k) sc = Some (sc, [mkPending req k]).
Proof. by destruct d. Qed.
Lemma run_sync_call f k :
  run_sync (S d) (TCall f k) sc =
    match run_sync d (proc_body f) sc with
    | Some (sc1, ps1) =>
        match run_sync (S d) k sc1 with Some (sc2, ps2) => Some (sc2, ps1 ++ ps2) | None => None end
    | None => None
    end.
Proof. reflexivity. Qed.

End RunSyncEquations.

Create Rewrite HintDb view_rw.
#[export] Hint Rewrite run_sync_done run_sync_throw run_sync_clear run_sync_set_html run_sync_append
  run_sync_on run_sync_alert run_sync_display run_sync_fetch run_sync_call : view_rw.

Lemma run_sync_append_all d ns k sc :
  run_sync d (append_all ns k) sc = run_sync d k (mkScreen (dom sc ++ ns) (handlers sc) (outside sc)).
Proof.
  unfold append_all. revert sc. induction ns as [|n ns IH]; intros sc; cbn [foldr].
  - by destruct sc; simpl; rewrite app_nil_r.
  - rewrite run_sync_append, IH. cbn [dom handlers outside]. by rewrite <- app_assoc.
Qed.

(** The handlers [on_each] installs, button after button. *)
Definition installs (cls : string) (ids : list string) (h : string -> Inputs -> Task)
    (hs : list (Key * (Inputs -> Task))) : list (Key * (Inputs -> Task)) :=
  foldl (fun hs id => install (KClass cls id) (h id) hs) hs ids.

(** Installing handlers leaves the nodes and what is outside alone. *)
Lemma run_sync_on_each d cls ids h k sc :
  run_sync d (on_each cls ids h k) sc =
    run_sync d k (mkScreen (dom sc) (installs cls ids h (handlers sc)) (outside sc)).
Proof.
  unfold on_each, installs. revert sc. induction ids as [|id ids IH]; intros sc; cbn [foldr foldl].
  - by destruct sc.
  - by rewrite run_sync_on, IH.
Qed.

(** What a [loadX] shows once its listing has answered [r]. *)
Definition categories_shown (r : Response) : list Node :=
  match res_ok r, body r with true, BCategories cs => categories_view cs | _, _ => [] end.

Lemma run_categories_loaded d r sc :
  exists hs, run_sync d (if res_ok r then categories_loaded (body r) else TThrow) sc =
    Some (mkScreen (dom sc ++ categories_shown r) hs (outside sc), []).
Proof.
  unfold categories_shown.
  destruct (res_ok r);
    [|exists (handlers sc); rewrite run_sync_throw; by destruct sc; simpl; rewrite app_nil_r].
  destruct (body r) as [| cs | | | | | | | | | | |]; cbn [categories_loaded];
    try (exists (handlers sc); rewrite run_sync_throw; by destruct sc; simpl; rewrite app_nil_r).
  rewrite run_sync_append_all, run_sync_on, !run_sync_on_each, run_sync_done.
  by eexists.
Qed.

Lemma categories_shown_respond o :
  categories_shown (respond BCategories o) = match o with Ok cs => categories_view cs | _ => [] end.
Proof. by destruct o. Qed.

(** The continuation of [loadCategories]'s fetch. *)
Definition categories_pending : Pending :=
  mkPending categories_request (fun r => if res_ok r then categories_loaded (body r) else TThrow).

Lemma run_load_categories d sc :
  run_sync d load_categories sc = Some (mkScreen [] [] (outside sc), [categories_pending]).
Proof. unfold load_categories, fetch_json. by autorewrite with view_rw. Qed.

Section PageLemmas.
Context {S : Type} `{!Backend S} (cfg : Config).

(** A tab click clears the container and sends the listing request. *)
Lemma click_tab_categories (p : Page (S:=S)) inp :
  click (KId "tab-categories") inp p =
    Some (mkPage (sys p) (mkScreen [] [] (outside (screen p))) (waiting p ++ [categories_pending])).
Proof.
  unfold click. change (lookup_handler _ _) with (Some (fun _ : Inputs => TCall LoadCategories TDone)).
  unfold run_task, call_depth. autorewrite with view_rw. cbn [proc_body].
  rewrite run_load_categories. autorewrite with view_rw. by rewrite app_nil_r.
Qed.

Lemma resume_first (p : Page (S:=S)) w rest fresh :
  waiting p = w :: rest ->
  resume cfg 0 fresh p =
    match exchange cfg fresh (p_req w) (sys p) with
    | Some (σ', r) => run_task (p_k w r) σ' (screen p) rest
    | None => Some (mkPage (sys p) (screen p) rest)
    end.
Proof. intros Hw. unfold resume. by rewrite Hw. Qed.

(** [GET /api/categories] over any backend. *)
Lemma exchange_categories (σ : Sys S) fresh :
  exchange cfg fresh categories_request σ =
    Some (mkSys (fst (be_get_categories (store σ))) (jar_admin σ),
          respond BCategories (snd (be_get_categories (store σ)))).
Proof.
  destruct σ as [s jar]. unfold exchange. cbn [store jar_admin].
  change (dispatch cfg fresh _ s) with (Some (call BCategories (be_get_categories s))).
  cbn [call fst snd]. by rewrite respond_keep.
Qed.

(** The listing's answer arrives: its continuation appends what it shows. *)
Lemma resume_categories (p : Page (S:=S)) rest fresh :
  waiting p = categories_pending :: rest ->
  let r := be_get_categories (store (sys p)) in
  exists hs, resume cfg 0 fresh p =
    Some (mkPage (mkSys (fst r) (jar_admin (sys p)))
            (mkScreen (dom (screen p) ++ match snd r with Ok cs => categories_view cs | _ => [] end)
               hs (outside (screen p))) rest).
Proof.
  intros Hw. cbv zeta. rewrite (resume_first p _ rest fresh Hw), exchange_categories.
  unfold run_task. cbn [p_k categories_pending].
  destruct (run_categories_loaded call_depth
              (respond BCategories (snd (be_get_categories (store (sys p))))) (screen p)) as [hs ->].
  exists hs. by rewrite app_nil_r, categories_shown_respond.
Qed.

(** C14: The categories tab shows the store's listing: clicked when no
    fetch is in flight, once the listing has answered, the container
    holds exactly the list of the categories the backend listed and the
    add form, the store is what the listing left, and nothing is in
    flight; a failed listing leaves the container empty. *)
Theorem categories_tab_shows_listing (p : Page (S:=S)) inp :
  waiting p = [] ->
  exists p', run_events cfg [EClick (KId "tab-categories") inp; EResume 0 ""] p = Some p' /\
    sys p' = mkSys (fst (be_get_categories (store (sys p)))) (jar_admin (sys p)) /\
    waiting p' = [] /\
    dom (screen p') = match snd (be_get_categories (store (sys p))) with
                      | Ok cs => categories_view cs
                      | _ => []
                      end.
Proof.
  intros Hw. cbn [run_events page_event]. rewrite click_tab_categories, Hw. cbn [mbind option_bind].
  edestruct resume_categories as [hs ->]; [reflexivity|]. cbn [mbind option_bind].
  by eexists.
Qed.

(** C12: Two loads of the categories tab in flight at once (a second
    click on the tab, or on any button that reloads it, before the
    first listing has answered) both clear the container before either
    answer arrives, and each then appends its list and its form: the
    container shows the categories twice, with two add forms. *)
Theorem categories_double_load_duplicates (p : Page (S:=S)) inp1 inp2 cs1 cs2 :
  waiting p = [] ->
  snd (be_get_categories (store (sys p))) = Ok cs1 ->
  snd (be_get_categories (fst (be_get_categories (store (sys p))))) = Ok cs2 ->
  exists p', run_events cfg [EClick (KId "tab-categories") inp1; EClick (KId "tab-categories") inp2;
                             EResume 0 ""; EResume 0 ""] p = Some p' /\
    waiting p' = [] /\ dom (screen p') = categories_view cs1 ++ categories_view cs2.
Proof.
  intros Hw H1 H2. cbn [run_events page_event].
  rewrite click_tab_categories, Hw. cbn [mbind option_bind].
  rewrite click_tab_categories. cbn [mbind option_bind waiting screen sys outside].
  edestruct resume_categories as [hs ->]; [reflexivity|]. cbn [mbind option_bind].
  edestruct resume_categories as [hs' ->]; [reflexivity|]. cbn [mbind option_bind].
  eexists. split; [reflexivity|]. cbn [sys store screen dom waiting]. by rewrite H1, H2.
Qed.

End PageLemmas.

(** ** Lemmas: every handler runs to its next [await] *)

(** The synchronous part of [t] calls no function. *)
Fixpoint sync_free (t : Task) : bool :=
  match t with
  | TDone | TThrow | TFetch _ _ => true
  | TClear k | TSetHtml _ k | TAppend _ k | TOn _ _ k | TAlert _ k | TDisplay _ _ k => sync_free k
  | TCall _ _ => false
  end.

(** A task whose un-awaited calls are to functions that call nothing
    before their first [await], and so are its handlers and its
    continuations, for every input and every response. *)
Inductive task_ok : Task -> Prop :=
| ok_done : task_ok TDone
| ok_throw : task_ok TThrow
| ok_clear k : task_ok k -> task_ok (TClear k)
| ok_set_html h k : task_ok k -> task_ok (TSetHtml h k)
| ok_append n k : task_ok k -> task_ok (TAppend n k)
| ok_on key h k : (forall inp, task_ok (h inp)) -> task_ok k -> task_ok (TOn key h k)
| ok_alert m k : task_ok k -> task_ok (TAlert m k)
| ok_display i v k : task_ok k -> task_ok (TDisplay i v k)
| ok_call f k : sync_free (proc_body f) = true -> task_ok k -> task_ok (TCall f k)
| ok_fetch req k : (forall r, task_ok (k r)) -> task_ok (TFetch req k).

#[local] Hint Constructors task_ok : core.

Lemma task_ok_append_all ns k : task_ok k -> task_ok (append_all ns k).
Proof. induction ns; simpl; auto. Qed.

Lemma task_ok_on_each cls ids h k :
  (forall id inp, task_ok (h id inp)) -> task_ok k -> task_ok (on_each cls ids h k).
Proof. intros Hh. induction ids; simpl; auto. Qed.

#[local] Hint Resolve task_ok_append_all task_ok_on_each : core.

Lemma task_ok_fetch_json req k : (forall b, task_ok (k b)) -> task_ok (fetch_json req k).
Proof. intros Hk. constructor. intros r. destruct (res_ok r); auto. Qed.

Lemma task_ok_with_image inp fid iid k : (forall v, task_ok (k v)) -> task_ok (with_image inp fid iid k).
Proof. intros Hk. unfold with_image. case_match; auto. constructor. intros r. case_match; auto. Qed.

#[local] Hint Resolve task_ok_fetch_json task_ok_with_image : core.

(** Prove [task_ok] of a handler: unfold it, split its matches, and
    go through its statements. *)
Local Ltac task_ok_auto :=
  repeat first
    [ progress intros
    | progress cbn beta
    | progress unfold add_category_handler, save_category_handler, edit_category_handler,
        delete_handler, add_article_handler, save_article_handler, edit_article_handler,
        add_ad_handler, save_ad_handler, edit_ad_handler, login_handler, logout_handler, login_cont, logout_cont,
        load_categories, load_articles, load_ads, categories_loaded, ads_loaded
    | constructor
    | apply task_ok_append_all | apply task_ok_on_each | apply task_ok_fetch_json
    | apply task_ok_with_image
    | case_match ].

Lemma task_ok_sections cats cs acc seen : task_ok (sections cats cs acc seen).
Proof.
  revert acc seen. induction cs as [|c cs IH]; intros acc seen; cbn [sections]; task_ok_auto.
  all: apply IH.
Qed.

Lemma task_ok_procs f : task_ok (proc_body f).
Proof. destruct f; cbn [proc_body]; task_ok_auto; apply task_ok_sections. Qed.

Lemma shell_ok : Forall (fun e => forall inp, task_ok (e.2 inp)) shell.
Proof.
  unfold shell. rewrite !Forall_cons. split_and!; [..|by apply Forall_nil]; cbn [snd]; task_ok_auto.
Qed.

Definition screen_ok (sc : Screen) : Prop :=
  Forall (fun e => forall inp, task_ok (e.2 inp)) (handlers sc).

Definition pending_ok (w : Pending) : Prop := forall r, task_ok (p_k w r).

Lemma screen_ok_on sc key h :
  screen_ok sc -> (forall inp, task_ok (h inp)) ->
  screen_ok (mkScreen (dom sc) (install key h (handlers sc)) (outside sc)).
Proof. intros Hs Hh. constructor; [done|]. by apply Forall_filter_keep. Qed.

Lemma screen_ok_clear ns al : screen_ok (mkScreen ns [] al).
Proof. constructor. Qed.

Lemma screen_ok_keep sc ns al : screen_ok sc -> screen_ok (mkScreen ns (handlers sc) al).
Proof. done. Qed.

#[local] Hint Resolve screen_ok_on screen_ok_clear screen_ok_keep : core.

(** The statements other than a call: each case of the two lemmas below. *)
Local Ltac run_ok_cases :=
  match goal with
  | |- context [run_sync _ (TFetch ?req ?k) ?sc] =>
      rewrite run_sync_fetch; exists sc, [mkPending req k]; split_and!; [done|done|];
      constructor; [|constructor]; unfold pending_ok; auto
  | |- context [run_sync _ TDone ?sc] => rewrite run_sync_done; exists sc, []; auto
  | |- context [run_sync _ TThrow ?sc] => rewrite run_sync_throw; exists sc, []; auto
  | _ => autorewrite with view_rw; eauto
  end.

(** A task that calls nothing before its first [await] runs at any depth. *)
Lemma run_sync_free d t sc :
  task_ok t -> sync_free t = true -> screen_ok sc ->
  exists sc' ps, run_sync d t sc = Some (sc', ps) /\ screen_ok sc' /\ Forall pending_ok ps.
Proof.
  intros Ht. revert sc. induction Ht; intros sc Hs Hsc; cbn [sync_free] in Hs;
    try discriminate; run_ok_cases.
Qed.

(** With one level of calls, every [task_ok] task runs to its [await]s. *)
Lemma run_sync_ok t sc :
  task_ok t -> screen_ok sc ->
  exists sc' ps, run_sync call_depth t sc = Some (sc', ps) /\ screen_ok sc' /\ Forall pending_ok ps.
Proof.
  intros Ht. revert sc. induction Ht as [| | | | | | | |f k Hf Hk IH|]; intros sc Hsc;
    try solve [run_ok_cases].
  unfold call_depth in *. rewrite run_sync_call.
  destruct (run_sync_free 0 (proc_body f) sc (task_ok_procs f) Hf Hsc) as (sc1 & ps1 & -> & Hs1 & Hp1).
  destruct (IH sc1 Hs1) as (sc2 & ps2 & -> & Hs2 & Hp2).
  exists sc2, (ps1 ++ ps2). split_and!; [done|done|by apply Forall_app].
Qed.

Lemma lookup_handler_in key hs h :
  lookup_handler key hs = Some h -> exists e, e ∈ hs /\ e.2 = h.
Proof.
  unfold lookup_handler. destruct (list_find _ hs) as [[i e]|] eqn:E; [|done].
  intros [= <-]. apply list_find_Some in E as (Hi & _ & _). exists e. split; [|done].
  by eapply list_elem_of_lookup_2.
Qed.

Section Progress.
Context {S : Type} `{!Backend S} (cfg : Config).

Definition page_ok (p : Page (S:=S)) : Prop := screen_ok (screen p) /\ Forall pending_ok (waiting p).

Lemma run_task_ok t σ sc ws :
  task_ok t -> screen_ok sc -> Forall pending_ok ws ->
  exists p', run_task t σ sc ws = Some p' /\ page_ok p'.
Proof.
  intros Ht Hsc Hws. destruct (run_sync_ok t sc Ht Hsc) as (sc' & ps & Hr & Hs' & Hps).
  unfold run_task. rewrite Hr. eexists. split; [done|]. split; [done|]. by apply Forall_app.
Qed.

Lemma click_ok (p : Page (S:=S)) key inp h :
  page_ok p -> lookup_handler key (shell ++ handlers (screen p)) = Some h ->
  exists p', click key inp p = Some p' /\ page_ok p'.
Proof.
  intros [Hs Hw] Hl. unfold click. rewrite Hl.
  destruct (lookup_handler_in _ _ _ Hl) as (e & He & <-).
  apply run_task_ok; [|done..].
  assert (Hall : Forall (fun e => forall inp, task_ok (e.2 inp)) (shell ++ handlers (screen p)))
    by (apply Forall_app; split; [exact shell_ok|exact Hs]).
  by eapply Forall_forall in Hall.
Qed.

Lemma resume_ok (p : Page (S:=S)) i fresh :
  page_ok p -> i < List.length (waiting p) -> exists p', resume cfg i fresh p = Some p' /\ page_ok p'.
Proof.
  intros [Hs Hw] Hi. unfold resume.
  destruct (lookup_lt_is_Some_2 _ _ Hi) as [w Hwi]. rewrite Hwi.
  assert (Hd : Forall pending_ok (delete i (waiting p))) by (by apply Forall_delete).
  assert (Hk : pending_ok w) by exact (Forall_lookup_1 _ _ _ _ Hw Hwi).
  destruct (exchange cfg fresh (p_req w) (sys p)) as [[σ' r]|].
  - by apply run_task_ok.
  - eexists. split; [done|]. by split.
Qed.

Lemma page_event_ok (p p' : Page (S:=S)) e : page_ok p -> page_event cfg e p = Some p' -> page_ok p'.
Proof.
  intros Hp. destruct e as [key inp|i fresh]; cbn [page_event].
  - unfold click. destruct (lookup_handler _ _) as [h|] eqn:Hl; [|done].
    destruct (click_ok p key inp h Hp Hl) as (p'' & Hc & Hok). unfold click in Hc.
    rewrite Hl in Hc. rewrite Hc. by intros [= <-].
  - unfold resume. destruct (waiting p !! i) as [w|] eqn:Hwi; [|done].
    destruct (resume_ok p i fresh Hp) as (p'' & Hr & Hok); [by eapply lookup_lt_Some|].
    unfold resume in Hr. rewrite Hwi in Hr. rewrite Hr. by intros [= <-].
Qed.

Lemma boot_ok (σ : Sys S) : exists p, boot σ = Some p /\ page_ok p.
Proof. apply run_task_ok; [auto|apply screen_ok_clear|constructor]. Qed.

Lemma reachable_ok (σ : Sys S) p : page_reachable cfg σ p -> page_ok p.
Proof.
  intros (p0 & Hb & Hr). destruct (boot_ok σ) as (p1 & Hb1 & Hok). rewrite Hb in Hb1.
  injection Hb1 as <-. clear Hb. induction Hr as [|x y z [e ? ? He] _ IH]; [done|].
  apply IH. by eapply page_event_ok.
Qed.

(** Adequacy of the bound [call_depth] of [run_sync]: the page never
    gets stuck in the model, so the bound cuts off no behaviour of
    app.js.  The script's first [loadCategories] runs, and from every page a session reaches, a click on any button
    that has a handler and the response to any fetch in flight are
    processed: the synchronous part of every handler and every
    continuation ends, since the functions they call without [await]
    ([loadCategories], [loadArticles], [loadAds]) call nothing before
    their own first [await]. *)
Lemma page_never_stuck (σ : Sys S) p :
  page_reachable cfg σ p ->
  (exists p0, boot σ = Some p0) /\
  (forall key inp h, lookup_handler key (shell ++ handlers (screen p)) = Some h ->
     exists p', click key inp p = Some p') /\
  (forall i fresh, i < List.length (waiting p) -> exists p', resume cfg i fresh p = Some p').
Proof.
  intros Hr. pose proof (reachable_ok σ p Hr) as Hok. split_and!.
  - destruct (boot_ok σ) as (p0 & -> & _). by eexists.
  - intros key inp h Hl. destruct (click_ok p key inp h Hok Hl) as (p' & -> & _). by eexists.
  - intros i fresh Hi. destruct (resume_ok p i fresh Hok Hi) as (p' & -> & _). by eexists.
Qed.

End Progress.

(** ** Lemmas: the buttons a rendered list carries *)

Lemma lookup_handler_cons key e hs :
  lookup_handler key (e :: hs) = if decide (e.1 = key) then Some e.2 else lookup_handler key hs.
Proof.
  unfold lookup_handler. simpl. case_decide; [done|].
  by destruct (list_find _ hs) as [[]|].
Qed.

Lemma lookup_install_same key h hs : lookup_handler key (install key h hs) = Some h.
Proof. unfold install. rewrite lookup_handler_cons. by rewrite decide_True. Qed.

Lemma lookup_filter_other key key' hs :
  key' <> key -> lookup_handler key' (filter (fun e => e.1 <> key) hs) = lookup_handler key' hs.
Proof.
  intros Hne. induction hs as [|e hs IH]; [done|]. rewrite filter_cons, lookup_handler_cons.
  case_decide as Hk; [rewrite lookup_handler_cons, IH; done|].
  rewrite IH, decide_False; [done|]. intros He. apply Hne. destruct (decide (e.1 = key)); congruence.
Qed.

Lemma lookup_install_other key key' h hs :
  key' <> key -> lookup_handler key' (install key h hs) = lookup_handler key' hs.
Proof.
  intros Hne. unfold install. rewrite lookup_handler_cons, decide_False by (cbn; congruence).
  by apply lookup_filter_other.
Qed.

Lemma lookup_installs_other key cls ids h hs :
  (forall id, id ∈ ids -> key <> KClass cls id) ->
  lookup_handler key (installs cls ids h hs) = lookup_handler key hs.
Proof.
  unfold installs. revert hs. induction ids as [|id ids IH]; intros hs Hk; [done|]. cbn [foldl].
  rewrite IH by (intros; apply Hk; by right). apply lookup_install_other, Hk. by left.
Qed.

Lemma lookup_installs cls ids h hs id :
  id ∈ ids -> lookup_handler (KClass cls id) (installs cls ids h hs) = Some (h id).
Proof.
  unfold installs. revert hs. induction ids as [|id' ids IH]; intros hs Hin; [by apply elem_of_nil in Hin|].
  cbn [foldl]. destruct (decide (id ∈ ids)) as [Hi|Hi]; [by apply IH|].
  apply elem_of_cons in Hin as [->|]; [|done].
  fold (installs cls ids h (install (KClass cls id') (h id') hs)).
  rewrite lookup_installs_other; [apply lookup_install_same|]. intros x Hx [= ->]. contradiction.
Qed.

(** The buttons of the shell are [#id]s: a button of a class is looked
    up in the container. *)
Lemma lookup_shell_class cls v hs :
  lookup_handler (KClass cls v) (shell ++ hs) = lookup_handler (KClass cls v) hs.
Proof. cbn [shell app]. by rewrite !lookup_handler_cons, !decide_False by discriminate. Qed.

(** The handlers the categories list leaves in an emptied container. *)
Definition categories_handlers (cs : list Category) : list (Key * (Inputs -> Task)) :=
  let ids := (fun c => attr_value (cat_id c)) <$> cs in
  installs "edit" ids (edit_category_handler cs)
    (installs "del" ids (delete_handler "categories" LoadCategories)
      (install (KId "add-cat") add_category_handler [])).

Lemma run_categories_listed d cs al :
  run_sync d (categories_loaded (BCategories cs)) (mkScreen [] [] al) =
    Some (mkScreen (categories_view cs) (categories_handlers cs) al, []).
Proof.
  cbn [categories_loaded]. by rewrite run_sync_append_all, run_sync_on, !run_sync_on_each, run_sync_done.
Qed.

Lemma lookup_rendered_delete cs c :
  c ∈ cs ->
  lookup_handler (KClass "del" (attr_value (cat_id c))) (categories_handlers cs) =
    Some (delete_handler "categories" LoadCategories (attr_value (cat_id c))).
Proof.
  intros Hc. unfold categories_handlers.
  rewrite lookup_installs_other by (intros ? _; discriminate).
  apply lookup_installs. apply list_elem_of_fmap. by exists c.
Qed.

Section Buttons.
Context {S : Type} `{!Backend S} (cfg : Config).

Lemma exchange_delete_some (σ : Sys S) coll v :
  exists σ' r, exchange cfg "" (delete_request coll v) σ = Some (σ', r).
Proof.
  unfold exchange, dispatch. cbn [req_method browser_request delete_request].
  rewrite bool_decide_false by discriminate. rewrite static_mount_non_get by discriminate.
  destruct (find_route _ _ _) as [[r ps]|]; [destruct (run_route _ _ _ _ _ _)|]; by do 2 eexists.
Qed.

(** C13: A Delete button of the categories list deletes the category it
    is rendered for and refreshes the list: after the tab has shown the
    listing [cs], a click on the Delete button of [c ∈ cs] sends the
    [DELETE] of the admin page's Delete click ([Flow.delete_click]), and
    once the reload it starts has answered, the container shows the
    listing of the store the delete left, with nothing in flight. *)
Theorem delete_button_refreshes (p : Page (S:=S)) inp cs c :
  waiting p = [] -> snd (be_get_categories (store (sys p))) = Ok cs -> c ∈ cs ->
  let σ1 := mkSys (fst (be_get_categories (store (sys p)))) (jar_admin (sys p)) in
  let σ2 := Flow.delete_click cfg "categories" (cat_id c) σ1 in
  exists p', run_events cfg [EClick (KId "tab-categories") inp; EResume 0 "";
                             EClick (KClass "del" (attr_value (cat_id c))) ∅; EResume 0 "";
                             EResume 0 ""] p = Some p' /\
    sys p' = mkSys (fst (be_get_categories (store σ2))) (jar_admin σ2) /\ waiting p' = [] /\
    dom (screen p') = match snd (be_get_categories (store σ2)) with
                      | Ok cs' => categories_view cs'
                      | _ => []
                      end.
Proof.
  intros Hw Hcs Hc σ1 σ2. cbn [run_events page_event].
  rewrite click_tab_categories, Hw. cbn [mbind option_bind].
  rewrite (resume_first cfg _ categories_pending [] "") by done. rewrite exchange_categories.
  unfold run_task. cbn [p_k categories_pending sys screen outside]. rewrite Hcs. cbn [respond].
  change (res_ok (resp 200 (BCategories cs))) with true. cbn [body resp].
  rewrite run_categories_listed. cbn [mbind option_bind app].
  unfold click. cbn [screen handlers]. rewrite lookup_shell_class, lookup_rendered_delete by done.
  unfold run_task, delete_handler. rewrite run_sync_fetch. cbn [mbind option_bind app].
  rewrite (resume_first cfg _ _ [] "") by done. cbn [sys p_req p_k].
  destruct (exchange_delete_some σ1 "categories" (attr_value (cat_id c))) as (σ' & r & Hx).
  unfold σ1 in Hx. rewrite Hx. unfold run_task, call_depth. rewrite run_sync_call. cbn [proc_body].
  rewrite run_load_categories, run_sync_done. cbn [mbind option_bind app].
  edestruct resume_categories as [hs ->]; [reflexivity|]. cbn [mbind option_bind].
  assert (Hσ : σ2 = σ').
  { unfold σ2. change (Flow.delete_click cfg "categories" (cat_id c) σ1) with
      (match exchange cfg "" (delete_request "categories" (attr_value (cat_id c))) σ1 with
       | Some (σ', _) => σ' | None => σ1 end). unfold σ1. by rewrite Hx. }
  rewrite Hσ. by eexists.
Qed.

End Buttons.

(** ** The login and logout buttons follow the cookie *)

(** The [display] the page last gave the element [id], if any. *)
Definition display_of (id : string) (effs : list Effect) : option string :=
  foldl (fun acc e => match e with
                      | EDisplay i v => if bool_decide (i = id) then Some v else acc
                      | EAlert _ => acc
                      end) None effs.

Definition logout_shown (sc : Screen) : bool :=
  bool_decide (display_of "btn-logout" (outside sc) = Some "inline-block").

Definition login_hidden (sc : Screen) : bool :=
  bool_decide (display_of "btn-login" (outside sc) = Some "none").

Definition buttons_agree (sc : Screen) (jar : bool) : Prop :=
  logout_shown sc = jar /\ login_hidden sc = jar.

Lemma display_of_alert id effs m : display_of id (effs ++ [EAlert m]) = display_of id effs.
Proof. unfold display_of. by rewrite foldl_app. Qed.

Lemma display_of_display id effs i v :
  display_of id (effs ++ [EDisplay i v]) = if bool_decide (i = id) then Some v else display_of id effs.
Proof. unfold display_of. by rewrite foldl_app. Qed.

(** A request the route table does not send to [/admin/login] or
    [/admin/logout]: the server leaves the cookie alone. *)
Definition keeps (req : Request) : bool :=
  match find_route routes (req_method req) (req_path req) with
  | Some (RLogin, _) | Some (RLogout, _) => false
  | _ => true
  end.

Lemma keeps_cookie cfg req : keeps req = true -> cookie_effect cfg req = KeepCookie.
Proof. unfold keeps, cookie_effect. by destruct (find_route _ _ _) as [[[] ?]|]. Qed.

(** The route [find_route] picks has a pattern that matches the path. *)
Lemma find_route_match tbl m p r ps :
  find_route tbl m p = Some (r, ps) -> exists rm pat, (rm, pat, r) ∈ tbl /\ match_path pat p = Some ps.
Proof.
  induction tbl as [|[[rm pat] r'] tbl IH]; simpl; [done|].
  destruct (method_matches rm m); [destruct (match_path pat p) eqn:Hm|].
  - intros [= <- <-]. exists rm, pat. split; [left|done].
  - intros H. destruct (IH H) as (rm' & pat' & Hin & Hm'). exists rm', pat'. split; [by right|done].
  - intros H. destruct (IH H) as (rm' & pat' & Hin & Hm'). exists rm', pat'. split; [by right|done].
Qed.

(** Every path under [/api] keeps the cookie: the login and logout
    patterns start with [admin]. *)
Lemma keeps_api req p : req_path req = "api" :: p -> keeps req = true.
Proof.
  intros Hp. unfold keeps. destruct (find_route _ _ _) as [[r ps]|] eqn:Hf; [|done].
  destruct r; try reflexivity; apply find_route_match in Hf as (rm & pat & Hin & Hm);
    rewrite Hp in Hm; unfold routes in Hin;
    repeat (apply elem_of_cons in Hin as [Hin|Hin]; [simplify_eq; by vm_compute in Hm|]);
    by apply not_elem_of_nil in Hin.
Qed.

(** A task that shows or hides the buttons only in the continuations of
    the login and logout requests, and whose other requests keep the
    cookie; so are its handlers and continuations. *)
Inductive disp_ok : Task -> Prop :=
| dd_done : disp_ok TDone
| dd_throw : disp_ok TThrow
| dd_clear k : disp_ok k -> disp_ok (TClear k)
| dd_set_html h k : disp_ok k -> disp_ok (TSetHtml h k)
| dd_append n k : disp_ok k -> disp_ok (TAppend n k)
| dd_on key h k : (forall inp, disp_ok (h inp)) -> disp_ok k -> disp_ok (TOn key h k)
| dd_alert m k : disp_ok k -> disp_ok (TAlert m k)
| dd_call f k : disp_ok k -> disp_ok (TCall f k)
| dd_fetch req k : keeps req = true -> (forall r, disp_ok (k r)) -> disp_ok (TFetch req k)
| dd_login pass : disp_ok (TFetch (login_request pass) login_cont)
| dd_logout : disp_ok (fetch_json logout_request logout_cont).

#[local] Hint Constructors disp_ok : core.

Lemma disp_ok_append_all ns k : disp_ok k -> disp_ok (append_all ns k).
Proof. induction ns; simpl; auto. Qed.

Lemma disp_ok_on_each cls ids h k :
  (forall id inp, disp_ok (h id inp)) -> disp_ok k -> disp_ok (on_each cls ids h k).
Proof. intros Hh. induction ids; simpl; auto. Qed.

Lemma disp_ok_fetch_json req k :
  keeps req = true -> (forall b, disp_ok (k b)) -> disp_ok (fetch_json req k).
Proof. intros Hr Hk. constructor; [done|]. intros r. destruct (res_ok r); auto. Qed.

Lemma disp_ok_with_image inp fid iid k : (forall v, disp_ok (k v)) -> disp_ok (with_image inp fid iid k).
Proof.
  intros Hk. unfold with_image. case_match; auto. constructor; [reflexivity|].
  intros r. case_match; auto.
Qed.

(** [keeps] of one of the page's requests: a fixed path, or one built
    from ["/api/..."]. *)
Local Ltac solve_keeps :=
  first [ reflexivity
        | eapply keeps_api; cbn [req_path delete_request json_request];
          autorewrite with vnc_rw; reflexivity ].

Local Ltac disp_auto :=
  repeat first
    [ progress intros
    | progress cbn beta
    | progress unfold add_category_handler, save_category_handler, edit_category_handler,
        delete_handler, add_article_handler, save_article_handler, edit_article_handler,
        add_ad_handler, save_ad_handler, edit_ad_handler, login_handler, logout_handler,
        load_categories, load_articles, load_ads, categories_loaded, ads_loaded
    | apply dd_logout | apply dd_login
    | apply disp_ok_append_all | apply disp_ok_on_each | apply disp_ok_fetch_json
    | apply disp_ok_with_image
    | constructor
    | solve_keeps
    | case_match ].

Lemma disp_ok_sections cats cs acc seen : disp_ok (sections cats cs acc seen).
Proof.
  revert acc seen. induction cs as [|c cs IH]; intros acc seen; cbn [sections]; disp_auto.
  all: apply IH.
Qed.

Lemma disp_ok_procs f : disp_ok (proc_body f).
Proof. destruct f; cbn [proc_body]; disp_auto; apply disp_ok_sections. Qed.

Lemma disp_ok_shell : Forall (fun e => forall inp, disp_ok (e.2 inp)) shell.
Proof. unfold shell. rewrite !Forall_cons. split_and!; [..|by apply Forall_nil]; cbn [snd]; disp_auto. Qed.

(** A fetch in flight that keeps the cookie and whose continuation
    shows or hides no button, or the login or the logout request. *)
Definition pend_disp (w : Pending) : Prop :=
  (keeps (p_req w) = true /\ forall r, disp_ok (p_k w r)) \/
  (exists pass, p_req w = login_request pass /\ p_k w = login_cont) \/
  (p_req w = logout_request /\ p_k w = fun r => if res_ok r then logout_cont (body r) else TThrow).

Definition screen_disp (sc : Screen) : Prop :=
  Forall (fun e => forall inp, disp_ok (e.2 inp)) (handlers sc).

(** What the synchronous part of a task promises: the buttons are as
    they were, the handlers it installs and the fetches it leaves in
    flight are of the same kind. *)
Definition disp_post (sc sc' : Screen) (ps : list Pending) : Prop :=
  (forall id, display_of id (outside sc') = display_of id (outside sc)) /\
  screen_disp sc' /\ Forall pend_disp ps.

Lemma disp_post_go sc sc1 sc' ps :
  (forall id, display_of id (outside sc1) = display_of id (outside sc)) ->
  disp_post sc1 sc' ps -> disp_post sc sc' ps.
Proof. intros H1 (Hd & Hs & Hp). split_and!; [|done..]. intros id. by rewrite Hd, H1. Qed.

Lemma disp_post_stop sc w : pend_disp w -> screen_disp sc -> disp_post sc sc [w].
Proof. intros Hw Hs. split_and!; [done|done|by constructor]. Qed.

(** A statement that changes the screen and goes on with [k]: the
    induction hypothesis on [k], on the changed screen. *)
Local Ltac disp_go :=
  match goal with
  | IH : forall sc sc' ps, screen_disp sc -> run_sync _ ?k sc = Some (sc', ps) -> disp_post sc sc' ps,
    Hrun : run_sync _ ?k _ = Some _ |- _ =>
      apply IH in Hrun; [eapply disp_post_go; [|exact Hrun]|];
      [intros ?; cbn [outside]; by rewrite ?display_of_alert
      |unfold screen_disp in *; cbn [handlers]; repeat constructor; auto using Forall_filter_keep]
  end.

(** The synchronous part of such a task leaves the buttons as they were. *)
Lemma run_sync_disp d t sc sc' ps :
  disp_ok t -> screen_disp sc -> run_sync d t sc = Some (sc', ps) -> disp_post sc sc' ps.
Proof.
  revert t sc sc' ps. induction d as [|d IHd]; intros t sc sc' ps Ht;
    revert sc sc' ps; induction Ht as [| | | | | | |f k Hk IH|req k Hr Hk|pass|];
    intros sc sc' ps Hsc Hrun.
  all: autorewrite with view_rw in Hrun; try disp_go.
  all: try (injection Hrun as <- <-).
  all: try solve [split_and!; done].
  all: try solve [apply disp_post_stop; [unfold pend_disp; cbn [p_req p_k]; naive_solver|done]].
  - destruct (run_sync d (proc_body f) sc) as [[sc1 ps1]|] eqn:H1; [|done].
    destruct (run_sync (S d) k sc1) as [[sc2 ps2]|] eqn:H2; [|done]. injection Hrun as <- <-.
    destruct (IHd _ _ _ _ (disp_ok_procs f) Hsc H1) as (Hd1 & Hs1 & Hp1).
    destruct (IH _ _ _ Hs1 H2) as (Hd2 & Hs2 & Hp2).
    split_and!; [|done|by apply Forall_app]. intros id. by rewrite Hd2, Hd1.
Qed.

Lemma buttons_agree_display sc sc' jar :
  (forall id, display_of id (outside sc') = display_of id (outside sc)) ->
  buttons_agree sc jar -> buttons_agree sc' jar.
Proof. intros Hd. unfold buttons_agree, logout_shown, login_hidden. by rewrite !Hd. Qed.

(** A schedule of events is a path of [page_step]s. *)
Lemma run_events_rtc {S} `{!Backend S} (cfg : Config) es (p p' : Page (S:=S)) :
  run_events cfg es p = Some p' -> rtc (page_step cfg) p p'.
Proof.
  revert p. induction es as [|e es IH]; intros p; cbn [run_events]; [by intros [= ->]|].
  destruct (page_event cfg e p) as [p1|] eqn:He; [|done]. cbn [mbind option_bind]. intros Hr.
  eapply rtc_l; [by econstructor|]. by apply IH.
Qed.

Section Display.
Context {S : Type} `{!Backend S} (cfg : Config).

(** The login request reaches [POST /admin/login] (lines 308-314). *)
Lemma exchange_login_request (σ : Sys S) fresh pass :
  exchange cfg fresh (login_request pass) σ =
    Some (if bool_decide (pass = admin_password cfg)
          then (mkSys (store σ) true, mkResponse 200 BOk SetAdminCookie)
          else (σ, resp 403 (BError "Wrong password"))).
Proof.
  unfold exchange.
  rewrite (dispatch_route cfg fresh _ (store σ) RLogin []); [|discriminate|reflexivity|exact route_login].
  cbn [run_route]. unfold handle_login, js_strict_eq.
  change (body_get (req_body _) "password") with (JStr pass).
  destruct σ as [s jar]. cbn [store jar_admin].
  by case_bool_decide as Hp; case_bool_decide as Hq; try congruence.
Qed.

(** The logout request reaches [POST /admin/logout] (lines 317-320). *)
Lemma exchange_logout_request (σ : Sys S) fresh :
  exchange cfg fresh logout_request σ = Some (mkSys (store σ) false, mkResponse 200 BOk ClearAdminCookie).
Proof. by destruct σ as [s []]. Qed.

(** The buttons agree with the cookie, and every handler and every fetch
    in flight is of the kind [disp_ok] and [pend_disp] describe. *)
Definition page_disp (p : Page (S:=S)) : Prop :=
  buttons_agree (screen p) (jar_admin (sys p)) /\ screen_disp (screen p) /\ Forall pend_disp (waiting p).

Lemma run_task_disp t (σ : Sys S) sc ws p' :
  disp_ok t -> screen_disp sc -> Forall pend_disp ws -> buttons_agree sc (jar_admin σ) ->
  run_task t σ sc ws = Some p' -> page_disp p'.
Proof.
  intros Ht Hs Hws Hb. unfold run_task.
  destruct (run_sync call_depth t sc) as [[sc' ps]|] eqn:Hr; [|done]. intros [= <-].
  destruct (run_sync_disp _ _ _ _ _ Ht Hs Hr) as (Hd & Hs' & Hp).
  split_and!; [by eapply buttons_agree_display|done|by apply Forall_app].
Qed.

(** The answer to a fetch that is neither login nor logout. *)
Lemma resume_keeps_disp (p p' : Page (S:=S)) w rest fresh :
  keeps (p_req w) = true -> (forall r, disp_ok (p_k w r)) ->
  page_disp p -> Forall pend_disp rest ->
  match exchange cfg fresh (p_req w) (sys p) with
  | Some (σ', r) => run_task (p_k w r) σ' (screen p) rest
  | None => Some (mkPage (sys p) (screen p) rest)
  end = Some p' -> page_disp p'.
Proof.
  intros Hkeep Hk (Hb & Hs & _) Hrest.
  destruct (exchange cfg fresh (p_req w) (sys p)) as [[σ' r]|] eqn:He; [|by intros [= <-]].
  apply run_task_disp; [done..|]. apply exchange_jar in He.
  by rewrite He, keeps_cookie.
Qed.

Lemma resume_disp (p p' : Page (S:=S)) i fresh :
  page_disp p -> resume cfg i fresh p = Some p' -> page_disp p'.
Proof.
  intros Hp. pose proof Hp as (Hb & Hs & Hw). unfold resume.
  destruct (waiting p !! i) as [w|] eqn:Hwi; [|done].
  assert (Hrest : Forall pend_disp (delete i (waiting p))) by (by apply Forall_delete).
  destruct (Forall_lookup_1 _ _ _ _ Hw Hwi) as [[Hkeep Hk]|[(pass & Hq & Hk)|(Hq & Hk)]].
  - by apply resume_keeps_disp.
  - rewrite Hq, Hk, exchange_login_request. unfold run_task.
    case_bool_decide.
    + change (login_cont _) with
        (TDisplay "btn-login" "none" (TDisplay "btn-logout" "inline-block" (TAlert "Logged in" TDone))).
      autorewrite with view_rw. intros [= <-]. split_and!; [|done|by rewrite app_nil_r].
      unfold buttons_agree, logout_shown, login_hidden. cbn [screen outside sys jar_admin].
      by rewrite !display_of_alert, !display_of_display.
    + change (login_cont _) with (TAlert "Login failed" TDone).
      autorewrite with view_rw. intros [= <-]. split_and!; [|done|by rewrite app_nil_r].
      eapply buttons_agree_display; [|exact Hb]. intros id. apply display_of_alert.
  - rewrite Hq, Hk, exchange_logout_request. unfold run_task.
    change (if res_ok _ then _ else _) with
      (TDisplay "btn-login" "inline-block" (TDisplay "btn-logout" "none" TDone)).
    autorewrite with view_rw. intros [= <-]. split_and!; [|done|by rewrite app_nil_r].
    unfold buttons_agree, logout_shown, login_hidden. cbn [screen outside sys jar_admin].
    by rewrite !display_of_display.
Qed.

Lemma click_disp (p p' : Page (S:=S)) key inp :
  page_disp p -> click key inp p = Some p' -> page_disp p'.
Proof.
  intros (Hb & Hs & Hw). unfold click.
  destruct (lookup_handler key _) as [h|] eqn:Hl; [|done].
  destruct (lookup_handler_in _ _ _ Hl) as (e & He & <-).
  apply run_task_disp; [|done..].
  assert (Hall : Forall (fun e => forall inp, disp_ok (e.2 inp)) (shell ++ handlers (screen p)))
    by (apply Forall_app; split; [exact disp_ok_shell|exact Hs]).
  by eapply Forall_forall in Hall.
Qed.

Lemma boot_disp (σ : Sys S) p : jar_admin σ = false -> boot σ = Some p -> page_disp p.
Proof.
  intros Hj. apply run_task_disp; [auto|constructor|constructor|].
  by rewrite Hj.
Qed.

(** C15: The Login and Logout buttons follow the cookie: on every page a
    session reaches from a browser without the admin cookie, the Logout
    button is shown and the Login button hidden exactly when the
    browser holds the cookie, whatever answers arrive in whatever order:
    only the answers to [/admin/login] and [/admin/logout] change the
    cookie, and their continuations (lines 229-241) set both buttons at
    the moment the cookie changes. *)
Theorem login_buttons_follow_cookie (σ : Sys S) p :
  jar_admin σ = false -> page_reachable cfg σ p ->
  logout_shown (screen p) = jar_admin (sys p) /\ login_hidden (screen p) = jar_admin (sys p).
Proof.
  intros Hj (p0 & Hb & Hr). apply boot_disp in Hb; [|done].
  cut (page_disp p); [by intros []|].
  induction Hr as [|x y z [[key inp|i fresh] ? ? He] _ IH]; [done| |];
    apply IH; [by eapply click_disp|by eapply resume_disp].
Qed.

End Display.

(** ** Witnesses, on the seeded in-memory server *)

(** The page before any click, logged in, nothing in flight. *)
Definition demo_page : Page (S:=MemStore.t) := mkPage (mkSys MemStore.seed true) blank [].

Lemma categories_tab_shows_listing_witness :
  waiting demo_page = [] /\
  exists p', run_events demo_cfg [EClick (KId "tab-categories") ∅; EResume 0 ""] demo_page = Some p' /\
    sys p' = mkSys (fst (be_get_categories (store (sys demo_page)))) (jar_admin (sys demo_page)) /\
    waiting p' = [] /\
    dom (screen p') = match snd (be_get_categories (store (sys demo_page))) with
                      | Ok cs => categories_view cs
                      | _ => []
                      end.
Proof. split; [reflexivity|]. exact (categories_tab_shows_listing demo_cfg demo_page ∅ eq_refl). Defined.

Lemma categories_double_load_duplicates_witness :
  let cs := MemStore.categories MemStore.seed in
  waiting demo_page = [] /\
  snd (be_get_categories (store (sys demo_page))) = Ok cs /\
  snd (be_get_categories (fst (be_get_categories (store (sys demo_page))))) = Ok cs /\
  exists p', run_events demo_cfg [EClick (KId "tab-categories") ∅; EClick (KId "tab-categories") ∅;
                                  EResume 0 ""; EResume 0 ""] demo_page = Some p' /\
    waiting p' = [] /\ dom (screen p') = categories_view cs ++ categories_view cs.
Proof.
  cbv zeta.
  assert (H1 : snd (be_get_categories (store (sys demo_page))) = Ok (MemStore.categories MemStore.seed))
    by reflexivity.
  assert (H2 : snd (be_get_categories (fst (be_get_categories (store (sys demo_page)))))
               = Ok (MemStore.categories MemStore.seed)) by reflexivity.
  split_and!; [reflexivity|exact H1|exact H2|].
  exact (categories_double_load_duplicates demo_cfg demo_page ∅ ∅ _ _ eq_refl H1 H2).
Defined.

(** On the seed, without the cookie: the admin logs in with the right
    password while the first listing is still in flight, and the answer
    to the login arrives first. *)
Lemma login_buttons_follow_cookie_witness :
  let σ := mkSys MemStore.seed false in
  let p0 := default (mkPage σ blank []) (boot σ) in
  let p := default p0 (run_events demo_cfg [EClick (KId "btn-login") {["admin-pass" := "virat123"]};
                                            EResume 1 ""] p0) in
  jar_admin σ = false /\ page_reachable demo_cfg σ p /\ jar_admin (sys p) = true /\
  logout_shown (screen p) = jar_admin (sys p) /\ login_hidden (screen p) = jar_admin (sys p).
Proof.
  cbv zeta.
  assert (Hr : page_reachable demo_cfg (mkSys MemStore.seed false)
    (let p0 := default (mkPage (mkSys MemStore.seed false) blank []) (boot (mkSys MemStore.seed false)) in
     default p0 (run_events demo_cfg [EClick (KId "btn-login") {["admin-pass" := "virat123"]};
                                      EResume 1 ""] p0))).
  { exists (default (mkPage (mkSys MemStore.seed false) blank []) (boot (mkSys MemStore.seed false))).
    split; [apply option_default_Some; vm_compute; reflexivity|].
    apply (run_events_rtc demo_cfg [EClick (KId "btn-login") {["admin-pass" := "virat123"]}; EResume 1 ""]).
    apply option_default_Some. vm_compute. reflexivity. }
  split_and!; [reflexivity|exact Hr|vm_compute; reflexivity|..];
    apply (login_buttons_follow_cookie demo_cfg (mkSys MemStore.seed false) _ eq_refl Hr).
Defined.

Lemma delete_button_refreshes_witness :
  let c := mkCategory "politics" (JStr "Politics") (JNum 2) in
  let cs := MemStore.categories MemStore.seed in
  waiting demo_page = [] /\ snd (be_get_categories (store (sys demo_page))) = Ok cs /\ c ∈ cs /\
  let σ1 := mkSys (fst (be_get_categories (store (sys demo_page)))) (jar_admin (sys demo_page)) in
  let σ2 := Flow.delete_click demo_cfg "categories" (cat_id c) σ1 in
  exists p', run_events demo_cfg [EClick (KId "tab-categories") ∅; EResume 0 "";
                                  EClick (KClass "del" (attr_value (cat_id c))) ∅; EResume 0 "";
                                  EResume 0 ""] demo_page = Some p' /\
    sys p' = mkSys (fst (be_get_categories (store σ2))) (jar_admin σ2) /\ waiting p' = [] /\
    dom (screen p') = match snd (be_get_categories (store σ2)) with
                      | Ok cs' => categories_view cs'
                      | _ => []
                      end.
Proof.
  cbv zeta.
  assert (H1 : snd (be_get_categories (store (sys demo_page))) = Ok (MemStore.categories MemStore.seed))
    by reflexivity.
  assert (Hc : mkCategory "politics" (JStr "Politics") (JNum 2) ∈ MemStore.categories MemStore.seed)
    by (right; left).
  split_and!; [reflexivity|exact H1|exact Hc|].
  exact (delete_button_refreshes demo_cfg demo_page ∅ _ _ eq_refl H1 Hc).
Defined.

(** The double load on the seed: the three categories are listed twice. *)
Example seed_double_load :
  option_map (fun p => List.length (dom (screen p)))
    (run_events demo_cfg [EClick (KId "tab-categories") ∅; EClick (KId "tab-categories") ∅;
                          EResume 0 ""; EResume 0 ""] demo_page) = Some 4.
Proof. vm_compute. reflexivity. Qed.

(** A page loaded while the browser holds the cookie (a reload after
    the login) shows the Login button and hides Logout: the script sets
    the buttons only in the login and logout handlers. *)
Example reload_logged_in_shows_login :
  option_map (fun p => (logout_shown (screen p), login_hidden (screen p), jar_admin (sys p)))
    (boot (mkSys MemStore.seed true)) = Some (false, false, true).
Proof. vm_compute. reflexivity. Qed.

End View.
