(* ===== verification/Lifecycle.v ===== *)
(** The process around the Express app: the port it listens on
    ([process.env.PORT || 4000], index.js line 322), the start-up line
    of the [listen] callback (line 323), and the three handlers that end
    the process with exit code 1 on a server error, an uncaught
    exception or an unhandled rejection (lines 325-338).  The process is
    a state machine over [Phase]: it answers requests through
    [Router.dispatch] only while listening, and once it has exited it
    does nothing more.  The file also holds the one case of the test
    suite (src/mock-api/test/api.test.js) as a predicate on the response
    to [GET /api/categories]. *)

From S2P Require Import Prelude JsValue Records MemStore Backend Router SqlStore.

Local Open Scope string_scope.

Module Lifecycle.
Import Router.
#[local] Existing Instance Sql.sql_backend.

(** Line 322: [process.env.PORT || 4000]; an empty [PORT] is falsy. *)
Definition port_of (env_port : option string) : JsVal :=
  js_or (match env_port with Some p => JStr p | None => JUndefined end) (JNum 4000).

(** Line 323: the template literal the [listen] callback logs. *)
Definition startup_message (port : JsVal) (sqlite : bool) : string :=
  "Mock API running on http://localhost:" ++ Js.to_string port ++
  " (mode=" ++ (if sqlite then "sqlite" else "in-memory") ++ ")".

(** What an error handler receives: [null]/[undefined], or an [Error]
    with its [stack] and [message]. *)
Inductive ErrVal : Type := ENullish | EObj (stack message : string).

(** What [console.error] is given after the label: a string, or the
    value itself. *)
Inductive Shown : Type := SText (s : string) | SValue (e : ErrVal).

(** [err && (err.stack || err.message || err)] (lines 326 and 331). *)
Definition shown (e : ErrVal) : Shown :=
  match e with
  | ENullish => SValue ENullish
  | EObj st msg =>
      if String.eqb st "" then (if String.eqb msg "" then SValue e else SText msg) else SText st
  end.

Inductive LogLine : Type :=
| LogOut (s : string)                  (* console.log(s) *)
| LogErr (label : string) (x : Shown). (* console.error(label, x) *)

Inductive Phase : Type := Starting | Listening | Exited (code : Z).

Record Proc (S : Type) : Type := mkProc { phase : Phase; pstore : S; log : list LogLine }.
Arguments mkProc {S} phase pstore log.
Arguments phase {S} p.
Arguments pstore {S} p.
Arguments log {S} p.

(** What can happen to the process. *)
Inductive PEvent : Type :=
| PListening                           (* the server is bound: the listen callback runs *)
| PServerError (err : ErrVal)          (* server.on('error') *)
| PUncaught (err : ErrVal)             (* process.on('uncaughtException') *)
| PRejection (reason : ErrVal)         (* process.on('unhandledRejection') *)
| PRequest (fresh : string) (req : Request). (* a request; [fresh] is the id nanoid draws *)

Section Step.
Context {S : Type} `{!Backend S} (cfg : Config) (env_port : option string).

(** [console.error(...); process.exit(1)]. *)
Definition exit1 (p : Proc S) (line : LogLine) : Proc S * option Response :=
  (mkProc (Exited 1) (pstore p) (log p ++ [line])%list, None).

(** One event; a static-file request ([dispatch] gives [None]) is
    answered by [express.static], which is not modelled. *)
Definition proc_step (e : PEvent) (p : Proc S) : Proc S * option Response :=
  match phase p with
  | Exited _ => (p, None)
  | ph =>
      match e with
      | PListening =>
          match ph with
          | Starting =>
              (mkProc Listening (pstore p)
                 (log p ++ [LogOut (startup_message (port_of env_port) (use_sqlite cfg))])%list, None)
          | _ => (p, None)
          end
      | PServerError err => exit1 p (LogErr "Server failed to start:" (shown err))
      | PUncaught err => exit1 p (LogErr "Uncaught exception:" (shown err))
      | PRejection reason => exit1 p (LogErr "Unhandled rejection:" (SValue reason))
      | PRequest fresh req =>
          match ph with
          | Listening =>
              match dispatch cfg fresh req (pstore p) with
              | Some (s', r) => (mkProc Listening s' (log p), Some r)
              | None => (p, None)
              end
          | _ => (p, None)
          end
      end
  end.

(** A sequence of events, with what each request was answered. *)
Fixpoint run_proc (es : list PEvent) (p : Proc S) : Proc S * list (option Response) :=
  match es with
  | [] => (p, [])
  | e :: es' =>
      let '(p1, r) := proc_step e p in
      let '(p2, rs) := run_proc es' p1 in
      (p2, r :: rs)
  end.

End Step.

(** The events whose handler calls [process.exit(1)]. *)
Definition fatal (e : PEvent) : bool :=
  match e with PServerError _ | PUncaught _ | PRejection _ => true | _ => false end.

(** ** The test suite (api.test.js lines 5-9) *)

(** [request(app).get('/api/categories')]: no cookie, no body. *)
Definition categories_get : Request := json_request GET ["api"; "categories"] ∅ ∅.

(** [Array.isArray(res.body)]: the bodies [res.json] sends as arrays. *)
Definition is_json_array (b : RBody) : bool :=
  match b with BCategories _ | BArticles _ | BAds _ => true | _ => false end.

(** [expect(res.statusCode).toBe(200); expect(Array.isArray(res.body)).toBe(true)]. *)
Definition categories_test (r : Response) : bool :=
  bool_decide (status r = 200%Z) && is_json_array (body r).

(** ** Lemmas *)

Section Lemmas.
Context {S : Type} `{!Backend S} (cfg : Config) (env_port : option string).

(** An exited process stays as it is and answers nothing. *)
Lemma run_proc_exited code (s : S) l es :
  run_proc cfg env_port es (mkProc (Exited code) s l) = (mkProc (Exited code) s l, (fun _ => None) <$> es).
Proof. induction es as [|e es IH]; [done|]. cbn [run_proc proc_step phase]. by rewrite IH. Qed.

(** A fatal event exits with code 1 and keeps the store. *)
Lemma proc_step_fatal e (p : Proc S) :
  fatal e = true -> (forall c, phase p <> Exited c) ->
  exists l, proc_step cfg env_port e p = (mkProc (Exited 1) (pstore p) l, None).
Proof.
  intros He Hp. unfold proc_step.
  destruct (phase p) as [| |c] eqn:Hph; [| |by destruct (Hp c)];
    destruct e; try discriminate; eexists; reflexivity.
Qed.

(** [GET /api/categories] over a backend whose listing succeeds. *)
Lemma dispatch_categories_get fresh (s : S) cs :
  snd (be_get_categories s) = Ok cs ->
  dispatch cfg fresh categories_get s = Some (fst (be_get_categories s), resp 200 (BCategories cs)).
Proof.
  intros Hc. rewrite (dispatch_route cfg fresh _ s RListCategories []); [|discriminate|reflexivity|reflexivity].
  cbn [run_route]. unfold handle_list_categories, call. by rewrite Hc.
Qed.

End Lemmas.

(** C16: Lines 325-338: after a server error, an uncaught exception or an
    unhandled rejection, the process has exited with code 1, the store
    is what it was before the event, and no request that comes after it
    is answered, whatever the events that follow. *)
Theorem fatal_event_stops_serving {S} `{!Backend S} (cfg : Config) env_port (p : Proc S) e es :
  fatal e = true -> (forall c, phase p <> Exited c) ->
  let '(p', rs) := run_proc cfg env_port (e :: es) p in
  phase p' = Exited 1 /\ pstore p' = pstore p /\ rs = None :: ((fun _ => None) <$> es).
Proof.
  intros He Hp. destruct (proc_step_fatal cfg env_port e p He Hp) as [l Hs].
  cbn [run_proc]. by rewrite Hs, run_proc_exited.
Qed.

(** C17: The test of api.test.js holds of the app index.js builds: on
    either backend and whatever it stores, [GET /api/categories] without
    a cookie answers 200 with an array. *)
Theorem api_test_categories (cfg : Config) fresh :
  (forall s : MemStore.t, exists s' r,
     dispatch cfg fresh categories_get s = Some (s', r) /\ categories_test r = true) /\
  (forall s : Sql.t, exists s' r,
     dispatch cfg fresh categories_get s = Some (s', r) /\ categories_test r = true).
Proof.
  split; intros s; (eexists _, _; split; [apply dispatch_categories_get; reflexivity|reflexivity]).
Qed.

(** ** Witnesses and examples *)

Lemma fatal_event_stops_serving_witness :
  let p := mkProc Listening MemStore.seed [] in
  let es := [PRequest "" categories_get] in
  fatal (PUncaught ENullish) = true /\ (forall c, phase p <> Exited c) /\
  let '(p', rs) := run_proc demo_cfg None (PUncaught ENullish :: es) p in
  phase p' = Exited 1 /\ pstore p' = pstore p /\ rs = None :: ((fun _ => None) <$> es).
Proof.
  cbv zeta. assert (Hp : forall c, phase (mkProc Listening MemStore.seed []) <> Exited c) by discriminate.
  split_and!; [reflexivity|exact Hp|].
  exact (fatal_event_stops_serving demo_cfg None _ (PUncaught ENullish) [PRequest "" categories_get] eq_refl Hp).
Defined.

(** Without [PORT] (or with an empty one), on the in-memory store, the
    process logs the port 4000; a listening process answers the test's
    request. *)
Example startup_default_port :
  port_of None = JNum 4000 /\ port_of (Some "") = JNum 4000 /\ port_of (Some "8080") = JStr "8080" /\
  startup_message (port_of None) false = "Mock API running on http://localhost:4000 (mode=in-memory)".
Proof. split_and!; reflexivity. Qed.

Example listening_answers_test :
  option_map categories_test
    (snd (run_proc demo_cfg None [PRequest "" categories_get; PListening; PRequest "" categories_get]
            (mkProc Starting MemStore.seed [])) !!! 2) = Some true.
Proof. vm_compute. reflexivity. Qed.

End Lifecycle.
